(** * B3 data pipeline: ingestion, normalisation and environment loading

    A shallow embedding of [data_processor_module.py], [config_module.py]
    and [env_loader.py], and of the uploader of [s3_uploader_module.py],
    the scraper of [scraper_module.py] and the download and upload
    stages of [main_pipeline.py].

    Python [str] values are sequences of Unicode code points ([list N]).
    The CSV file is a byte string (a Rocq [string]) decoded as Latin-1.
    The process environment is a finite map from names to values.

    Behaviour that belongs to the libraries the program calls and on which
    nothing proved here depends (the transliteration table of [unidecode],
    Unicode case mapping outside ASCII, the text pandas prints for a number,
    pandas' guessing of a timestamp format, the wall clock) is collected in
    the class [Runtime]; every definition and theorem is parametric in it. *)

From Stdlib Require Import ZArith NArith QArith Qpower List String Ascii Bool Lia.
From stdpp Require Import gmap.
Import ListNotations.

Local Open Scope nat_scope.

(** ** Python strings *)

Module PyStr.

Definition char := N.
Definition str := list char.

(** A literal: the code points of an ASCII/Latin-1 Rocq string. *)
Definition py (s : string) : str := List.map N_of_ascii (list_ascii_of_string s).

Definition ch (a : ascii) : char := N_of_ascii a.

Definition str_eqb (a b : str) : bool := bool_decide (a = b).

Definition in_range (lo hi c : N) : bool := ((lo <=? c) && (c <=? hi))%N.

Definition is_digit (c : char) : bool := in_range 48 57 c.
Definition is_ascii_upper (c : char) : bool := in_range 65 90 c.
Definition is_ascii_lower (c : char) : bool := in_range 97 122 c.

(** The characters [str.strip()] removes: Python's Unicode white space. *)
Definition is_py_space (c : char) : bool :=
  in_range 9 13 c || in_range 28 32 c || (c =? 133)%N || (c =? 160)%N
  || (c =? 5760)%N || in_range 8192 8202 c || (c =? 8232)%N || (c =? 8233)%N
  || (c =? 8239)%N || (c =? 8287)%N || (c =? 12288)%N.

Fixpoint lstrip (s : str) : str :=
  match s with
  | c :: t => if is_py_space c then lstrip t else s
  | [] => []
  end.

Definition rstrip (s : str) : str := rev (lstrip (rev s)).

(** [s.strip()] *)
Definition strip (s : str) : str := rstrip (lstrip s).

Fixpoint startswith (p s : str) : bool :=
  match p, s with
  | [], _ => true
  | a :: p', b :: s' => (a =? b)%N && startswith p' s'
  | _ :: _, [] => false
  end.

Definition endswith (p s : str) : bool := startswith (rev p) (rev s).

(** [s.replace(old, new)] for a non-empty [old]: the occurrences are found
    from the left and do not overlap.  [skip] counts the characters of an
    occurrence that remain to be passed over. *)
Fixpoint replace_from (old new : str) (skip : nat) (s : str) : str :=
  match s with
  | [] => []
  | c :: t =>
      match skip with
      | S k => replace_from old new k t
      | O => if startswith old s
             then new ++ replace_from old new (length old - 1) t
             else c :: replace_from old new 0 t
      end
  end.

(** [s.replace(old, new)]; with an empty [old] Python puts [new] before
    every character and at the end. *)
Definition replace (old new s : str) : str :=
  match old with
  | [] => new ++ concat (List.map (fun c => c :: new) s)
  | _ :: _ => replace_from old new 0 s
  end.

(** [sub in s] *)
Fixpoint contains (sub s : str) : bool :=
  startswith sub s || match s with [] => false | _ :: t => contains sub t end.

(** [s.split(sep, 1)] for a one-character separator that occurs in [s]:
    the text before the first [sep] and the text after it. *)
Fixpoint split_once (sep : char) (s : str) : str * str :=
  match s with
  | [] => ([], [])
  | c :: t => if (c =? sep)%N then ([], t)
              else let '(a, b) := split_once sep t in (c :: a, b)
  end.

(** [s[1:-1]] *)
Definition slice_1_m1 (s : str) : str := removelast (tl s).

(** The lines of a file opened as text (universal newlines), without
    their terminators: a line ends at LF, at CR LF or at a lone CR.
    Every use strips the line or cuts it into fields, so the terminator
    is not kept. *)
Fixpoint lines_from (cur : str) (s : str) : list str :=
  match s with
  | [] => match cur with [] => [] | _ => [rev cur] end
  | c :: t =>
      if (c =? 10)%N then rev cur :: lines_from [] t
      else if (c =? 13)%N then
        match t with
        | d :: t' => if (d =? 10)%N then lines_from cur t
                     else rev cur :: lines_from [] t
        | [] => [rev cur]
        end
      else lines_from (c :: cur) t
  end.

Definition file_lines (s : str) : list str := lines_from [] s.

(** Split on a one-character delimiter, keeping empty fields. *)
Fixpoint fields_from (sep : char) (cur : str) (s : str) : list str :=
  match s with
  | [] => [rev cur]
  | c :: t => if (c =? sep)%N then rev cur :: fields_from sep [] t
              else fields_from sep (c :: cur) t
  end.

Definition split_on (sep : char) (s : str) : list str := fields_from sep [] s.

Definition ascii_upper (c : char) : char := if is_ascii_lower c then (c - 32)%N else c.
Definition ascii_lower (c : char) : char := if is_ascii_upper c then (c + 32)%N else c.

Definition is_ascii (c : char) : bool := (c <? 128)%N.

(** Zero-padded decimal text of a natural number, at least [w] digits. *)
Fixpoint digits_of (fuel : nat) (n : N) (acc : str) : str :=
  match fuel with
  | O => acc
  | S f => let acc' := (48 + n mod 10)%N :: acc in
           if (n / 10 =? 0)%N then acc' else digits_of f (n / 10)%N acc'
  end.

Definition decimal (n : N) : str := digits_of (S (N.to_nat (N.log2 n))) n [].

Definition zero_pad (w : nat) (n : N) : str :=
  let d := decimal n in repeat 48%N (w - length d) ++ d.

Fixpoint digits_value (acc : N) (ds : str) : N :=
  match ds with
  | [] => acc
  | d :: t => digits_value (acc * 10 + (d - 48))%N t
  end.

(** The longest prefix whose characters satisfy [p], and the rest. *)
Fixpoint span (p : char -> bool) (s : str) : str * str :=
  match s with
  | c :: t => if p c then let '(a, b) := span p t in (c :: a, b) else ([], s)
  | [] => ([], [])
  end.

End PyStr.
Export PyStr.

(** ** Numbers and cells *)

Module Numeric.

(** A non-missing float64 value, kept as the exact decimal the text
    denotes: [Finite m e] stands for [m * 10^e].  The rounding of that
    decimal to binary64 keeps its sign and is outside the model. *)
Inductive number :=
  | Finite (m : Z) (e : Z)
  | Infinity (negative : bool).

(** The result of a numeric conversion: [None] is pandas' NaN. *)
Definition fvalue := option number.

Definition Qpow10 (e : Z) : Q := Qpower (10 # 1) e.

Definition number_Q (m e : Z) : Q := (inject_Z m * Qpow10 e)%Q.

(** [x >= 0] for a float value. *)
Definition nonneg (x : number) : Prop :=
  match x with
  | Finite m e => (0 <= number_Q m e)%Q
  | Infinity negative => negative = false
  end.

(** [x] is the decimal [q]. *)
Definition denotes (x : number) (q : Q) : Prop :=
  match x with
  | Finite m e => (number_Q m e == q)%Q
  | Infinity _ => False
  end.

(** The white space the C tokenizer skips: space, TAB, LF, VT, FF, CR. *)
Definition is_c_space (c : char) : bool := (c =? 32)%N || in_range 9 13 c.

Fixpoint skip_c_space (s : str) : str :=
  match s with
  | c :: t => if is_c_space c then skip_c_space t else s
  | [] => []
  end.

(** An optional sign: [true] for ['-']. *)
Definition take_sign (s : str) : bool * str :=
  match s with
  | c :: t => if (c =? ch "-")%N then (true, t)
              else if (c =? ch "+")%N then (false, t)
              else (false, s)
  | [] => (false, [])
  end.

Definition is_exp_mark (c : char) : bool := (c =? ch "e")%N || (c =? ch "E")%N.

(** The exponent part: [e] or [E], an optional sign and at least one
    digit; when no digit follows, nothing is consumed. *)
Definition take_exponent (s : str) : Z * str :=
  match s with
  | c :: t =>
      if is_exp_mark c then
        let '(neg, t1) := take_sign t in
        let '(ds, t2) := span is_digit t1 in
        match ds with
        | [] => (0%Z, s)
        | _ :: _ => let n := Z.of_N (digits_value 0 ds) in
                    ((if neg then - n else n)%Z, t2)
        end
      else (0%Z, s)
  | [] => (0%Z, [])
  end.

(** The decimal parser behind [pd.to_numeric] (the tokenizer's
    [precise_xstrtod], called with decimal point ['.'], no thousands
    separator, trailing white space skipped): white space, an optional
    sign, digits, an optional ['.'] and digits, an optional exponent,
    white space, end of text; at least one digit is required. *)
Definition to_double (s : str) : fvalue :=
  let '(neg, s1) := take_sign (skip_c_space s) in
  let '(ip, s2) := span is_digit s1 in
  let '(fp, s3) :=
    match s2 with
    | c :: t => if (c =? ch ".")%N then span is_digit t else ([], s2)
    | [] => ([], [])
    end in
  match ip ++ fp with
  | [] => None
  | _ :: _ =>
      let '(ex, s4) := take_exponent s3 in
      match skip_c_space s4 with
      | [] => let m := Z.of_N (digits_value 0 (ip ++ fp)) in
              Some (Finite (if neg then - m else m)%Z (ex - Z.of_nat (length fp))%Z)
      | _ :: _ => None
      end
  end.

(** The spellings of infinity accepted when the decimal parser fails,
    compared without regard to case. *)
Definition infinity_word (s : str) : fvalue :=
  let l := List.map ascii_lower s in
  if str_eqb l (py "inf") || str_eqb l (py "+inf")
     || str_eqb l (py "infinity") || str_eqb l (py "+infinity")
  then Some (Infinity false)
  else if str_eqb l (py "-inf") || str_eqb l (py "-infinity")
  then Some (Infinity true)
  else None.

(** One string through [pd.to_numeric(..., errors='coerce')]: the empty
    string and every text that is not a number become NaN. *)
Definition floatify (s : str) : fvalue :=
  match s with
  | [] => None
  | _ :: _ => match to_double s with
              | Some x => Some x
              | None => infinity_word s
              end
  end.

(** A point in time to the second, as [datetime] and pandas' timestamps
    hold it. *)
Record datetime := mkDatetime {
  year : N; month : N; day : N;
  hour : N; minute : N; second : N
}.

(** A cell of a data frame: a missing value, a Python string, a number,
    a boolean, a timestamp or the missing timestamp. *)
Inductive cell :=
  | CNaN
  | CStr (s : str)
  | CNum (x : number)
  | CBool (b : bool)
  | CTime (t : datetime)
  | CNaT.

(** [pd.isna] on a cell. *)
Definition isna (c : cell) : bool :=
  match c with
  | CNaN | CNaT => true
  | _ => false
  end.

Definition cell_of_fvalue (v : fvalue) : cell :=
  match v with
  | Some x => CNum x
  | None => CNaN
  end.

End Numeric.
Export Numeric.

(** ** What the libraries and the operating system supply *)

Class Runtime := {
  (** [unidecode.unidecode]: the transliteration of a text *)
  unidecode : str -> str;
  (** the Unicode upper-case and lower-case mappings of a character
      outside ASCII (a character may map to several) *)
  upper_nonascii : char -> str;
  lower_nonascii : char -> str;
  (** the text [astype(str)] gives for a number of a numeric column *)
  repr_number : number -> str;
  (** [pd.to_datetime(column, errors='coerce')] with no format given:
      the timestamp found for the cell at a position of the column,
      [None] for the missing timestamp *)
  to_datetime_infer : list cell -> nat -> option datetime;
  (** [datetime.now()] *)
  now : datetime
}.

(** ** Calendar dates and their text forms *)

Module Calendar.

Definition is_leap (y : N) : bool :=
  ((y mod 4 =? 0) && (negb (y mod 100 =? 0) || (y mod 400 =? 0)))%N.

Definition days_in_month (y m : N) : N :=
  match m with
  | 1 | 3 | 5 | 7 | 8 | 10 | 12 => 31
  | 4 | 6 | 9 | 11 => 30
  | 2 => if is_leap y then 29 else 28
  | _ => 0
  end%N.

Definition valid_date (y m d : N) : bool :=
  ((1 <=? y) && (1 <=? m) && (m <=? 12) && (1 <=? d) && (d <=? days_in_month y m))%N.

Definition midnight (y m d : N) : datetime := mkDatetime y m d 0 0 0.

(** [strftime("%d/%m/%Y")] *)
Definition strftime_dmY (t : datetime) : str :=
  zero_pad 2 (day t) ++ py "/" ++ zero_pad 2 (month t) ++ py "/" ++ zero_pad 4 (year t).

(** [strftime("%Y-%m-%d")] *)
Definition strftime_Ymd (t : datetime) : str :=
  zero_pad 4 (year t) ++ py "-" ++ zero_pad 2 (month t) ++ py "-" ++ zero_pad 2 (day t).

(** [strftime("%Y-%m-%dT%H:%M:%S")] *)
Definition strftime_iso (t : datetime) : str :=
  strftime_Ymd t ++ py "T" ++ zero_pad 2 (hour t) ++ py ":"
  ++ zero_pad 2 (minute t) ++ py ":" ++ zero_pad 2 (second t).

(** One or two digits, as the directives [%d] and [%m] accept. *)
Definition take_1_2_digits (s : str) : option (N * str) :=
  match s with
  | a :: b :: t =>
      if is_digit a then
        if is_digit b then Some (digits_value 0 [a; b], t)
        else Some (digits_value 0 [a], b :: t)
      else None
  | [a] => if is_digit a then Some (digits_value 0 [a], []) else None
  | [] => None
  end.

Definition expect (c : char) (s : str) : option str :=
  match s with
  | d :: t => if (d =? c)%N then Some t else None
  | [] => None
  end.

(** One text under the format [%d/%m/%Y]: day, month and a four-digit
    year separated by slashes, nothing else, and a date of the calendar.
    (The representable range of the timestamp type is not modelled.) *)
Definition strptime_dmY (s : str) : option datetime :=
  match take_1_2_digits s with
  | Some (d, s1) =>
      match expect (ch "/") s1 with
      | Some s2 =>
          match take_1_2_digits s2 with
          | Some (m, s3) =>
              match expect (ch "/") s3 with
              | Some [y1; y2; y3; y4] =>
                  if forallb is_digit [y1; y2; y3; y4] then
                    let y := digits_value 0 [y1; y2; y3; y4] in
                    if valid_date y m d then Some (midnight y m d) else None
                  else None
              | _ => None
              end
          | None => None
          end
      | None => None
      end
  | None => None
  end.

End Calendar.
Export Calendar.

(** ** Logging and exceptions *)

Module Effects.

Inductive level := INFO | WARNING | ERROR.

(** The messages of [DataProcessor], by what they report. *)
Inductive message :=
  | MsgEmptyFrame                         (* "DataFrame está vazio" *)
  | MsgMissingColumns (missing : list str) (* "Colunas obrigatórias ausentes: ..." *)
  | MsgValidated                          (* "DataFrame validado com sucesso" *)
  | MsgDateFromHeader (date : str)        (* "Data do pregão extraída do cabeçalho: ..." *)
  | MsgDateNotFound (date : str)          (* "Data não encontrada no cabeçalho, usando data atual: ..." *)
  | MsgDateError                          (* "Erro ao extrair data do cabeçalho: ..." *)
  | MsgFileNotFound                       (* "Arquivo CSV não encontrado: ..." *)
  | MsgReading                            (* "Lendo CSV: ..." *)
  | MsgDetectedColumns (n : nat)          (* "Detectadas n colunas no arquivo CSV" *)
  | MsgLoaded (names : list str)          (* "Arquivo CSV lido com sucesso. ..." *)
  | MsgCleaning                           (* "Limpando e convertendo campos numéricos..." *)
  | MsgDateAdded (date : str)             (* "Coluna 'data_pregao' adicionada: ..." *)
  | MsgTimestampAdded (stamp : str)       (* "Coluna 'timestamp_extracao' adicionada: ..." *)
  | MsgFormatting                         (* "Formatando campos de data e hora..." *)
  | MsgDone (n : nat)                     (* "Processamento concluído: n linhas válidas" *)
  | MsgUnexpected                         (* "Erro inesperado ao processar CSV: ..." *)
  | MsgSaving                             (* "Salvando DataFrame em Parquet: ..." *)
  | MsgConverting                         (* "Convertendo timestamps para string ..." *)
  | MsgSaved                              (* "Arquivo Parquet salvo com sucesso: ..." *)
  | MsgSaveError.                         (* "Erro ao salvar arquivo Parquet: ..." *)

Definition log := list (level * message).

Inductive exn :=
  | FileNotFoundError
  | EmptyDataError                        (* pandas: no columns to parse *)
  | MalformedInput (num_cols : nat)       (* ValueError: "Arquivo CSV tem formato inválido ..." *)
  | ValidationFailed                      (* ValueError: "DataFrame final não passou na validação." *)
  | AttributeError                        (* an accessor used on a column of the wrong type *)
  | KeyError (name : str)
  | WriteError.                           (* any failure of the columnar writer *)

Inductive result (A : Type) :=
  | Ok (a : A)
  | Raise (e : exn).
Arguments Ok {A} a.
Arguments Raise {A} e.

(** A computation that appends to the log and returns or raises. *)
Definition M (A : Type) : Type := log -> result A * log.

Definition ret {A} (a : A) : M A := fun l => (Ok a, l).

Definition bind {A B} (m : M A) (k : A -> M B) : M B :=
  fun l => match m l with
           | (Ok a, l') => k a l'
           | (Raise e, l') => (Raise e, l')
           end.

Definition raise {A} (e : exn) : M A := fun l => (Raise e, l).

Definition emit (lv : level) (m : message) : M unit := fun l => (Ok tt, l ++ [(lv, m)]).

(** [try: m except Exception as e: h e] *)
Definition try_except {A} (m : M A) (h : exn -> M A) : M A :=
  fun l => match m l with
           | (Ok a, l') => (Ok a, l')
           | (Raise e, l') => h e l'
           end.

(** The methods of [Logger]: [success] and [process] log at INFO,
    [failure] at ERROR. *)
Definition logger_info := emit INFO.
Definition logger_warning := emit WARNING.
Definition logger_success := emit INFO.
Definition logger_process := emit INFO.
Definition logger_failure := emit ERROR.

(** The value a computation produces from an empty log. *)
Definition outcome {A} (m : M A) : result A := fst (m []).
Definition logged {A} (m : M A) : log := snd (m []).

End Effects.
Export Effects.

Notation "x <- m ;; k" := (bind m (fun x => k))
  (at level 100, m at next level, right associativity).
Notation "m ;;; k" := (bind m (fun _ => k))
  (at level 100, right associativity).

(** ** Data frames *)

Module Frame.

(** A table: its column labels and its rows, every row holding one cell
    per column. *)
Record DataFrame := mkFrame {
  columns : list str;
  rows : list (list cell)
}.

(** [df.empty]: no row or no column. *)
Definition df_empty (df : DataFrame) : bool :=
  (length (columns df) =? 0) || (length (rows df) =? 0).

Fixpoint col_index (name : str) (cols : list str) : option nat :=
  match cols with
  | [] => None
  | c :: t => if str_eqb c name then Some 0
              else match col_index name t with
                   | Some j => Some (S j)
                   | None => None
                   end
  end.

(** [name in df.columns] *)
Definition has_column (df : DataFrame) (name : str) : bool :=
  match col_index name (columns df) with Some _ => true | None => false end.

Definition cell_at (j : nat) (r : list cell) : cell := nth j r CNaN.

(** [df[name]]: the cells of a column, top to bottom. *)
Definition get_column (df : DataFrame) (name : str) : M (list cell) :=
  match col_index name (columns df) with
  | Some j => ret (List.map (cell_at j) (rows df))
  | None => raise (KeyError name)
  end.

(** Row by row, combine a row with the value meant for it. *)
Fixpoint zip_rows (f : cell -> list cell -> list cell)
                  (vals : list cell) (rs : list (list cell)) : list (list cell) :=
  match rs with
  | [] => []
  | r :: rs' => f (hd CNaN vals) r :: zip_rows f (tl vals) rs'
  end.

(** [df[name] = vals]: replaces the column, or adds it as the last one. *)
Definition set_column (df : DataFrame) (name : str) (vals : list cell) : DataFrame :=
  match col_index name (columns df) with
  | Some j => mkFrame (columns df) (zip_rows (fun v r => <[j := v]> r) vals (rows df))
  | None => mkFrame (columns df ++ [name]) (zip_rows (fun v r => r ++ [v]) vals (rows df))
  end.

(** [df[name] = scalar] *)
Definition set_scalar (df : DataFrame) (name : str) (v : cell) : DataFrame :=
  set_column df name (repeat v (length (rows df))).

(** [df.dropna(how='all')] *)
Definition dropna_all (df : DataFrame) : DataFrame :=
  mkFrame (columns df) (List.filter (fun r => negb (forallb isna r)) (rows df)).

Fixpoint indices (names : list str) (cols : list str) : M (list nat) :=
  match names with
  | [] => ret []
  | n :: t => match col_index n cols with
              | Some j => js <- indices t cols ;; ret (j :: js)
              | None => raise (KeyError n)
              end
  end.

(** [df.dropna(subset=names)]: a row stays when none of the named cells
    is missing. *)
Definition dropna_subset (df : DataFrame) (names : list str) : M DataFrame :=
  js <- indices names (columns df) ;;
  ret (mkFrame (columns df)
         (List.filter (fun r => forallb (fun j => negb (isna (cell_at j r))) js) (rows df))).

End Frame.
Export Frame.

(** ** config_module.py *)

Module Config.

(** [REQUIRED_COLUMNS] *)
Definition REQUIRED_COLUMNS : list str :=
  List.map py ["codigo"; "acao"; "tipo"; "qtdeteorica"; "part";
               "data_pregao"; "timestamp_extracao"]%string.



End Config.

(** ** data_processor_module.py *)

Module DataProcessor.

Section WithRuntime.
Context {RT : Runtime}.

(** [s.upper()] and [s.lower()] *)
Definition str_upper (s : str) : str :=
  concat (List.map (fun c => if is_ascii c then [ascii_upper c] else upper_nonascii c) s).






(** [validate_dataframe] *)
Definition validate_dataframe (df : DataFrame) : M bool :=
  if df_empty df then
    logger_failure MsgEmptyFrame ;;; ret false
  else
    let missing_cols : gset str :=
      list_to_set Config.REQUIRED_COLUMNS ∖ list_to_set (columns df) in
    if bool_decide (missing_cols = ∅) then
      logger_success MsgValidated ;;; ret true
    else
      logger_failure (MsgMissingColumns (elements missing_cols)) ;;; ret false.

(** The file as text: [open(csv_path, encoding='latin1')]. *)
Definition decode_latin1 (f : string) : str := py f.

(** [(\d{2})/(\d{2})/(\d{2})] tried at the start of [s].  On Latin-1
    text [\d] is an ASCII digit. *)
Definition date_here (s : str) : option (str * str * str) :=
  match s with
  | d1 :: d2 :: s1 :: m1 :: m2 :: s2 :: y1 :: y2 :: _ =>
      if forallb is_digit [d1; d2; m1; m2; y1; y2]
         && (s1 =? ch "/")%N && (s2 =? ch "/")%N
      then Some ([d1; d2], [m1; m2], [y1; y2])
      else None
  | _ => None
  end.

(** [re.search(date_pattern, s)]: the leftmost match. *)
Fixpoint re_search_date (s : str) : option (str * str * str) :=
  match date_here s with
  | Some g => Some g
  | None => match s with
            | [] => None
            | _ :: t => re_search_date t
            end
  end.

(** [extract_date_from_header]; the argument is the content of the file,
    [None] when it cannot be opened. *)
Definition extract_date_from_header (file : option string) : M str :=
  match file with
  | Some f =>
      let first_line := strip (hd [] (file_lines (decode_latin1 f))) in
      match re_search_date first_line with
      | Some (day, month, year) =>
          let full_year := py "20" ++ year in
          let date_str := day ++ py "/" ++ month ++ py "/" ++ full_year in
          logger_info (MsgDateFromHeader date_str) ;;; ret date_str
      | None =>
          let current_date := strftime_dmY now in
          logger_warning (MsgDateNotFound current_date) ;;; ret current_date
      end
  | None =>
      logger_warning MsgDateError ;;; ret (strftime_dmY now)
  end.

(** [str(Timestamp)] *)
Definition repr_time (t : datetime) : str :=
  strftime_Ymd t ++ py " " ++ zero_pad 2 (hour t) ++ py ":"
  ++ zero_pad 2 (minute t) ++ py ":" ++ zero_pad 2 (second t).

(** One cell through [series.astype(str)]. *)
Definition astype_str (c : cell) : str :=
  match c with
  | CNaN => py "nan"
  | CStr s => s
  | CNum x => repr_number x
  | CBool true => py "True"
  | CBool false => py "False"
  | CTime t => repr_time t
  | CNaT => py "NaT"
  end.

(** [pd.to_numeric(cleaned, errors='coerce')] on a series of strings. *)
Definition to_numeric (cleaned : list str) : list cell :=
  List.map (fun s => cell_of_fvalue (floatify s)) cleaned.

(** [clean_numeric_field] *)
Definition clean_numeric_field (series : list cell) (is_currency : bool) : list cell :=
  match series with
  | [] => series
  | _ :: _ =>
      let cleaned := List.map (fun c => strip (astype_str c)) series in
      let cleaned := List.map (replace (py "%") []) cleaned in
      let cleaned := List.map (replace (py "-") []) cleaned in
      let cleaned := List.map (replace (py "nan") []) cleaned in
      let cleaned := List.map (replace (py "N/A") []) cleaned in
      let cleaned := if is_currency
                     then List.map (replace (py ".") []) cleaned
                     else cleaned in
      let cleaned := List.map (replace (py ",") (py ".")) cleaned in
      to_numeric cleaned
  end.

(** *** The CSV reader

    [pd.read_csv(csv_path, encoding='latin1', delimiter=';', skiprows=1,
    header=None, engine='python', ...)] for a text without quoted fields.
    The first line is skipped; every other line is cut at the
    semicolons; blank lines (no field, or one field of white space) are
    passed over. *)
Definition is_blank_record (r : list str) : bool :=
  match r with
  | [] => true
  | [x] => str_eqb (strip x) []
  | _ :: _ :: _ => false
  end.

Definition csv_records (f : string) : list (list str) :=
  List.filter (fun r => negb (is_blank_record r))
    (List.map (split_on (ch ";")) (tl (file_lines (decode_latin1 f)))).

(** The first call, with [nrows=1]: the number of columns of the sample
    is the number of fields of the first record. *)
Definition read_csv_probe (f : string) : M nat :=
  match csv_records f with
  | [] => raise EmptyDataError
  | r :: _ => ret (length r)
  end.

(** The texts the reader takes for a missing value. *)
Definition na_values : list str :=
  List.map py [""; "#N/A"; "#N/A N/A"; "#NA"; "-1.#IND"; "-1.#QNAN"; "-NaN";
               "-nan"; "1.#IND"; "1.#QNAN"; "<NA>"; "N/A"; "NA"; "NULL";
               "NaN"; "None"; "n/a"; "nan"; "null"]%string.

Definition true_values : list str := List.map py ["True"; "TRUE"; "true"]%string.
Definition false_values : list str := List.map py ["False"; "FALSE"; "false"]%string.

Definition is_in (l : list str) (s : str) : bool := existsb (str_eqb s) l.

(** A field as the reader holds it before conversion: [None] where the
    line was too short. *)
Definition field_is_na (r : option str) : bool :=
  match r with
  | None => true
  | Some s => is_in na_values s
  end.

Definition field_is_numeric (r : option str) : bool :=
  field_is_na r || match r with
                   | Some s => match floatify s with Some _ => true | None => false end
                   | None => false
                   end.

Definition field_is_bool (r : option str) : bool :=
  field_is_na r || match r with
                   | Some s => is_in true_values s || is_in false_values s
                   | None => false
                   end.

(** The type the reader gives a column: numeric when every field is a
    number or missing, boolean when every field is a truth value or
    missing, text otherwise. *)
Inductive kind := KNumeric | KBool | KObject.

Definition column_kind (raw : list (option str)) : kind :=
  if forallb field_is_numeric raw then KNumeric
  else if forallb field_is_bool raw then KBool
  else KObject.

Definition convert (k : kind) (r : option str) : cell :=
  if field_is_na r then CNaN
  else match r, k with
       | Some s, KNumeric => cell_of_fvalue (floatify s)
       | Some s, KBool => CBool (is_in true_values s)
       | Some s, KObject => CStr s
       | None, _ => CNaN
       end.

(** The second call, with [names] and [usecols=range(len(names))]: of
    every record the first [len(names)] fields are kept, a shorter
    record is completed with missing values, and each column is
    converted according to its type. *)
Definition read_csv_frame (names : list str) (f : string) : DataFrame :=
  let records := csv_records f in
  let usecols := seq 0 (length names) in
  let kinds := List.map (fun j => column_kind (List.map (fun r => nth_error r j) records)) usecols in
  mkFrame names
    (List.map (fun r => List.map (fun jk => convert (snd jk) (nth_error r (fst jk)))
                          (combine usecols kinds))
              records).

Definition is_str (c : cell) : bool := match c with CStr _ => true | _ => false end.
Definition is_time (c : cell) : bool := match c with CTime _ | CNaT => true | _ => false end.

(** [series.str.method()]: only for a column of text (one the reader
    found a string in); a cell that is not a string gives NaN. *)
Definition str_accessor (f : str -> str) (series : list cell) : M (list cell) :=
  if existsb is_str series
  then ret (List.map (fun c => match c with CStr s => CStr (f s) | _ => CNaN end) series)
  else raise AttributeError.

(** [pd.to_datetime(series, format='%d/%m/%Y', errors='coerce')]: what
    is not a string is first turned into one. *)
Definition to_datetime_dmY (series : list cell) : list cell :=
  List.map (fun c => if isna c then CNaT
                     else match strptime_dmY (astype_str c) with
                          | Some t => CTime t
                          | None => CNaT
                          end) series.

(** [pd.to_datetime(series, errors='coerce')]: a column of timestamps
    as long as the series. *)
Definition to_datetime_any (series : list cell) : list cell :=
  List.map (fun i => match to_datetime_infer series i with
                     | Some t => CTime t
                     | None => CNaT
                     end) (seq 0 (length series)).

Definition codigo := py "codigo".
Definition acao := py "acao".
Definition tipo := py "tipo".
Definition qtdeteorica := py "qtdeteorica".
Definition part := py "part".
Definition data_pregao := py "data_pregao".
Definition timestamp_extracao := py "timestamp_extracao".

(** The two sets of column names of [process_csv_to_dataframe]. *)
Definition names7 : list str :=
  [codigo; acao; tipo; qtdeteorica; part; data_pregao; timestamp_extracao].
Definition names5 : list str := [codigo; acao; tipo; qtdeteorica; part].

(** The choice of the column names from the number of columns of the
    sample. *)
Definition choose_columns (num_cols : nat) : M (list str) :=
  if 7 <=? num_cols then ret names7
  else if 5 <=? num_cols then ret names5
  else raise (MalformedInput num_cols).

(** The [try] block of [process_csv_to_dataframe] from the point where
    the file has been read into [df]. *)
Definition clean_frame (f : string) (df : DataFrame) : M DataFrame :=
  logger_info (MsgLoaded (columns df)) ;;;
  let df := dropna_all df in
  df <- (if has_column df codigo then
           c <- get_column df codigo ;;
           c <- str_accessor strip c ;;
           c <- str_accessor str_upper c ;;
           ret (set_column df codigo c)
         else ret df) ;;
  logger_process MsgCleaning ;;;
  q <- get_column df qtdeteorica ;;
  let df := set_column df qtdeteorica (clean_numeric_field q true) in
  p <- get_column df part ;;
  let df := set_column df part (clean_numeric_field p false) in
  df <- (if negb (has_column df data_pregao) then
           data_pregao_str <- extract_date_from_header (Some f) ;;
           logger_info (MsgDateAdded data_pregao_str) ;;;
           ret (set_scalar df data_pregao (CStr data_pregao_str))
         else ret df) ;;
  df <- (if negb (has_column df timestamp_extracao) then
           let timestamp_str := strftime_iso now in
           logger_info (MsgTimestampAdded timestamp_str) ;;;
           ret (set_scalar df timestamp_extracao (CStr timestamp_str))
         else ret df) ;;
  logger_process MsgFormatting ;;;
  d <- get_column df data_pregao ;;
  let df := set_column df data_pregao (to_datetime_dmY d) in
  t <- get_column df timestamp_extracao ;;
  let df := set_column df timestamp_extracao (to_datetime_any t) in
  df <- dropna_subset df [codigo; qtdeteorica; part] ;;
  valid <- validate_dataframe df ;;
  if valid then
    logger_success (MsgDone (length (rows df))) ;;; ret df
  else raise ValidationFailed.

(** The whole [try] block: the sample, the choice of the columns, the
    reading and the cleaning. *)
Definition process_body (f : string) : M DataFrame :=
  num_cols <- read_csv_probe f ;;
  logger_info (MsgDetectedColumns num_cols) ;;;
  column_names <- choose_columns num_cols ;;
  let df := read_csv_frame column_names f in
  clean_frame f df.

(** [process_csv_to_dataframe]; the argument is the content of the file
    at [csv_path], [None] when there is no such file. *)
Definition process_csv_to_dataframe (file : option string) : M DataFrame :=
  match file with
  | None => logger_failure MsgFileNotFound ;;; raise FileNotFoundError
  | Some f =>
      logger_process MsgReading ;;;
      try_except (process_body f)
        (fun e => match e with
                  | FileNotFoundError => logger_failure MsgFileNotFound ;;; raise e
                  | _ => logger_failure MsgUnexpected ;;; raise e
                  end)
  end.

End WithRuntime.

(** *** The columnar writer and reader (pyarrow) *)

Class Parquet := {
  (** the content of a columnar file *)
  artifact : Type;
  (** [df.to_parquet(path, ...)]: the file written, [None] when the
      writer raises *)
  to_parquet : DataFrame -> option artifact;
  (** [pd.read_parquet(path)] *)
  read_parquet : artifact -> option DataFrame
}.

Section WithParquet.
Context {RT : Runtime} {PQ : Parquet}.

(** [series.dt.strftime('%Y-%m-%d')]: only for a column of timestamps;
    the missing timestamp gives NaN. *)
Definition dt_strftime_Ymd (series : list cell) : M (list cell) :=
  if forallb is_time series
  then ret (List.map (fun c => match c with
                               | CTime t => CStr (strftime_Ymd t)
                               | _ => CNaN
                               end) series)
  else raise AttributeError.

(** [save_to_parquet]; the result is the file left at [output_path].
    Creating the parent directory and reading the size of the file
    count as part of the writing. *)
Definition save_to_parquet (df : DataFrame) : M artifact :=
  try_except
    (logger_process MsgSaving ;;;
     logger_process MsgConverting ;;;
     let df_copy := df in
     d <- get_column df_copy data_pregao ;;
     d <- dt_strftime_Ymd d ;;
     let df_copy := set_column df_copy data_pregao d in
     t <- get_column df_copy timestamp_extracao ;;
     t <- dt_strftime_Ymd t ;;
     let df_copy := set_column df_copy timestamp_extracao t in
     match to_parquet df_copy with
     | Some file => logger_success MsgSaved ;;; ret file
     | None => raise WriteError
     end)
    (fun e => logger_failure MsgSaveError ;;; raise e).

End WithParquet.

End DataProcessor.
Export DataProcessor.

(** ** env_loader.py *)

Module EnvLoader.

(** What [load_env_file] prints. *)
Inductive printed :=
  | PrintNotFound                               (* "Arquivo .env não encontrado: ..." *)
  | PrintInvalidLine (line_num : nat) (line : str) (* "Linha inválida no .env:n: ..." *)
  | PrintLoaded                                 (* "Variáveis de ambiente carregadas de: ..." *)
  | PrintError.                                 (* "Erro ao carregar .env: ..." *)

(** The process: [os.environ] and the standard output. *)
Record process := mkProcess {
  environ : gmap str str;
  stdout : list printed
}.

(** [os.getenv(key)] *)
Definition getenv (env : gmap str str) (key : str) : option str := env !! key.

(** The truth value of [os.getenv(key)]: set and not empty. *)
Definition truthy (v : option str) : bool :=
  match v with
  | Some (_ :: _) => true
  | _ => false
  end.

(** [os.environ[key] = value]; [None] is the [ValueError] raised for an
    empty name, a name with ['='] or a NUL character in either. *)
Definition setenv (env : gmap str str) (key value : str) : option (gmap str str) :=
  if str_eqb key [] || existsb (N.eqb (ch "=")) key
     || existsb (N.eqb 0) key || existsb (N.eqb 0) value
  then None
  else Some (<[key := value]> env).

Definition dquote : char := 34%N.
Definition squote : char := 39%N.

(** The removal of one pair of surrounding quotes. *)
Definition unquote (value : str) : str :=
  if startswith [dquote] value && endswith [dquote] value then slice_1_m1 value
  else if startswith [squote] value && endswith [squote] value then slice_1_m1 value
  else value.

(** The body of the loop for one line; [None] when it raises. *)
Definition load_line (p : process) (line_num : nat) (line : str) : option process :=
  let line := strip line in
  if str_eqb line [] || startswith (py "#") line then Some p
  else if contains (py "=") line then
    let '(key, value) := split_once (ch "=") line in
    let key := strip key in
    let value := strip value in
    let value := unquote value in
    if negb (str_eqb key []) && negb (truthy (getenv (environ p) key)) then
      match setenv (environ p) key value with
      | Some env' => Some (mkProcess env' (stdout p))
      | None => None
      end
    else Some p
  else Some (mkProcess (environ p) (stdout p ++ [PrintInvalidLine line_num line])).

(** The loop over the lines, numbered from [line_num]; the flag tells
    whether it ran to the end. *)
Fixpoint load_lines (p : process) (line_num : nat) (lines : list str) : process * bool :=
  match lines with
  | [] => (p, true)
  | line :: rest =>
      match load_line p line_num line with
      | Some p' => load_lines p' (S line_num) rest
      | None => (p, false)
      end
  end.

(** [load_env_file]; the second argument is the decoded content of the
    file at [env_path], [None] when there is no such file. *)
Definition load_env_file (p : process) (file : option str) : bool * process :=
  match file with
  | None => (false, mkProcess (environ p) (stdout p ++ [PrintNotFound]))
  | Some text =>
      match load_lines p 1 (file_lines text) with
      | (p', true) => (true, mkProcess (environ p') (stdout p' ++ [PrintLoaded]))
      | (p', false) => (false, mkProcess (environ p') (stdout p' ++ [PrintError]))
      end
  end.

End EnvLoader.
Export EnvLoader.

(** ** Statements of the specification

    Definitions that follow the words of the specification, to be
    compared with the code above. *)

Module Spec.

Definition remove_char (c : char) (s : str) : str :=
  List.filter (fun x => negb (x =? c)%N) s.

(** "strip whitespace; remove [%], stray [-], and literal not-available
    tokens; if thousands-grouped, remove [.]; replace decimal comma with
    decimal point" *)
Definition spec_clean_text (is_thousands_grouped : bool) (v : str) : str :=
  let s := strip v in
  let s := remove_char (ch "%") s in
  let s := remove_char (ch "-") s in
  let s := replace (py "nan") [] s in
  let s := replace (py "N/A") [] s in
  let s := if is_thousands_grouped then remove_char (ch ".") s else s in
  List.map (fun x => if (x =? ch ",")%N then ch "." else x) s.




End Spec.

(** ** Views of the code used in the proofs *)

Module View.

Section WithRuntime.
Context {RT : Runtime}.

(** What [clean_numeric_field] does to the text of one cell. *)
Definition clean_text (is_currency : bool) (s : str) : str :=
  let s := strip s in
  let s := replace (py "%") [] s in
  let s := replace (py "-") [] s in
  let s := replace (py "nan") [] s in
  let s := replace (py "N/A") [] s in
  let s := if is_currency then replace (py ".") [] s else s in
  replace (py ",") (py ".") s.

Definition clean_number (is_currency : bool) (c : cell) : cell :=
  cell_of_fvalue (floatify (clean_text is_currency (astype_str c))).

(** What the two [.str] steps do to one cell of the code column. *)
Definition clean_code (c : cell) : cell :=
  match c with
  | CStr s => CStr (str_upper (strip s))
  | _ => CNaN
  end.

(** The first six cells of a row after cleaning; [date] gives the cell
    of the session date. *)
Definition canonical (date : list cell -> cell) (r : list cell) : list cell :=
  [clean_code (cell_at 0 r); cell_at 1 r; cell_at 2 r;
   clean_number true (cell_at 3 r); clean_number false (cell_at 4 r);
   date r].

(** A row with its code, quantity and participation present. *)
Definition complete (r : list cell) : bool :=
  forallb (fun j => negb (isna (cell_at j r))) [0; 3; 4].

(** The table as read with the given names, without its rows that are
    missing throughout. *)
Definition loaded (names : list str) (f : string) : list (list cell) :=
  rows (dropna_all (read_csv_frame names f)).

(** The first line of the file as [extract_date_from_header] scans it. *)
Definition banner (f : string) : str :=
  strip (hd [] (file_lines (decode_latin1 f))).

(** The date text [extract_date_from_header] finds for a file. *)
Definition header_date (f : string) : str :=
  match re_search_date (banner f) with
  | Some (day, month, year) => day ++ py "/" ++ month ++ py "/" ++ py "20" ++ year
  | None => strftime_dmY now
  end.


(** What [to_datetime_dmY] makes of one cell. *)
Definition to_datetime_cell (c : cell) : cell :=
  if isna c then CNaT
  else match strptime_dmY (astype_str c) with
       | Some t => CTime t
       | None => CNaT
       end.

(** What the cleaning does to one row read under five names: the code,
    the two numbers, the two added cells, the date. *)
Definition row_steps_5 (d ts : str) (r : list cell) : list cell :=
  let r := <[0 := clean_code (cell_at 0 r)]> r in
  let r := <[3 := clean_number true (cell_at 3 r)]> r in
  let r := <[4 := clean_number false (cell_at 4 r)]> r in
  let r := r ++ [CStr d] in
  let r := r ++ [CStr ts] in
  <[5 := to_datetime_cell (cell_at 5 r)]> r.

(** The same for a row read under seven names. *)
Definition row_steps_7 (r : list cell) : list cell :=
  let r := <[0 := clean_code (cell_at 0 r)]> r in
  let r := <[3 := clean_number true (cell_at 3 r)]> r in
  let r := <[4 := clean_number false (cell_at 4 r)]> r in
  <[5 := to_datetime_cell (cell_at 5 r)]> r.

(** The conversion of the last column, which looks at the column as a
    whole. *)
Definition stamp (rs : list (list cell)) : list (list cell) :=
  zip_rows (fun v r => <[6 := v]> r) (to_datetime_any (List.map (cell_at 6) rs)) rs.

(** The outcome of [clean_frame] from the rows it is given and their
    row-by-row cleaning. *)
Definition clean_result (raw cleaned : list (list cell)) : result DataFrame :=
  if existsb is_str (List.map (cell_at 0) raw) then
    match List.filter complete (stamp cleaned) with
    | [] => Raise ValidationFailed
    | (_ :: _) as kept => Ok (mkFrame names7 kept)
    end
  else Raise AttributeError.

(** The rows [dropna(how='all')] keeps. *)
Definition present (rs : list (list cell)) : list (list cell) :=
  List.filter (fun r => negb (forallb isna r)) rs.

(** The column names chosen for a file, when its sample has at least
    five fields. *)
Definition chosen_names (f : string) : option (list str) :=
  match csv_records f with
  | [] => None
  | r :: _ => if 7 <=? length r then Some names7
              else if 5 <=? length r then Some names5
              else None
  end.

(** The cell of the session date of a row: converted from the row's own
    cell when the file has the column, from the banner otherwise. *)
Definition session_date (f : string) (names : list str) (r : list cell) : cell :=
  match col_index data_pregao names with
  | Some j => to_datetime_cell (cell_at j r)
  | None => to_datetime_cell (CStr (header_date f))
  end.

(** The cleaned rows of a file that have a code, a quantity and a
    participation: the first six cells of each. *)
Definition cleaned (f : string) (names : list str) : list (list cell) :=
  List.filter complete (List.map (canonical (session_date f names)) (loaded names f)).

(** The result of [process_csv_to_dataframe] as a function of the file. *)
Definition ingest (f : string) : result DataFrame :=
  match csv_records f with
  | [] => Raise EmptyDataError
  | r :: _ =>
      if 7 <=? length r then
        clean_result (loaded names7 f) (List.map row_steps_7 (loaded names7 f))
      else if 5 <=? length r then
        clean_result (loaded names5 f)
          (List.map (row_steps_5 (header_date f) (strftime_iso now)) (loaded names5 f))
      else Raise (MalformedInput (length r))
  end.

(** [read_csv_frame] on the records of a file. *)
Definition frame_of_records (names : list str) (records : list (list str)) : DataFrame :=
  let usecols := seq 0 (length names) in
  let kinds := List.map (fun j => column_kind (List.map (fun r => nth_error r j) records)) usecols in
  mkFrame names
    (List.map (fun r => List.map (fun jk => convert (snd jk) (nth_error r (fst jk)))
                          (combine usecols kinds))
              records).

(** The cells of a column, top to bottom; none when the table has no
    such column. *)
Definition column_cells (df : DataFrame) (name : str) : list cell :=
  match col_index name (columns df) with
  | Some j => List.map (cell_at j) (rows df)
  | None => []
  end.

(** Every row has one cell for each column. *)
Definition well_formed (df : DataFrame) : Prop :=
  Forall (fun r => length r = length (columns df)) (rows df).





(** A returned row, as far as this development looks at it: seven
    cells, a timestamp in the last, and the three required cells
    present. *)
Definition sound_row (r : list cell) : Prop :=
  (length r = 7 /\ is_time (cell_at 6 r) = true) /\ complete r = true.

(** What [.dt.strftime('%Y-%m-%d')] makes of a cell. *)
Definition time_text (c : cell) : cell :=
  match c with
  | CTime t => CStr (strftime_Ymd t)
  | _ => CNaN
  end.

(** The rows [save_to_parquet] hands to the writer: the cells of the
    two time columns as text. *)
Definition text_rows (jd jt : nat) (rs : list (list cell)) : list (list cell) :=
  List.map (fun r => <[jt := time_text (cell_at jt r)]> r)
    (List.map (fun r => <[jd := time_text (cell_at jd r)]> r) rs).

(** A cell that is either missing or a number that is not negative. *)
Definition cell_nonneg (c : cell) : Prop :=
  match c with
  | CNum x => nonneg x
  | CNaN => True
  | _ => False
  end.

End WithRuntime.

End View.

(** ** Sample inputs *)

Module Samples.

(** A run of the program on 5 August 2025 at 09:30:00, with libraries
    that leave non-ASCII text alone and recognise only the timestamp the
    program itself writes. *)
Definition clock : datetime := mkDatetime 2025 8 5 9 30 0.

Definition reference_runtime : Runtime := {|
  unidecode := fun s => s;
  upper_nonascii := fun c => [c];
  lower_nonascii := fun c => [c];
  repr_number := fun _ => py "0";
  to_datetime_infer := fun series i =>
    match nth i series CNaN with
    | CStr s => if str_eqb s (strftime_iso clock) then Some clock else None
    | _ => None
    end;
  now := clock
|}.

(** The daily file: banner, header line, three shares, a total line
    without a code. *)
Definition ibov_csv : string :=
"IBOV - Carteira do Dia 04/08/25
Codigo;Acao;Tipo;Qtde. Teorica;Part. (%)
PETR4;PETROBRAS PN;PN;1.234.567,89;5,5
VALE3;VALE ON;ON;987.654,32;3,2
ITUB4;ITAU UNIBANCO PN;PN;2.345.678,90;4,8
;;;4.567.901,11;13,5
".

(** A banner with an earlier date in front of the session date. *)
Definition dated_banner_csv : string :=
"Gerado em 01/08/2025 - IBOV - Carteira do Dia 04/08/25
Codigo;Acao;Tipo;Qtde. Teorica;Part. (%)
PETR4;PETROBRAS PN;PN;1.234.567,89;5,5
".



(** A file with nine fields to the line. *)
Definition nine_fields_csv : string :=
"IBOV
PETR4;PETROBRAS PN;PN;1.234,5;5,5;04/08/2025;2025-08-05T09:30:00;x;y
".

(** The table ingestion makes of the daily file. *)
Definition ibov_table : DataFrame :=
  Eval vm_compute in
    match fst (@process_csv_to_dataframe reference_runtime (Some ibov_csv) []) with
    | Ok df => df
    | Raise _ => mkFrame [] []
    end.

(** A columnar format that keeps the table as it is. *)
Definition plain_parquet : Parquet := {|
  artifact := DataFrame;
  to_parquet := fun df => Some df;
  read_parquet := fun file => Some file
|}.

(** A process with one variable set, and a file that names it again. *)
Definition sample_process : process :=
  mkProcess {[ py "AWS_REGION" := py "sa-east-1" ]} [].

Definition sample_env_file : str :=
  py "# credentials
AWS_REGION=us-east-1
S3_BUCKET_NAME='b3-data'
".

End Samples.

(** ** config_module.py: file names *)

Module ConfigFiles.

Section WithRuntime.
Context {RT : Runtime}.

(** [date.strftime("%d-%m-%y")] *)
Definition strftime_dmy (date : datetime) : str :=
  zero_pad 2 (day date) ++ py "-" ++ zero_pad 2 (month date) ++ py "-"
  ++ zero_pad 2 (year date mod 100).

(** [date] when given, [datetime.now().date()] otherwise. *)
Definition date_or_today (date : option datetime) : datetime :=
  match date with
  | Some d => d
  | None => now
  end.

(** [get_csv_filename] *)
Definition get_csv_filename (date : option datetime) : str :=
  let date := date_or_today date in
  py "IBOVDia_" ++ strftime_dmy date ++ py ".csv".

(** [get_parquet_filename] *)
Definition get_parquet_filename (date : option datetime) : str :=
  let csv_name := get_csv_filename date in
  replace (py ".csv") (py ".parquet") csv_name.

(** [get_s3_key] *)
Definition get_s3_key (date : option datetime) : str :=
  let date := date_or_today date in
  let parquet_name := get_parquet_filename (Some date) in
  py "raw/parquet file/" ++ parquet_name.

End WithRuntime.

End ConfigFiles.
Export ConfigFiles.

(** ** env_loader.py: validation and start-up *)

Module EnvCheck.

(** The dictionary [validate_required_env_vars] returns. *)
Record validation := mkValidation {
  is_valid : bool;               (* 'valid' *)
  missing_vars : list str;       (* 'missing' *)
  empty_vars : list str;         (* 'empty' *)
  valid_vars : list str;         (* 'valid_vars' *)
  total_required : nat;
  total_valid : nat
}.

(** The body of the loop of [validate_required_env_vars]: the three
    lists, one of which receives [var]. *)
Definition classify (env : gmap str str)
    (lists : list str * list str * list str) (var : str)
    : list str * list str * list str :=
  let '(missing_vars, empty_vars, valid_vars) := lists in
  match getenv env var with
  | None => (missing_vars ++ [var], empty_vars, valid_vars)
  | Some value =>
      if str_eqb (strip value) [] then (missing_vars, empty_vars ++ [var], valid_vars)
      else (missing_vars, empty_vars, valid_vars ++ [var])
  end.

(** [validate_required_env_vars] *)
Definition validate_required_env_vars (env : gmap str str) (required_vars : list str)
    : validation :=
  let '(missing_vars, empty_vars, valid_vars) :=
    fold_left (classify env) required_vars ([], [], []) in
  mkValidation
    ((length missing_vars =? 0) && (length empty_vars =? 0))
    missing_vars empty_vars valid_vars
    (length required_vars) (length valid_vars).

(** [os.getenv(key, default)] *)
Definition getenv_default (env : gmap str str) (key default : str) : str :=
  match getenv env key with
  | Some value => value
  | None => default
  end.

(** [get_aws_config_from_env]: a dictionary whose values may be [None]. *)
Definition get_aws_config_from_env (env : gmap str str) : gmap str (option str) :=
  {[ py "aws_access_key_id" := getenv env (py "AWS_ACCESS_KEY_ID");
     py "aws_secret_access_key" := getenv env (py "AWS_SECRET_ACCESS_KEY");
     py "aws_session_token" := getenv env (py "AWS_SESSION_TOKEN");
     py "region_name" := Some (getenv_default env (py "AWS_REGION") (py "us-east-1"));
     py "bucket_name" := getenv env (py "S3_BUCKET_NAME") ]}.

(** The lines the start-up prints. *)
Inductive line :=
  | LineLoader (p : printed)                  (* a line of [load_env_file] *)
  | LineInitializing                          (* "Inicializando ambiente..." *)
  | LineStatusHeader                          (* "STATUS DAS VARIÁVEIS DE AMBIENTE:" *)
  | LineValidCount (total_valid total_required : nat)
  | LineMissing (vars : list str)             (* "Ausentes: ..." *)
  | LineEmpty (vars : list str)               (* "Vazias: ..." *)
  | LineOptionalHeader                        (* "Opcionais:" *)
  | LineOptional (marked : bool) (var : str) (value : option str)
  | LineIncomplete                            (* "CONFIGURAÇÃO INCOMPLETA!" *)
  | LineConfigure                             (* "Configure as variáveis ausentes ..." *)
  | LineConfigured.                           (* "Ambiente configurado corretamente!" *)

Definition aws_vars : list str :=
  [py "AWS_ACCESS_KEY_ID"; py "AWS_SECRET_ACCESS_KEY"; py "S3_BUCKET_NAME"].

(** The mark of an optional variable: set, not empty, and not one of
    the two default texts. *)
Definition optional_mark (value : option str) : bool :=
  match value with
  | Some v => truthy (Some v) && negb (str_eqb v (py "us-east-1") || str_eqb v (py "INFO"))
  | None => false
  end.

(** The value shown: [value or 'não definida'], [None] standing for the
    latter. *)
Definition shown (value : option str) : option str :=
  if truthy value then value else None.

(** [print_env_status] *)
Definition print_env_status (env : gmap str str) : list line :=
  let validation := validate_required_env_vars env aws_vars in
  let optional_vars :=
    [(py "AWS_SESSION_TOKEN", getenv env (py "AWS_SESSION_TOKEN"));
     (py "AWS_REGION", Some (getenv_default env (py "AWS_REGION") (py "us-east-1")));
     (py "LOG_LEVEL", Some (getenv_default env (py "LOG_LEVEL") (py "INFO")))] in
  [LineStatusHeader;
   LineValidCount (total_valid validation) (total_required validation)]
  ++ (match missing_vars validation with
      | [] => []
      | _ :: _ => [LineMissing (missing_vars validation)]
      end)
  ++ (match empty_vars validation with
      | [] => []
      | _ :: _ => [LineEmpty (empty_vars validation)]
      end)
  ++ [LineOptionalHeader]
  ++ List.map (fun vv => LineOptional (optional_mark (snd vv)) (fst vv) (shown (snd vv)))
       optional_vars.

(** [initialize_environment]; [file] is the content of [.env], [None]
    when there is no such file.  The result is the flag returned, the
    environment left and the lines printed. *)
Definition initialize_environment (env : gmap str str) (file : option str)
    : bool * gmap str str * list line :=
  let '(env_loaded, p) := load_env_file (mkProcess env []) file in
  let env := environ p in
  let out := [LineInitializing] ++ List.map LineLoader (stdout p) in
  let required_vars := aws_vars in
  let validation := validate_required_env_vars env required_vars in
  let out := out ++ print_env_status env in
  if negb (is_valid validation) then
    (false, env, out ++ [LineIncomplete; LineConfigure])
  else
    (true, env, out ++ [LineConfigured]).

End EnvCheck.
Export EnvCheck.


(** ** s3_uploader_module.py *)

Module S3Uploader.

(** The exceptions a call of boto3 ends with, as the module tells them
    apart; the response of a [ClientError] carries its error code. *)
Inductive aws_error :=
  | NoCredentialsError
  | ClientError (error_code : str)        (* e.response['Error']['Code'] *)
  | OtherError.                           (* any other exception *)

(** The response of [head_object], as far as it is read. *)
Record head_response := mkResponse {
  ContentLength : option N;
  LastModified : option datetime;
  ETag : option str;
  Metadata : option (gmap str str)
}.

(** The dictionary [get_object_info] returns. *)
Record object_info := mkInfo {
  info_size : option N;                   (* 'size' *)
  info_last_modified : option datetime;   (* 'last_modified' *)
  info_etag : option str;                 (* 'etag' *)
  info_metadata : gmap str str            (* 'metadata' *)
}.

(** boto3 and the storage service behind it.  Every call is given the
    state of the service and leaves a state. *)
Class S3 := {
  (** a client object *)
  client : Type;
  (** the state of the service *)
  service : Type;
  (** an entry of the ['Contents'] of a listing *)
  listed : Type;
  (** [boto3.client('s3', **client_config)] *)
  boto3_client : gmap str (option str) -> aws_error + client;
  (** [client.head_bucket(Bucket=bucket)] *)
  head_bucket : client -> option str -> service -> option aws_error * service;
  (** [client.upload_file(filename, bucket, key, ExtraArgs=args)] *)
  client_upload_file :
    client -> str -> option str -> str -> gmap str (gmap str str) -> service
    -> option aws_error * service;
  (** [client.head_object(Bucket=bucket, Key=key)] *)
  head_object : client -> option str -> str -> service -> (aws_error + head_response) * service;
  (** [client.list_objects_v2(Bucket=bucket, Prefix=prefix)]: the
      ['Contents'] of the response, when it has them *)
  list_objects_v2 :
    client -> option str -> str -> service -> (aws_error + option (list listed)) * service
}.

(** The messages of the uploader's logger. *)
Inductive note :=
  | NoteConfigMissing (missing_fields : list str) (* "Configurações AWS ausentes: ..." *)
  | NoteConfigValidated                   (* "Configurações AWS validadas" *)
  | NoteClientStarting (region : option str) (* "Inicializando cliente S3 para a região: ..." *)
  | NoteClientReady                       (* "Cliente S3 inicializado com sucesso" *)
  | NoteClientError                       (* "Erro ao inicializar cliente S3: ..." *)
  | NoteBucketTesting (bucket : option str) (* "Testando acesso ao bucket: ..." *)
  | NoteBucketAccessible (bucket : option str) (* "Bucket ... está acessível" *)
  | NoteBucketNotFound (bucket : option str)   (* "Bucket ... não encontrado" *)
  | NoteBucketForbidden (bucket : option str)  (* "Sem permissão para acessar bucket ..." *)
  | NoteBucketError                       (* "Erro ao acessar bucket: ..." *)
  | NoteBucketUnexpected                  (* "Erro inesperado ao testar bucket: ..." *)
  | NoteUploadStarting (file : str) (bucket : option str) (key : str)
                                          (* "Iniciando upload: ... -> s3://.../..." *)
  | NoteMetadata (metadata : gmap str str) (* "Metadados a serem enviados: ..." *)
  | NoteUploading (bucket : option str) (key : str) (* "Executando upload para ..." *)
  | NoteUploaded (bucket : option str) (key : str)  (* "Upload concluído: ..." *)
  | NoteBadCredentials                    (* "Credenciais AWS não encontradas ou inválidas" *)
  | NoteAwsError (error_code : str)       (* "Erro AWS (code): ..." *)
  | NoteUploadUnexpected                  (* "Erro inesperado durante upload: ..." *)
  | NoteObjectsFound (count : nat) (prefix : str) (* "Encontrados n objetos com prefixo ..." *)
  | NoteListError                         (* "Erro ao listar objetos: ..." *)
  | NoteObjectNotFound (key : str)        (* "Objeto não encontrado: ..." *)
  | NoteObjectError                       (* "Erro ao obter info do objeto: ..." *)
  | NoteObjectUnexpected.                 (* "Erro inesperado: ..." *)

(** What a method raises. *)
Inductive failure :=
  | ConfigMissing (missing_fields : list str) (* ValueError: "Configurações AWS obrigatórias ausentes: ..." *)
  | ConfigKeyError (key : str)            (* KeyError of [self.aws_config[key]] *)
  | PathNotFound                          (* FileNotFoundError: "Arquivo não encontrado: ..." *)
  | NoClient                              (* AttributeError: a call on [None] *)
  | Aws (e : aws_error).

Inductive completion (A : Type) :=
  | Returned (a : A)
  | Raised (e : failure).
Arguments Returned {A} a.
Arguments Raised {A} e.

Section WithS3.
Context {RT : Runtime} {S3I : S3}.

(** The uploader object, the service and the log. *)
Record state := mkState {
  s3_client : option client;              (* self.s3_client *)
  aws_config : gmap str (option str);     (* self.aws_config *)
  world : service;
  notes : list (level * note)
}.

(** A method: it changes the state and returns or raises. *)
Definition U (A : Type) : Type := state -> completion A * state.

Definition unit_ {A} (a : A) : U A := fun st => (Returned a, st).

Definition then_ {A B} (m : U A) (k : A -> U B) : U B :=
  fun st => match m st with
            | (Returned a, st') => k a st'
            | (Raised e, st') => (Raised e, st')
            end.

Definition raise_ {A} (e : failure) : U A := fun st => (Raised e, st).

(** [try: m except ... as e: h e] *)
Definition catch_ {A} (m : U A) (h : failure -> U A) : U A :=
  fun st => match m st with
            | (Returned a, st') => (Returned a, st')
            | (Raised e, st') => h e st'
            end.

Definition read_ {A} (f : state -> A) : U A := fun st => (Returned (f st), st).

Definition log_ (lv : level) (n : note) : U unit :=
  fun st => (Returned tt,
             mkState (s3_client st) (aws_config st) (world st) (notes st ++ [(lv, n)])).

Definition set_client (c : client) : U unit :=
  fun st => (Returned tt, mkState (Some c) (aws_config st) (world st) (notes st)).

(** A call of the service. *)
Definition call_ {A} (f : service -> A * service) : U A :=
  fun st => let '(a, w) := f (world st) in
            (Returned a, mkState (s3_client st) (aws_config st) w (notes st)).

Notation "x <~ m ;; k" := (then_ m (fun x => k))
  (at level 100, m at next level, right associativity).
Notation "m ;;~ k" := (then_ m (fun _ => k))
  (at level 100, right associativity).

(** The entry of a key in the configuration, if it has one. *)
Definition entry (config : gmap str (option str)) (key : str) : option (option str) :=
  config !! key.

(** [self.aws_config[key]] *)
Definition config_item (key : str) : U (option str) :=
  config <~ read_ aws_config ;;
  match entry config key with
  | Some value => unit_ value
  | None => raise_ (ConfigKeyError key)
  end.

(** The truth value of [self.aws_config.get(key)]. *)
Definition config_set (config : gmap str (option str)) (key : str) : bool :=
  match entry config key with
  | Some (Some (_ :: _)) => true
  | _ => false
  end.

Definition required_fields : list str :=
  [py "aws_access_key_id"; py "aws_secret_access_key"; py "bucket_name"].

(** [_validate_aws_config] *)
Definition _validate_aws_config : U unit :=
  config <~ read_ aws_config ;;
  let missing_fields :=
    List.filter (fun field => negb (config_set config field)) required_fields in
  match missing_fields with
  | _ :: _ =>
      log_ ERROR (NoteConfigMissing missing_fields) ;;~
      raise_ (ConfigMissing missing_fields)
  | [] => log_ INFO NoteConfigValidated
  end.

(** [S3Uploader()]: the object made from the environment, and what
    the constructor returns or raises. *)
Definition new_uploader (env : gmap str str) (w : service) : completion unit * state :=
  _validate_aws_config (mkState None (get_aws_config_from_env env) w []).

(** [_initialize_s3_client] *)
Definition _initialize_s3_client : U unit :=
  catch_
    (config <~ read_ aws_config ;;
     log_ INFO (NoteClientStarting
                       (match entry config (py "region_name") with
                        | Some region => region
                        | None => Some (py "default")
                        end)) ;;~
     region_name <~ config_item (py "region_name") ;;
     aws_access_key_id <~ config_item (py "aws_access_key_id") ;;
     aws_secret_access_key <~ config_item (py "aws_secret_access_key") ;;
     let client_config : gmap str (option str) :=
       {[ py "region_name" := region_name;
          py "aws_access_key_id" := aws_access_key_id;
          py "aws_secret_access_key" := aws_secret_access_key ]} in
     client_config <~
       (if config_set config (py "aws_session_token") then
          aws_session_token <~ config_item (py "aws_session_token") ;;
          unit_ (<[py "aws_session_token" := aws_session_token]> client_config)
        else unit_ client_config) ;;
     match boto3_client client_config with
     | inr c => set_client c ;;~ log_ INFO NoteClientReady
     | inl e => raise_ (Aws e)
     end)
    (fun e => log_ ERROR NoteClientError ;;~ raise_ e).

(** [if not self.s3_client: self._initialize_s3_client()] *)
Definition ensure_client : U unit :=
  current <~ read_ s3_client ;;
  match current with
  | Some _ => unit_ tt
  | None => _initialize_s3_client
  end.

(** [self.s3_client] in a call; the method above has set it. *)
Definition the_client : U client :=
  current <~ read_ s3_client ;;
  match current with
  | Some c => unit_ c
  | None => raise_ NoClient
  end.

(** [test_bucket_access] *)
Definition test_bucket_access : U bool :=
  ensure_client ;;~
  catch_
    (bucket_name <~ config_item (py "bucket_name") ;;
     catch_
       (log_ INFO (NoteBucketTesting bucket_name) ;;~
        c <~ the_client ;;
        answer <~ call_ (head_bucket c bucket_name) ;;
        match answer with
        | None => log_ INFO (NoteBucketAccessible bucket_name) ;;~ unit_ true
        | Some e => raise_ (Aws e)
        end)
       (fun e =>
          match e with
          | Aws (ClientError error_code) =>
              (if str_eqb error_code (py "404") then
                 log_ ERROR (NoteBucketNotFound bucket_name)
               else if str_eqb error_code (py "403") then
                 log_ ERROR (NoteBucketForbidden bucket_name)
               else log_ ERROR NoteBucketError) ;;~
              unit_ false
          | _ => raise_ e
          end))
    (fun e => log_ ERROR NoteBucketUnexpected ;;~ unit_ false).

(** A path: its text and its last component. *)
Record path := mkPath {
  path_text : str;                        (* str(file_path) *)
  path_name : str                         (* file_path.name *)
}.

(** The truth value of an optional dictionary. *)
Definition dict_set (metadata : option (gmap str str)) : bool :=
  match metadata with
  | Some d => negb (bool_decide (d = ∅))
  | None => false
  end.

(** [upload_file]; [size] is the size of the file at [file_path],
    [None] when there is no such file. *)
Definition upload_file (file_path : path) (size : option N)
    (s3_key : option str) (metadata : option (gmap str str)) : U bool :=
  match size with
  | None => raise_ PathNotFound
  | Some st_size =>
      ensure_client ;;~
      let s3_key := match s3_key with
                    | Some key => key
                    | None => get_s3_key None
                    end in
      bucket_name <~ config_item (py "bucket_name") ;;
      catch_
        (accessible <~ test_bucket_access ;;
         if negb accessible then unit_ false
         else
           log_ INFO (NoteUploadStarting (path_text file_path) bucket_name s3_key) ;;~
           let upload_args : gmap str (gmap str str) := ∅ in
           let upload_args :=
             match metadata with
             | Some d => if dict_set metadata then <[py "Metadata" := d]> upload_args
                         else upload_args
             | None => upload_args
             end in
           let default_metadata : gmap str str :=
             {[ py "source" := py "b3-data-pipeline";
                py "file_size" := decimal st_size;
                py "original_filename" := path_name file_path ]} in
           let default_metadata :=
             match metadata with
             | Some d => if dict_set metadata then d ∪ default_metadata
                         else default_metadata
             | None => default_metadata
             end in
           let upload_args := <[py "Metadata" := default_metadata]> upload_args in
           log_ INFO (NoteMetadata default_metadata) ;;~
           log_ INFO (NoteUploading bucket_name s3_key) ;;~
           c <~ the_client ;;
           answer <~ call_ (client_upload_file c (path_text file_path) bucket_name s3_key
                              upload_args) ;;
           match answer with
           | None => log_ INFO (NoteUploaded bucket_name s3_key) ;;~ unit_ true
           | Some e => raise_ (Aws e)
           end)
        (fun e =>
           match e with
           | Aws NoCredentialsError => log_ ERROR NoteBadCredentials ;;~ unit_ false
           | Aws (ClientError error_code) =>
               log_ ERROR (NoteAwsError error_code) ;;~ unit_ false
           | _ => log_ ERROR NoteUploadUnexpected ;;~ unit_ false
           end)
  end.

(** [list_objects] *)
Definition list_objects (prefix : str) : U (list listed) :=
  ensure_client ;;~
  catch_
    (bucket_name <~ config_item (py "bucket_name") ;;
     c <~ the_client ;;
     answer <~ call_ (list_objects_v2 c bucket_name prefix) ;;
     match answer with
     | inr contents =>
         let objects := match contents with Some l => l | None => [] end in
         log_ INFO (NoteObjectsFound (length objects) prefix) ;;~
         unit_ objects
     | inl e => raise_ (Aws e)
     end)
    (fun e => log_ ERROR NoteListError ;;~ unit_ []).

(** [get_object_info] *)
Definition get_object_info (s3_key : str) : U (option object_info) :=
  ensure_client ;;~
  catch_
    (bucket_name <~ config_item (py "bucket_name") ;;
     c <~ the_client ;;
     answer <~ call_ (head_object c bucket_name s3_key) ;;
     match answer with
     | inr response =>
         unit_ (Some (mkInfo (ContentLength response) (LastModified response)
                        (ETag response)
                        (match Metadata response with Some d => d | None => ∅ end)))
     | inl e => raise_ (Aws e)
     end)
    (fun e =>
       match e with
       | Aws (ClientError error_code) =>
           (if str_eqb error_code (py "404") then
              log_ WARNING (NoteObjectNotFound s3_key)
            else log_ ERROR NoteObjectError) ;;~
           unit_ None
       | _ => log_ ERROR NoteObjectUnexpected ;;~ unit_ None
       end).

End WithS3.

End S3Uploader.

(** ** scraper_module.py: the wait for the download *)

Module Scraper.

(** What [stat()] tells of a file. *)
Record file_stat := mkStat {
  st_size : N;
  st_mtime : Q
}.

(** The files of [Config.DOWNLOAD_DIR], by name. *)
Definition directory : Type := gmap str file_stat.

(** The order in which a set of names is gone through. *)
Class SetOrder := {
  iteration : gset str -> list str;
  iteration_elements : forall s name, In name (iteration s) <-> name ∈ s
}.

(** The messages of the scraper's logger during the wait. *)
Inductive wait_note :=
  | NoteWaiting (expected_filename : str)  (* "Aguardando download de ..." *)
  | NoteDownloaded (expected_filename : str) (* "Download concluído: ..." *)
  | NoteOtherName (newest_file : str)      (* "Arquivo baixado com nome diferente: ..." *)
  | NoteMaybeHoliday                       (* "Isso pode indicar que a data solicitada não é um dia útil" *)
  | NoteTimeout (max_wait : nat).          (* "Timeout: Download não foi concluído em ... segundos" *)

Section WithOrder.
Context {SO : SetOrder}.

(** A name [glob("IBOVDia_*.csv")] matches. *)
Definition matches_ibov (name : str) : bool :=
  startswith (py "IBOVDia_") name && endswith (py ".csv") name
  && (length (py "IBOVDia_") + length (py ".csv") <=? length name).

(** [set(f.name for f in Config.DOWNLOAD_DIR.glob("IBOVDia_*.csv"))] *)
Definition glob_ibov (dir : directory) : gset str :=
  filter (fun name => matches_ibov name = true) (dom dir).

(** [max(files, key=...st_mtime)] from the second element on: the
    first of the newest files in the order of the iteration; [None]
    when [stat()] fails. *)
Fixpoint newest_from (dir : directory) (best : str) (best_mtime : Q) (files : list str)
    : option str :=
  match files with
  | [] => Some best
  | f :: rest =>
      match dir !! f with
      | Some s =>
          if Qle_bool (st_mtime s) best_mtime then newest_from dir best best_mtime rest
          else newest_from dir f (st_mtime s) rest
      | None => None
      end
  end.

Definition newest (dir : directory) (files : list str) : option str :=
  match files with
  | [] => None
  | f :: rest =>
      match dir !! f with
      | Some s => newest_from dir f (st_mtime s) rest
      | None => None
      end
  end.

(** One round of the loop. *)
Inductive round :=
  | Found (name : str) (said : list (level * wait_note))
  | NotYet
  | StatFailed.                            (* [stat()] of a file that is not there *)

Definition poll (files_before : gset str) (expected_filename : str) (dir : directory)
    : round :=
  let expected_there :=
    match dir !! expected_filename with
    | Some s => (0 <? st_size s)%N
    | None => false
    end in
  if expected_there then
    Found expected_filename [(INFO, NoteDownloaded expected_filename)]
  else
    let files_after := glob_ibov dir in
    let new_files := files_after ∖ files_before in
    if negb (bool_decide (new_files = ∅)) then
      match newest dir (iteration new_files) with
      | Some newest_file =>
          match dir !! newest_file with
          | Some s =>
              if (0 <? st_size s)%N then
                Found newest_file [(WARNING, NoteOtherName newest_file);
                                   (INFO, NoteMaybeHoliday)]
              else NotYet
          | None => StatFailed
          end
      | None => StatFailed
      end
    else NotYet.

Definition max_wait : nat := 60.
Definition wait_interval : nat := 2.

(** The number of values of [range(0, stop, step)]. *)
Definition range_length (stop step : nat) : nat := (stop + step - 1) / step.

(** The loop, from its round [i], with [rounds] rounds to go; [polls]
    gives the directory as each round finds it.  The result is the
    pair returned, [None] when [stat()] raises, and the log. *)
Fixpoint wait_rounds (rounds i : nat) (polls : nat -> directory)
    (files_before : gset str) (expected_filename : str)
    (said : list (level * wait_note))
    : option (bool * str) * list (level * wait_note) :=
  match rounds with
  | 0 => (Some (false, []), said ++ [(ERROR, NoteTimeout max_wait)])
  | S rounds' =>
      match poll files_before expected_filename (polls i) with
      | Found name more => (Some (true, name), said ++ more)
      | NotYet => wait_rounds rounds' (S i) polls files_before expected_filename said
      | StatFailed => (None, said)
      end
  end.

(** [_wait_for_download_completion]; [before] is the directory when the
    wait begins. *)
Definition _wait_for_download_completion
    (before : directory) (polls : nat -> directory) (expected_filename : str)
    : option (bool * str) * list (level * wait_note) :=
  let said := [(INFO, NoteWaiting expected_filename)] in
  let files_before := glob_ibov before in
  wait_rounds (range_length max_wait wait_interval) 0 polls files_before
    expected_filename said.

End WithOrder.

End Scraper.

(** ** scraper_module.py: the download *)

Module Download.
Import Scraper.

(** The exceptions of selenium, as the module tells them apart;
    [TimeoutException] is a [WebDriverException]. *)
Inductive web_error :=
  | TimeoutException
  | WebDriverException                    (* any other [WebDriverException] *)
  | OtherException.                       (* any other exception *)

Definition is_webdriver_exception (e : web_error) : bool :=
  match e with
  | TimeoutException | WebDriverException => true
  | OtherException => false
  end.

(** The options given to Chrome. *)
Inductive pref_value :=
  | PrefText (s : str)
  | PrefBool (b : bool).

Record chrome_options := mkOptions {
  prefs : list (str * pref_value);        (* add_experimental_option("prefs", ...) *)
  arguments : list str                    (* add_argument(...) *)
}.

(** selenium, the browser and the download directory.  Every call is
    given the state of the browser and leaves a state; the directory is
    read as the wait finds it. *)
Class Selenium := {
  driver : Type;
  element : Type;
  web : Type;
  (** [webdriver.Chrome(options=chrome_options)] *)
  Chrome : chrome_options -> web -> (web_error + driver) * web;
  (** [driver.get(url)] *)
  driver_get : driver -> str -> web -> option web_error * web;
  (** [WebDriverWait(driver, timeout).until(EC.element_to_be_clickable((By.XPATH, xpath)))] *)
  until_clickable : driver -> nat -> str -> web -> (web_error + element) * web;
  (** [element.click()] *)
  click : element -> web -> option web_error * web;
  (** [driver.quit()] *)
  quit : driver -> web -> option web_error * web;
  (** the download directory in a state, and as each round of a wait
      that begins in that state finds it *)
  listing : web -> directory;
  round_listing : web -> nat -> directory;
  (** [Path.rename] within the download directory; [false] when it
      raises *)
  rename : str -> str -> web -> bool * web
}.

(** The messages of the scraper's logger. *)
Inductive scraper_note :=
  | NoteDriverReady                       (* "Driver Chrome inicializado com sucesso" *)
  | NoteDriverError                       (* "Erro ao inicializar driver Chrome: ..." *)
  | NoteOpening (url : str)               (* "Acessando URL: ..." *)
  | NoteClicking                          (* "Clicando no botão de download..." *)
  | NoteWait (n : wait_note)              (* a message of the wait *)
  | NoteOtherFile (actual_filename expected_filename : str)
                                          (* "Arquivo baixado: ... (esperado: ...)" *)
  | NoteElementTimeout                    (* "Timeout: Elemento de download não encontrado" *)
  | NoteScrapingError                     (* "Erro durante o scraping: ..." *)
  | NoteDriverClosed                      (* "Driver fechado com sucesso" *)
  | NoteDriverCloseError.                 (* "Erro ao fechar driver: ..." *)

(** What [download_ibov_data] raises. *)
Inductive download_error :=
  | Web (e : web_error)
  | DownloadIncomplete                    (* Exception("Download não foi concluído no tempo esperado") *)
  | StatError                             (* [stat()] of a file that is not there *)
  | NoDriver                              (* AttributeError: a call on [None] *)
  | RenameError.                          (* OSError of [Path.rename] *)

Inductive ending (A : Type) :=
  | Done (a : A)
  | Failed (e : download_error).
Arguments Done {A} a.
Arguments Failed {A} e.

Definition B3_URL : str :=
  py "https://sistemaswebb3-listados.b3.com.br/indexPage/day/IBOV?language=pt-br".
Definition DOWNLOAD_XPATH : str :=
  py "//a[@href='/indexPage/day/IBOV?language=pt-br' and contains(text(), 'Download')]".
Definition SELENIUM_TIMEOUT : nat := 20.

Section WithSelenium.
Context {RT : Runtime} {SO : SetOrder} {SE : Selenium}.

(** The scraper object, the browser and the log. *)
Record scraper := mkScraper {
  the_driver : option driver;             (* self.driver *)
  browser : web;
  said : list (level * scraper_note)
}.

Definition D (A : Type) : Type := scraper -> ending A * scraper.

Definition done_ {A} (a : A) : D A := fun st => (Done a, st).

Definition next_ {A B} (m : D A) (k : A -> D B) : D B :=
  fun st => match m st with
            | (Done a, st') => k a st'
            | (Failed e, st') => (Failed e, st')
            end.

Definition fail_ {A} (e : download_error) : D A := fun st => (Failed e, st).

(** [try: m except ... as e: h e] *)
Definition rescue_ {A} (m : D A) (h : download_error -> D A) : D A :=
  fun st => match m st with
            | (Done a, st') => (Done a, st')
            | (Failed e, st') => h e st'
            end.

(** [try: m finally: f], for an [f] that does not raise. *)
Definition finally_ {A} (m : D A) (f : D unit) : D A :=
  fun st => let '(r, st') := m st in
            match f st' with
            | (Done _, st'') => (r, st'')
            | (Failed e, st'') => (Failed e, st'')
            end.

Definition say_ (lv : level) (n : scraper_note) : D unit :=
  fun st => (Done tt, mkScraper (the_driver st) (browser st) (said st ++ [(lv, n)])).

Definition set_driver (d : driver) : D unit :=
  fun st => (Done tt, mkScraper (Some d) (browser st) (said st)).

Definition ask_ {A} (f : web -> A * web) : D A :=
  fun st => let '(a, w) := f (browser st) in
            (Done a, mkScraper (the_driver st) w (said st)).

Definition look_ {A} (f : scraper -> A) : D A := fun st => (Done (f st), st).

Notation "x <~ m ;; k" := (next_ m (fun x => k))
  (at level 100, m at next level, right associativity).
Notation "m ;;~ k" := (next_ m (fun _ => k))
  (at level 100, right associativity).

(** [_setup_chrome_options]; [download_dir] is the text of
    [Config.DOWNLOAD_DIR.absolute()]. *)
Definition _setup_chrome_options (download_dir : str) : chrome_options :=
  mkOptions
    [(py "download.default_directory", PrefText download_dir);
     (py "download.prompt_for_download", PrefBool false);
     (py "download.directory_upgrade", PrefBool true);
     (py "safebrowsing.enabled", PrefBool true)]
    [py "--no-sandbox"; py "--disable-dev-shm-usage"].

(** [_initialize_driver] *)
Definition _initialize_driver (download_dir : str) : D unit :=
  rescue_
    (let chrome_options := _setup_chrome_options download_dir in
     started <~ ask_ (Chrome chrome_options) ;;
     match started with
     | inr d => set_driver d ;;~ say_ INFO NoteDriverReady
     | inl e => fail_ (Web e)
     end)
    (fun e =>
       match e with
       | Web w =>
           if is_webdriver_exception w
           then say_ ERROR NoteDriverError ;;~ fail_ e
           else fail_ e
       | _ => fail_ e
       end).

(** [_cleanup] *)
Definition _cleanup : D unit :=
  current <~ look_ the_driver ;;
  match current with
  | Some d =>
      answer <~ ask_ (quit d) ;;
      match answer with
      | None => say_ INFO NoteDriverClosed
      | Some _ => say_ WARNING NoteDriverCloseError
      end
  | None => done_ tt
  end.

(** [self.driver] in a call. *)
Definition driver_now : D driver :=
  current <~ look_ the_driver ;;
  match current with
  | Some d => done_ d
  | None => fail_ NoDriver
  end.

(** The wait, as a step of the download. *)
Definition wait_step (expected_filename : str) : D (bool * str) :=
  fun st =>
    let '(result, notes) :=
      _wait_for_download_completion (listing (browser st)) (round_listing (browser st))
        expected_filename in
    let st' := mkScraper (the_driver st) (browser st)
                 (said st ++ List.map (fun ln => (fst ln, NoteWait (snd ln))) notes) in
    match result with
    | Some answer => (Done answer, st')
    | None => (Failed StatError, st')
    end.

(** [download_ibov_data]; the result is the name of the file in
    [Config.DOWNLOAD_DIR]. *)
Definition download_ibov_data (download_dir : str) (target_date : option datetime)
    : D str :=
  let expected_filename := get_csv_filename target_date in
  finally_
    (rescue_
       (_initialize_driver download_dir ;;~
        say_ INFO (NoteOpening B3_URL) ;;~
        d <~ driver_now ;;
        opened <~ ask_ (driver_get d B3_URL) ;;
        match opened with
        | Some e => fail_ (Web e)
        | None =>
            d <~ driver_now ;;
            found <~ ask_ (until_clickable d SELENIUM_TIMEOUT DOWNLOAD_XPATH) ;;
            match found with
            | inl e => fail_ (Web e)
            | inr download_button =>
                say_ INFO NoteClicking ;;~
                clicked <~ ask_ (click download_button) ;;
                match clicked with
                | Some e => fail_ (Web e)
                | None =>
                    waited <~ wait_step expected_filename ;;
                    let '(success, actual_filename) := waited in
                    if success then
                      (if negb (str_eqb actual_filename expected_filename)
                       then say_ INFO (NoteOtherFile actual_filename expected_filename)
                       else done_ tt) ;;~
                      done_ actual_filename
                    else fail_ DownloadIncomplete
                end
            end
        end)
       (fun e =>
          match e with
          | Web TimeoutException => say_ ERROR NoteElementTimeout ;;~ fail_ e
          | _ => say_ ERROR NoteScrapingError ;;~ fail_ e
          end))
    _cleanup.

End WithSelenium.

End Download.

(** ** main_pipeline.py: the upload stage *)

Module Pipeline.
Import S3Uploader.

(** The messages of the pipeline's logger in the upload stage. *)
Inductive stage_note :=
  | NoteStageUpload                       (* "ETAPA 3: UPLOAD PARA S3" *)
  | NoteVerified                          (* "Arquivo verificado no S3:" *)
  | NoteSize (size : option N)            (* "   Tamanho: ... bytes" *)
  | NoteLastModified (last_modified : option datetime). (* "   Última modificação: ..." *)

Section WithS3.
Context {RT : Runtime} {S3I : S3}.

(** The pipeline object, as far as the upload stage uses it: its
    uploader and its own log. *)
Record pipeline := mkPipeline {
  uploader : state;                       (* self.uploader *)
  stage_notes : list (level * stage_note)
}.

(** [_upload_data]; [size] is the size of the file at [parquet_path],
    [None] when there is no such file, and [processing_date] is the
    text of [datetime.now().isoformat()]. *)
Definition _upload_data (parquet_path : path) (size : option N)
    (target_date : datetime) (processing_date : str) (self : pipeline)
    : completion bool * pipeline :=
  let logged := stage_notes self ++ [(INFO, NoteStageUpload)] in
  let s3_key := get_s3_key (Some target_date) in
  let metadata : gmap str str :=
    {[ py "pipeline_version" := py "1.0";
       py "processing_date" := processing_date;
       py "data_date" := strftime_Ymd target_date;
       py "source" := py "b3-ibovespa" ]} in
  match upload_file parquet_path size (Some s3_key) (Some metadata) (uploader self) with
  | (Raised e, st) => (Raised e, mkPipeline st logged)
  | (Returned success, st) =>
      if success then
        match get_object_info s3_key st with
        | (Raised e, st') => (Raised e, mkPipeline st' logged)
        | (Returned (Some object_info), st') =>
            (Returned success,
             mkPipeline st'
               (logged ++ [(INFO, NoteVerified);
                           (INFO, NoteSize (info_size object_info));
                           (INFO, NoteLastModified (info_last_modified object_info))]))
        | (Returned None, st') => (Returned success, mkPipeline st' logged)
        end
      else (Returned success, mkPipeline st logged)
  end.

End WithS3.

End Pipeline.

(** ** main_pipeline.py: the download stage *)

Module DownloadStage.
Import Scraper Download.

(** The messages of the pipeline's logger in the download stage. *)
Inductive download_note :=
  | NoteStageDownload                     (* "ETAPA 1: DOWNLOAD DOS DADOS" *)
  | NoteUsingExisting (csv_filename : str) (* "Usando arquivo existente: ..." *)
  | NoteWillOverwrite (csv_filename : str) (* "Arquivo já existe, será sobrescrito: ..." *)
  | NoteRenamed (csv_filename : str).      (* "Arquivo renomeado para: ..." *)

Section WithSelenium.
Context {RT : Runtime} {SO : SetOrder} {SE : Selenium}.

(** The pipeline object, as far as the download stage uses it. *)
Record downloader := mkDownloader {
  the_scraper : scraper;                  (* self.scraper *)
  skip_download : bool;                   (* self.skip_download *)
  stage_said : list (level * download_note)
}.

(** [csv_path.exists()] *)
Definition csv_exists (self : downloader) (csv_filename : str) : bool :=
  match listing (browser (the_scraper self)) !! csv_filename with
  | Some _ => true
  | None => false
  end.

(** [_download_data]; the result is the name of the file in
    [Config.DOWNLOAD_DIR]. *)
Definition _download_data (download_dir : str) (target_date : datetime)
    (self : downloader) : ending str * downloader :=
  let said0 := stage_said self ++ [(INFO, NoteStageDownload)] in
  let csv_filename := get_csv_filename (Some target_date) in
  if csv_exists self csv_filename && skip_download self then
    (Done csv_filename,
     mkDownloader (the_scraper self) (skip_download self)
       (said0 ++ [(INFO, NoteUsingExisting csv_filename)]))
  else
    let said1 := if csv_exists self csv_filename
                 then said0 ++ [(WARNING, NoteWillOverwrite csv_filename)]
                 else said0 in
    match download_ibov_data download_dir (Some target_date) (the_scraper self) with
    | (Failed e, sc) => (Failed e, mkDownloader sc (skip_download self) said1)
    | (Done downloaded_name, sc) =>
        if negb (str_eqb downloaded_name csv_filename) then
          let '(renamed, w) := rename downloaded_name csv_filename (browser sc) in
          let sc' := mkScraper (the_driver sc) w (said sc) in
          if renamed then
            (Done csv_filename,
             mkDownloader sc' (skip_download self)
               (said1 ++ [(INFO, NoteRenamed csv_filename)]))
          else (Failed RenameError, mkDownloader sc' (skip_download self) said1)
        else (Done downloaded_name, mkDownloader sc (skip_download self) said1)
    end.

End WithSelenium.

End DownloadStage.
(** ** Views of the added code used in the proofs *)

Module MoreViews.

(** A variable that is set to a text with something other than white
    space in it. *)
Definition filled (env : gmap str str) (var : str) : Prop :=
  exists value, env !! var = Some value /\ strip value <> [].

(** The three states [validate_required_env_vars] tells apart. *)
Definition var_missing (env : gmap str str) (var : str) : bool :=
  match getenv env var with None => true | Some _ => false end.

Definition var_blank (env : gmap str str) (var : str) : bool :=
  match getenv env var with Some value => str_eqb (strip value) [] | None => false end.

Definition var_filled (env : gmap str str) (var : str) : bool :=
  match getenv env var with Some value => negb (str_eqb (strip value) []) | None => false end.

(** An environment that a later one extends: what is set stays set,
    and what is set to a non-empty text keeps it. *)
Definition env_grows (env env' : gmap str str) : Prop :=
  forall key,
    (is_Some (env !! key) -> is_Some (env' !! key))
    /\ (truthy (env !! key) = true -> env' !! key = env !! key).

(** What a line asks for: nothing, or the assignment of a value to a
    key. *)
Definition line_request (line : str) : option (str * str) :=
  let line := strip line in
  if str_eqb line [] || startswith (py "#") line then None
  else if contains (py "=") line then
    let '(key, value) := split_once (ch "=") line in
    let key := strip key in
    if str_eqb key [] then None else Some (key, unquote (strip value))
  else None.

(** The assignments a file asks for, in the order of its lines. *)
Definition requests (lines : list str) : list (str * str) :=
  omap line_request lines.

(** The value a variable ends with once the assignments [reqs] have
    been applied to [env]: its own when that is not empty, else the
    first value asked for that is not empty, else the empty text when
    some assignment names it, else what it was. *)
Definition final_value (env : gmap str str) (reqs : list (str * str)) (key : str)
    : option str :=
  if truthy (env !! key) then env !! key
  else match List.find (fun kv => str_eqb (fst kv) key && truthy (Some (snd kv))) reqs with
       | Some kv => Some (snd kv)
       | None =>
           if existsb (fun kv => str_eqb (fst kv) key) reqs then Some [] else env !! key
       end.

(** The three parts of what [initialize_environment] gives. *)
Definition init_ok (env : gmap str str) (file : option str) : bool :=
  fst (fst (initialize_environment env file)).

Definition init_env (env : gmap str str) (file : option str) : gmap str str :=
  snd (fst (initialize_environment env file)).

Definition init_out (env : gmap str str) (file : option str) : list line :=
  snd (initialize_environment env file).

(** What a computation does to the log: it only adds entries at the
    end, and when it returns [a] the entries added satisfy [Q a]. *)
Definition logs_after {A} (m : M A) (Q : A -> log -> Prop) : Prop :=
  forall lg,
    match m lg with
    | (Ok a, lg') => exists added, lg' = lg ++ added /\ Q a added
    | (Raise _, lg') => exists added, lg' = lg ++ added
    end.

Definition any_entries {A} (_ : A) (_ : log) : Prop := True.

(** The entries end with the report of the number of rows of the table
    returned. *)
Definition ends_done (df : DataFrame) (added : log) : Prop :=
  exists before, added = before ++ [(INFO, MsgDone (length (rows df)))].

End MoreViews.

(** ** Views of the uploader *)

Module UploaderViews.
Import S3Uploader.

Section WithS3.
Context {RT : Runtime} {S3I : S3}.

(** What [test_bucket_access] logs for the answer of [head_bucket]. *)
Definition bucket_note (bucket : option str) (answer : option aws_error) : level * note :=
  match answer with
  | None => (INFO, NoteBucketAccessible bucket)
  | Some (ClientError error_code) =>
      (ERROR, if str_eqb error_code (py "404") then NoteBucketNotFound bucket
              else if str_eqb error_code (py "403") then NoteBucketForbidden bucket
              else NoteBucketError)
  | Some _ => (ERROR, NoteBucketUnexpected)
  end.

(** What [upload_file] logs for a failed transfer. *)
Definition upload_note (e : aws_error) : level * note :=
  match e with
  | NoCredentialsError => (ERROR, NoteBadCredentials)
  | ClientError error_code => (ERROR, NoteAwsError error_code)
  | OtherError => (ERROR, NoteUploadUnexpected)
  end.

(** What [get_object_info] logs for a failed call. *)
Definition object_note (s3_key : str) (e : aws_error) : level * note :=
  match e with
  | ClientError error_code =>
      if str_eqb error_code (py "404") then (WARNING, NoteObjectNotFound s3_key)
      else (ERROR, NoteObjectError)
  | _ => (ERROR, NoteObjectUnexpected)
  end.

(** The metadata [upload_file] always sends. *)
Definition default_metadata (file_path : path) (st_size : N) : gmap str str :=
  {[ py "source" := py "b3-data-pipeline";
     py "file_size" := decimal st_size;
     py "original_filename" := path_name file_path ]}.

(** The metadata sent for what the caller gave. *)
Definition sent_metadata (file_path : path) (st_size : N)
    (metadata : option (gmap str str)) : gmap str str :=
  match metadata with
  | Some d => d ∪ default_metadata file_path st_size
  | None => default_metadata file_path st_size
  end.

(** The key an upload goes to. *)
Definition sent_key (s3_key : option str) : str :=
  match s3_key with
  | Some key => key
  | None => get_s3_key None
  end.

(** The state with another service state and more notes. *)
Definition moved (st : state) (w : service) (added : list (level * note)) : state :=
  mkState (s3_client st) (aws_config st) w (notes st ++ added).

(** The configuration of the client [_initialize_s3_client] asks for. *)
Definition client_config_of (config : gmap str (option str)) (region key_id secret : option str)
    : gmap str (option str) :=
  let client_config : gmap str (option str) :=
    {[ py "region_name" := region;
       py "aws_access_key_id" := key_id;
       py "aws_secret_access_key" := secret ]} in
  match entry config (py "aws_session_token") with
  | Some (Some ((_ :: _) as token)) => <[py "aws_session_token" := Some token]> client_config
  | _ => client_config
  end.

Definition is_none {A} (o : option A) : bool :=
  match o with None => true | Some _ => false end.

(** The metadata that reaches the service in the upload stage. *)
Definition stage_metadata (parquet_path : path) (st_size : N)
    (target_date : datetime) (processing_date : str) : gmap str str :=
  {[ py "pipeline_version" := py "1.0";
     py "processing_date" := processing_date;
     py "data_date" := strftime_Ymd target_date;
     py "source" := py "b3-ibovespa";
     py "file_size" := decimal st_size;
     py "original_filename" := path_name parquet_path ]}.

End WithS3.

End UploaderViews.


(** ** Views of the wait for the download *)

Module ScraperViews.
Import Scraper.

Section WithOrder.
Context {SO : SetOrder}.

(** A file found under another name: new, matching the pattern, not
    empty, and no new matching file is newer. *)
Definition newest_new (before dir : directory) (name : str) : Prop :=
  exists s,
    dir !! name = Some s
    /\ (0 < st_size s)%N
    /\ matches_ibov name = true
    /\ (name ∉ glob_ibov before)
    /\ forall f s', f ∈ glob_ibov dir -> f ∉ glob_ibov before ->
                    dir !! f = Some s' -> (st_mtime s' <= st_mtime s)%Q.

End WithOrder.

End ScraperViews.

(** ** More sample inputs *)

Module MoreSamples.
Import Samples.

(** A daily file whose banner writes the year with four digits. *)
Definition long_year_csv : string :=
"IBOV - Carteira do Dia 04/08/2025
Codigo;Acao;Tipo;Qtde. Teorica;Part. (%)
PETR4;PETROBRAS PN;PN;1.234.567,89;5,5
".

(** An environment with the three AWS variables set. *)
Definition ready_env : gmap str str :=
  {[ py "AWS_ACCESS_KEY_ID" := py "AKIAEXAMPLE";
     py "AWS_SECRET_ACCESS_KEY" := py "secret";
     py "S3_BUCKET_NAME" := py "b3-data" ]}.

(** An environment whose access key is white space. *)
Definition blank_key_env : gmap str str :=
  {[ py "AWS_ACCESS_KEY_ID" := py "   ";
     py "AWS_SECRET_ACCESS_KEY" := py "secret";
     py "S3_BUCKET_NAME" := py "b3-data" ]}.

(** A [.env] file that gives the three variables. *)
Definition full_env_file : str :=
  py "AWS_ACCESS_KEY_ID=AKIAEXAMPLE
AWS_SECRET_ACCESS_KEY='secret'
S3_BUCKET_NAME=b3-data
".

(** A storage service that knows one bucket and keeps what is sent to
    it. *)
Definition memory_s3 : S3Uploader.S3 := {|
  S3Uploader.client := unit;
  S3Uploader.service := list (option str * str * gmap str (gmap str str));
  S3Uploader.listed := str;
  S3Uploader.boto3_client := fun _ => inr tt;
  S3Uploader.head_bucket := fun _ bucket w =>
    (if bool_decide (bucket = Some (py "b3-data")) then None
     else Some (S3Uploader.ClientError (py "404")), w);
  S3Uploader.client_upload_file := fun _ _ bucket key args w =>
    (None, w ++ [(bucket, key, args)]);
  S3Uploader.head_object := fun _ _ _ w =>
    (inl (S3Uploader.ClientError (py "404")), w);
  S3Uploader.list_objects_v2 := fun _ _ _ w => (inr None, w)
|}.

(** An uploader of that service, before and after its first use. *)
Definition fresh_uploader : @S3Uploader.state memory_s3 :=
  @S3Uploader.mkState memory_s3 None (get_aws_config_from_env ready_env) [] [].

Definition ready_uploader : @S3Uploader.state memory_s3 :=
  @S3Uploader.mkState memory_s3 (Some tt) (get_aws_config_from_env ready_env) [] [].

Definition parquet_path : S3Uploader.path :=
  S3Uploader.mkPath (py "data/IBOVDia_04-08-25.parquet") (py "IBOVDia_04-08-25.parquet").

(** Sets gone through in the order of their elements. *)
Definition elements_order : Scraper.SetOrder := {|
  Scraper.iteration := elements;
  Scraper.iteration_elements := fun s name =>
    iff_trans (iff_sym (list_elem_of_In (elements s) name)) (elem_of_elements s name)
|}.

(** A download directory that holds the file of the day. *)
Definition day_file : str := py "IBOVDia_04-08-25.csv".

Definition download_dir : Scraper.directory :=
  {[ day_file := Scraper.mkStat 2048 (1722800000 # 1) ]}.

(** A browser in which every step succeeds and the download directory
    stays as it is. *)
Definition still_browser : Download.Selenium := {|
  Download.driver := unit;
  Download.element := unit;
  Download.web := Scraper.directory;
  Download.Chrome := fun _ w => (inr tt, w);
  Download.driver_get := fun _ _ w => (None, w);
  Download.until_clickable := fun _ _ _ w => (inr tt, w);
  Download.click := fun _ w => (None, w);
  Download.quit := fun _ w => (None, w);
  Download.listing := fun w => w;
  Download.round_listing := fun w _ => w;
  Download.rename := fun _ _ w => (true, w)
|}.

End MoreSamples.
(** * Properties *)

Import Spec View.

(** ** Strings *)

Lemma str_eqb_eq (a b : str) : str_eqb a b = true <-> a = b.
Proof. unfold str_eqb. apply bool_decide_eq_true. Qed.

Lemma str_eqb_refl (a : str) : str_eqb a a = true.
Proof. now apply str_eqb_eq. Qed.

Lemma lstrip_incl (s : str) (x : char) : In x (lstrip s) -> In x s.
Proof.
  induction s as [|c t IH]; simpl; [tauto|].
  destruct (is_py_space c); simpl; tauto.
Qed.

Lemma strip_incl (s : str) (x : char) : In x (strip s) -> In x s.
Proof.
  unfold strip, rstrip. intros H.
  apply in_rev in H. apply lstrip_incl in H. apply in_rev in H.
  now apply lstrip_incl.
Qed.

Lemma replace_from_incl (old new : str) (x : char) :
  forall (s : str) (skip : nat),
    In x (replace_from old new skip s) -> In x s \/ In x new.
Proof.
  induction s as [|c t IH]; intros skip H; simpl in *; [tauto|].
  destruct skip as [|k].
  - destruct (startswith old (c :: t)).
    + apply in_app_or in H. destruct H as [H|H]; [tauto|].
      apply IH in H. tauto.
    + destruct H as [H|H]; [tauto|]. apply IH in H. tauto.
  - apply IH in H. tauto.
Qed.

Lemma replace_incl (old new s : str) (x : char) :
  old <> [] -> In x (replace old new s) -> In x s \/ In x new.
Proof.
  destruct old as [|o old']; [congruence|]. intros _.
  unfold replace. apply replace_from_incl.
Qed.

(** Replacing a one-character text by nothing filters the character out. *)
Lemma replace_char_remove (c : char) (s : str) :
  replace [c] [] s = remove_char c s.
Proof.
  unfold replace, remove_char.
  induction s as [|x t IH]; simpl; [reflexivity|].
  rewrite N.eqb_sym, andb_true_r.
  destruct (x =? c)%N; simpl; now rewrite IH.
Qed.

(** Replacing a character by a character is a map. *)
Lemma replace_char_char (c d : char) (s : str) :
  replace [c] [d] s = List.map (fun x => if (x =? c)%N then d else x) s.
Proof.
  unfold replace.
  induction s as [|x t IH]; simpl; [reflexivity|].
  rewrite (N.eqb_sym c x), andb_true_r.
  destruct (x =? c)%N; simpl; now rewrite IH.
Qed.

Lemma remove_char_absent (c : char) (s : str) : ~ In c (remove_char c s).
Proof.
  unfold remove_char. intros H. apply filter_In in H as [_ H].
  now rewrite N.eqb_refl in H.
Qed.


(** ** Numbers *)

Lemma number_Q_nonneg (m e : Z) : (0 <= m)%Z -> (0 <= number_Q m e)%Q.
Proof.
  intros Hm. unfold number_Q, Qpow10.
  apply Qmult_le_0_compat.
  - unfold Qle. simpl. lia.
  - apply Qpower_0_le. unfold Qle. simpl. lia.
Qed.

Lemma skip_c_space_incl (s : str) (x : char) : In x (skip_c_space s) -> In x s.
Proof.
  induction s as [|c t IH]; simpl; [tauto|].
  destruct (is_c_space c); simpl; tauto.
Qed.

Lemma take_sign_no_minus (s : str) :
  ~ In (ch "-") s -> fst (take_sign s) = false.
Proof.
  destruct s as [|c t]; [reflexivity|]. intros H. unfold take_sign.
  destruct (c =? ch "-")%N eqn:E.
  - apply N.eqb_eq in E. exfalso. apply H. now left.
  - now destruct (c =? ch "+")%N.
Qed.

Lemma to_double_no_minus (s : str) (x : number) :
  ~ In (ch "-") s -> to_double s = Some x -> nonneg x.
Proof.
  intros Hs. unfold to_double.
  assert (Hn : fst (take_sign (skip_c_space s)) = false).
  { apply take_sign_no_minus. intros H. now apply skip_c_space_incl in H. }
  destruct (take_sign (skip_c_space s)) as [neg s1]. simpl in Hn. subst neg.
  destruct (span is_digit s1) as [ip s2].
  destruct (match s2 with
            | [] => ([], [])
            | c :: t => if (c =? ch ".")%N then span is_digit t else ([], s2)
            end) as [fp s3].
  destruct (ip ++ fp) as [|d ds] eqn:Hd; [discriminate|].
  destruct (take_exponent s3) as [ex s4].
  destruct (skip_c_space s4); [|discriminate].
  intros H. injection H as <-. simpl.
  apply number_Q_nonneg. lia.
Qed.

Lemma ascii_lower_minus (c : char) : ascii_lower c = ch "-" -> c = ch "-".
Proof.
  unfold ascii_lower, is_ascii_upper, in_range.
  destruct (65 <=? c)%N eqn:E1; destruct (c <=? 90)%N eqn:E2; simpl; try easy.
  apply N.leb_le in E1. intros H. change (ch "-") with 45%N in H. lia.
Qed.

Lemma infinity_word_no_minus (s : str) (x : number) :
  ~ In (ch "-") s -> infinity_word s = Some x -> nonneg x.
Proof.
  intros Hs. unfold infinity_word.
  destruct (_ || _ || _ || _); [intros H; now injection H as <-|].
  destruct (str_eqb _ _ || str_eqb _ _) eqn:E; [|discriminate].
  exfalso. apply Hs.
  assert (Hin : In (ch "-") (List.map ascii_lower s)).
  { apply orb_true_iff in E as [E|E]; apply str_eqb_eq in E; rewrite E;
      now left. }
  apply in_map_iff in Hin as (c & Hc & Hin).
  apply ascii_lower_minus in Hc. now subst c.
Qed.

(** A text without a minus sign never converts to a negative number. *)
Lemma floatify_no_minus (s : str) (x : number) :
  ~ In (ch "-") s -> floatify s = Some x -> nonneg x.
Proof.
  intros Hs. unfold floatify. destruct s as [|c t]; [discriminate|].
  destruct (to_double (c :: t)) as [y|] eqn:E.
  - intros H. injection H as <-. now apply (to_double_no_minus (c :: t)).
  - now apply infinity_word_no_minus.
Qed.

(** ** clean_numeric_field *)

Section NumericField.
Context {RT : Runtime}.

(** The column-wise steps of [clean_numeric_field] amount to one
    function applied to every cell. *)
Lemma clean_numeric_field_map (series : list cell) (is_currency : bool) :
  clean_numeric_field series is_currency = List.map (clean_number is_currency) series.
Proof.
  destruct series as [|c t]; [reflexivity|].
  unfold clean_numeric_field, to_numeric.
  destruct is_currency; rewrite !map_map; reflexivity.
Qed.

Lemma clean_text_spec (is_currency : bool) (s : str) :
  clean_text is_currency s = spec_clean_text is_currency s.
Proof.
  unfold clean_text, spec_clean_text.
  change (py "%") with [ch "%"]. change (py "-") with [ch "-"].
  change (py ".") with [ch "."]. change (py ",") with [ch ","].
  rewrite !replace_char_remove, replace_char_char.
  destruct is_currency; reflexivity.
Qed.

Lemma clean_text_no_minus (is_currency : bool) (s : str) :
  ~ In (ch "-") (clean_text is_currency s).
Proof.
  rewrite clean_text_spec. unfold spec_clean_text. intros H.
  apply in_map_iff in H as (x & Hx & H).
  assert (Hm : x = ch "-").
  { destruct (x =? ch ",")%N; [discriminate Hx | exact Hx]. }
  subst x. clear Hx.
  assert (H1 : In (ch "-")
                 (replace (py "N/A") []
                    (replace (py "nan") []
                       (remove_char (ch "-") (remove_char (ch "%") (strip s)))))).
  { destruct is_currency; [|exact H].
    unfold remove_char in H at 1. now apply filter_In in H as [H _]. }
  apply replace_incl in H1 as [H1|[]]; [|discriminate].
  apply replace_incl in H1 as [H1|[]]; [|discriminate].
  now apply remove_char_absent in H1.
Qed.

Lemma clean_number_nonneg (is_currency : bool) (c : cell) :
  cell_nonneg (clean_number is_currency c).
Proof.
  unfold clean_number.
  destruct (floatify _) as [x|] eqn:E; simpl; [|exact I].
  eapply floatify_no_minus; [|exact E]. apply clean_text_no_minus.
Qed.


(** C9.  Every cell [clean_numeric_field] produces, for any series and
    either flag, is NaN or a number that is not negative, because every
    ['-'] is gone from the text before it is parsed; ["-5,5"] becomes
    5.5. *)
Theorem clean_numeric_field_nonneg (series : list cell) (is_currency : bool) :
  Forall cell_nonneg (clean_numeric_field series is_currency)
  /\ (exists x, clean_numeric_field [CStr (py "-5,5")] is_currency = [CNum x]
                /\ denotes x (55 # 10)).
Proof.
  split.
  - rewrite clean_numeric_field_map.
    induction series as [|c t IH]; simpl; constructor;
      [apply clean_number_nonneg | exact IH].
  - exists (Finite 55 (-1)). split; [|reflexivity].
    destruct is_currency; reflexivity.
Qed.

End NumericField.

(** ** clean_column_name *)

Section ColumnName.
Context {RT : Runtime}.








End ColumnName.

(** ** validate_dataframe *)

Section Validate.
Context {RT : Runtime}.

Lemma missing_columns_empty (cols : list str) :
  (list_to_set Config.REQUIRED_COLUMNS ∖ list_to_set cols : gset str) = ∅
  <-> (forall c, In c Config.REQUIRED_COLUMNS -> In c cols).
Proof.
  split.
  - intros H c Hc. apply list_elem_of_In.
    destruct (decide (c ∈ cols)) as [Hin|Hout]; [exact Hin|].
    exfalso. apply list_elem_of_In in Hc.
    assert (Hm : c ∈ (list_to_set Config.REQUIRED_COLUMNS ∖ list_to_set cols : gset str)).
    { apply elem_of_difference. split; rewrite elem_of_list_to_set; assumption. }
    rewrite H in Hm. now apply not_elem_of_empty in Hm.
  - intros H. apply set_eq. intros c. split; [|intros Hc; now apply not_elem_of_empty in Hc].
    intros Hc. apply elem_of_difference in Hc as [Hr Hn].
    rewrite elem_of_list_to_set in Hr, Hn.
    exfalso. apply Hn. apply list_elem_of_In. apply H. now apply list_elem_of_In.
Qed.

Lemma not_all_in (l cols : list str) :
  ~ (forall c, In c l -> In c cols) -> exists c, In c l /\ ~ In c cols.
Proof.
  induction l as [|a l IH]; intros H.
  - exfalso. apply H. intros c [].
  - destruct (decide (a ∈ cols)) as [Ha|Ha].
    + destruct IH as (c & Hc & Hn).
      { intros H'. apply H. intros c [<-|Hc]; [now apply list_elem_of_In|auto]. }
      exists c. split; [now right|exact Hn].
    + exists a. split; [now left|]. intros Hi. apply Ha. now apply list_elem_of_In.
Qed.

(** C7.  For every table and every state of the log, [validate_dataframe]
    returns (it does not raise) after adding exactly one entry to the
    log.  It returns [false], with the entry at ERROR level, exactly when
    the table is empty or one of the required columns is absent, and
    [true] otherwise.  The table is an argument only: it is not part of
    the result and nothing is written to it. *)
Theorem validate_dataframe_spec (df : DataFrame) (lg : log) :
  exists (b : bool) (lv : level) (m : message),
    validate_dataframe df lg = (Ok b, lg ++ [(lv, m)])
    /\ (b = false <->
        df_empty df = true
        \/ exists c, In c Config.REQUIRED_COLUMNS /\ ~ In c (columns df))
    /\ (b = false -> lv = ERROR)
    /\ (b = true -> lv = INFO).
Proof.
  unfold validate_dataframe.
  destruct (df_empty df) eqn:He.
  - exists false, ERROR, MsgEmptyFrame. repeat split; auto; discriminate.
  - destruct (bool_decide _) eqn:Hm.
    + exists true, INFO, MsgValidated.
      apply bool_decide_eq_true in Hm. rewrite missing_columns_empty in Hm.
      repeat split; auto; try discriminate.
      intros [Hd|(c & Hc & Hn)]; [discriminate|]. exfalso. apply Hn, Hm, Hc.
    + eexists false, ERROR, _. split; [reflexivity|].
      apply bool_decide_eq_false in Hm. rewrite missing_columns_empty in Hm.
      repeat split; auto; try discriminate.
      intros _. right. now apply not_all_in.
Qed.

End Validate.

(** ** load_env_file *)

Section EnvFile.

Lemma truthy_set (env : gmap str str) (key value : str) :
  env !! key = Some value -> value <> [] -> truthy (getenv env key) = true.
Proof.
  unfold getenv. intros -> Hne. destruct value; [congruence|reflexivity].
Qed.

(** One line leaves a variable that is set and not empty as it is. *)
Lemma load_line_keeps (p p' : process) (line_num : nat) (line key value : str) :
  load_line p line_num line = Some p' ->
  environ p !! key = Some value -> value <> [] ->
  environ p' !! key = Some value.
Proof.
  unfold load_line. intros H Hset Hne.
  destruct (_ || _); [now injection H as <-|].
  destruct (contains _ _); [|now injection H as <-].
  destruct (split_once _ _) as [k v].
  destruct (negb (str_eqb (strip k) []) && negb (truthy (getenv (environ p) (strip k)))) eqn:E;
    [|now injection H as <-].
  unfold setenv in H. destruct (_ || _ || _ || _); [discriminate|].
  injection H as <-. simpl.
  apply andb_true_iff in E as [_ E]. apply negb_true_iff in E.
  destruct (decide (strip k = key)) as [Heq|Hk].
  - rewrite Heq, (truthy_set _ _ _ Hset Hne) in E. discriminate.
  - now rewrite lookup_insert_ne.
Qed.

Lemma load_lines_keeps (lines : list str) :
  forall (p : process) (line_num : nat) (key value : str),
    environ p !! key = Some value -> value <> [] ->
    environ (fst (load_lines p line_num lines)) !! key = Some value.
Proof.
  induction lines as [|line rest IH]; intros p n key value Hset Hne; simpl.
  - exact Hset.
  - destruct (load_line p n line) as [p'|] eqn:E; simpl; [|exact Hset].
    apply IH; [|exact Hne]. eapply load_line_keeps; eassumption.
Qed.

(** C10.  A variable of the environment that has a non-empty value
    before [load_env_file] has the same value after it, whatever the
    file holds and whether or not the loading succeeds; and the same is
    true of every single line: a line writes its key only when the
    variable is unset or empty at that moment. *)
Theorem load_env_file_no_overwrite
    (p : process) (file : option str) (key value : str)
    (Hset : environ p !! key = Some value) (Hne : value <> []) :
  environ (snd (load_env_file p file)) !! key = Some value
  /\ (forall q q' line_num line,
        load_line q line_num line = Some q' ->
        truthy (getenv (environ q) key) = true ->
        environ q' !! key = environ q !! key).
Proof.
  split.
  - unfold load_env_file. destruct file as [text|]; simpl; [|exact Hset].
    pose proof (load_lines_keeps (file_lines text) p 1 key value Hset Hne) as H.
    destruct (load_lines p 1 (file_lines text)) as [p' []]; exact H.
  - intros q q' n line Hl Ht. unfold getenv in Ht.
    destruct (environ q !! key) as [[|c v]|] eqn:E; try discriminate.
    rewrite (load_line_keeps q q' n line key (c :: v) Hl E); [reflexivity|discriminate].
Qed.

End EnvFile.

(** ** The pipeline, step by step *)

(** ** The monad *)

Lemma bind_emit {B} (lv : level) (m : message) (k : unit -> M B) (lg : log) :
  bind (emit lv m) k lg = k tt (lg ++ [(lv, m)]).
Proof. reflexivity. Qed.

Lemma bind_ret {A B} (a : A) (k : A -> M B) (lg : log) :
  bind (ret a) k lg = k a lg.
Proof. reflexivity. Qed.


Lemma bind_bind {A B C} (m : M A) (k1 : A -> M B) (k2 : B -> M C) (lg : log) :
  bind (bind m k1) k2 lg = bind m (fun a => bind (k1 a) k2) lg.
Proof. unfold bind. destruct (m lg) as [[a|e] l]; reflexivity. Qed.

(** ** Data frames *)

Lemma zip_rows_map (f : cell -> list cell -> list cell) (g : list cell -> cell)
      (rs : list (list cell)) :
  zip_rows f (List.map g rs) rs = List.map (fun r => f (g r) r) rs.
Proof. induction rs as [|r rs IH]; simpl; [reflexivity|now rewrite IH]. Qed.

Lemma zip_rows_repeat (f : cell -> list cell -> list cell) (v : cell)
      (rs : list (list cell)) :
  zip_rows f (repeat v (length rs)) rs = List.map (f v) rs.
Proof. induction rs as [|r rs IH]; simpl; [reflexivity|now rewrite IH]. Qed.

Lemma get_column_at (cols : list str) (rs : list (list cell)) (name : str) (j : nat) (lg : log) :
  col_index name cols = Some j ->
  get_column (mkFrame cols rs) name lg = (Ok (List.map (cell_at j) rs), lg).
Proof. unfold get_column. simpl. now intros ->. Qed.

Lemma set_column_at (cols : list str) (rs : list (list cell)) (name : str) (j : nat)
      (g : list cell -> cell) :
  col_index name cols = Some j ->
  set_column (mkFrame cols rs) name (List.map g rs)
  = mkFrame cols (List.map (fun r => <[j := g r]> r) rs).
Proof. unfold set_column. simpl. intros ->. now rewrite zip_rows_map. Qed.

Lemma set_scalar_new (cols : list str) (rs : list (list cell)) (name : str) (v : cell) :
  col_index name cols = None ->
  set_scalar (mkFrame cols rs) name v
  = mkFrame (cols ++ [name]) (List.map (fun r => r ++ [v]) rs).
Proof. unfold set_scalar, set_column. simpl. intros ->. now rewrite zip_rows_repeat. Qed.

Section Pipeline.
Context {RT : Runtime}.

Lemma str_accessor_ok (f : str -> str) (series : list cell) (lg : log) :
  existsb is_str series = true ->
  str_accessor f series lg
  = (Ok (List.map (fun c => match c with CStr s => CStr (f s) | _ => CNaN end) series), lg).
Proof. unfold str_accessor. now intros ->. Qed.

Lemma str_accessor_fail (f : str -> str) (series : list cell) (lg : log) :
  existsb is_str series = false ->
  str_accessor f series lg = (Raise AttributeError, lg).
Proof. unfold str_accessor. now intros ->. Qed.

Lemma existsb_is_str_map (f : str -> str) (series : list cell) :
  existsb is_str
    (List.map (fun c => match c with CStr s => CStr (f s) | _ => CNaN end) series)
  = existsb is_str series.
Proof.
  induction series as [|c t IH]; [reflexivity|]. simpl. rewrite IH.
  now destruct c.
Qed.

(** The step on the code column. *)
Lemma codigo_step (cols : list str) (rs : list (list cell)) (j : nat) (lg : log) :
  col_index codigo cols = Some j ->
  (if has_column (mkFrame cols rs) codigo then
     c <- get_column (mkFrame cols rs) codigo ;;
     c <- str_accessor strip c ;;
     c <- str_accessor str_upper c ;;
     ret (set_column (mkFrame cols rs) codigo c)
   else ret (mkFrame cols rs)) lg
  = if existsb is_str (List.map (cell_at j) rs)
    then (Ok (mkFrame cols (List.map (fun r => <[j := clean_code (cell_at j r)]> r) rs)), lg)
    else (Raise AttributeError, lg).
Proof.
  intros Hj. unfold has_column. cbn [columns]. rewrite Hj.
  unfold bind at 1. rewrite (get_column_at _ _ _ _ _ Hj).
  destruct (existsb is_str (List.map (cell_at j) rs)) eqn:E.
  - unfold bind at 1. rewrite (str_accessor_ok _ _ _ E).
    unfold bind at 1. rewrite str_accessor_ok by (now rewrite existsb_is_str_map).
    unfold ret. rewrite !map_map, (set_column_at _ _ _ _ _ Hj).
    do 3 f_equal. apply map_ext. intros r. unfold clean_code.
    now destruct (cell_at j r).
  - unfold bind at 1. now rewrite (str_accessor_fail _ _ _ E).
Qed.


Lemma numeric_step (cols : list str) (rs : list (list cell)) (name : str)
      (j : nat) (is_currency : bool) :
  col_index name cols = Some j ->
  set_column (mkFrame cols rs) name
    (clean_numeric_field (List.map (cell_at j) rs) is_currency)
  = mkFrame cols (List.map (fun r => <[j := clean_number is_currency (cell_at j r)]> r) rs).
Proof.
  intros Hj. rewrite clean_numeric_field_map, map_map.
  now apply (set_column_at cols rs name j (fun r => clean_number is_currency (cell_at j r))).
Qed.

Lemma datetime_step (cols : list str) (rs : list (list cell)) (name : str) (j : nat) :
  col_index name cols = Some j ->
  set_column (mkFrame cols rs) name (to_datetime_dmY (List.map (cell_at j) rs))
  = mkFrame cols (List.map (fun r => <[j := to_datetime_cell (cell_at j r)]> r) rs).
Proof.
  intros Hj. unfold to_datetime_dmY. rewrite map_map.
  now apply (set_column_at cols rs name j (fun r => to_datetime_cell (cell_at j r))).
Qed.

Lemma extract_date_from_header_ok (f : string) (lg : log) :
  exists lv m, extract_date_from_header (Some f) lg = (Ok (header_date f), lg ++ [(lv, m)])
    /\ (re_search_date (banner f) = None -> lv = WARNING).
Proof.
  unfold extract_date_from_header, header_date, banner.
  destruct (re_search_date _) as [[[d m] y]|].
  - eexists _, _. split; [reflexivity|discriminate].
  - eexists _, _. split; reflexivity.
Qed.

Lemma required_present (rs : list (list cell)) (lg : log) :
  validate_dataframe (mkFrame names7 rs) lg
  = match rs with
    | [] => (Ok false, lg ++ [(ERROR, MsgEmptyFrame)])
    | _ :: _ => (Ok true, lg ++ [(INFO, MsgValidated)])
    end.
Proof.
  unfold validate_dataframe, df_empty. cbn [columns rows].
  destruct rs as [|r rs]; [reflexivity|]. cbn [length Nat.eqb orb].
  change (length names7 =? 0) with false. cbn [orb].
  rewrite bool_decide_eq_true_2; [reflexivity|].
  apply missing_columns_empty. intros c Hc. exact Hc.
Qed.

(** The last steps: the rows with a missing code, quantity or
    participation go, and what is left is validated. *)
Lemma finish_step (rs : list (list cell)) (lg : log) :
  (df <- dropna_subset (mkFrame names7 rs) [codigo; qtdeteorica; part] ;;
   valid <- validate_dataframe df ;;
   if valid then logger_success (MsgDone (length (rows df))) ;;; ret df
   else raise ValidationFailed) lg
  = match List.filter complete rs with
    | [] => (Raise ValidationFailed, lg ++ [(ERROR, MsgEmptyFrame)])
    | (_ :: _) as kept =>
        (Ok (mkFrame names7 kept),
         (lg ++ [(INFO, MsgValidated)]) ++ [(INFO, MsgDone (length kept))])
    end.
Proof.
  unfold dropna_subset. cbn [columns rows].
  change (indices [codigo; qtdeteorica; part] names7) with (@ret (list nat) [0; 3; 4]).
  rewrite bind_bind, bind_ret, bind_ret.
  fold complete. 
  change (fun r => forallb (fun j => negb (isna (cell_at j r))) [0; 3; 4]) with complete.
  unfold bind at 1. rewrite required_present.
  destruct (List.filter complete rs) as [|r kept]; reflexivity.
Qed.


Lemma stamp_step (rs : list (list cell)) :
  set_column (mkFrame names7 rs) timestamp_extracao
    (to_datetime_any (List.map (cell_at 6) rs))
  = mkFrame names7 (stamp rs).
Proof. reflexivity. Qed.

(** [clean_frame] on a table read under five names. *)
Lemma clean_frame_names5 (f : string) (rs : list (list cell)) (lg : log) :
  fst (clean_frame f (mkFrame names5 rs) lg)
  = clean_result (present rs)
      (List.map (row_steps_5 (header_date f) (strftime_iso now)) (present rs)).
Proof.
  unfold clean_frame, clean_result, logger_info, logger_process.
  rewrite bind_emit. cbv zeta. unfold dropna_all. cbn [columns rows].
  fold (present rs).
  unfold bind at 1. rewrite (codigo_step names5 (present rs) 0 _ eq_refl).
  destruct (existsb is_str (List.map (cell_at 0) (present rs))); [|reflexivity].
  rewrite bind_emit.
  unfold bind at 1. rewrite (get_column_at names5 _ qtdeteorica 3 _ eq_refl).
  rewrite (numeric_step names5 _ qtdeteorica 3 true eq_refl).
  unfold bind at 1. rewrite (get_column_at names5 _ part 4 _ eq_refl).
  rewrite (numeric_step names5 _ part 4 false eq_refl).
  unfold has_column. cbn [columns].
  change (col_index data_pregao names5) with (@None nat). cbn [negb].
  rewrite bind_bind. unfold bind at 1.
  match goal with
  | |- context [extract_date_from_header (Some f) ?L] =>
      destruct (extract_date_from_header_ok f L) as (lv & m & -> & _)
  end.
  rewrite bind_bind, bind_emit, bind_ret.
  rewrite (set_scalar_new names5 _ data_pregao _ eq_refl). cbn [columns].
  change (col_index timestamp_extracao (names5 ++ [data_pregao])) with (@None nat).
  cbn [negb].
  rewrite bind_bind, bind_emit, bind_ret.
  rewrite (set_scalar_new (names5 ++ [data_pregao]) _ timestamp_extracao _ eq_refl).
  change ((names5 ++ [data_pregao]) ++ [timestamp_extracao]) with names7.
  rewrite bind_emit.
  unfold bind at 1. rewrite (get_column_at names7 _ data_pregao 5 _ eq_refl).
  rewrite (datetime_step names7 _ data_pregao 5 eq_refl).
  unfold bind at 1. rewrite (get_column_at names7 _ timestamp_extracao 6 _ eq_refl).
  rewrite stamp_step, finish_step.
  rewrite !map_map. fold (row_steps_5 (header_date f) (strftime_iso now)).
  now destruct (List.filter complete _).
Qed.

(** [clean_frame] on a table read under seven names. *)
Lemma clean_frame_names7 (f : string) (rs : list (list cell)) (lg : log) :
  fst (clean_frame f (mkFrame names7 rs) lg)
  = clean_result (present rs) (List.map row_steps_7 (present rs)).
Proof.
  unfold clean_frame, clean_result, logger_info, logger_process.
  rewrite bind_emit. cbv zeta. unfold dropna_all. cbn [columns rows].
  fold (present rs).
  unfold bind at 1. rewrite (codigo_step names7 (present rs) 0 _ eq_refl).
  destruct (existsb is_str (List.map (cell_at 0) (present rs))); [|reflexivity].
  rewrite bind_emit.
  unfold bind at 1. rewrite (get_column_at names7 _ qtdeteorica 3 _ eq_refl).
  rewrite (numeric_step names7 _ qtdeteorica 3 true eq_refl).
  unfold bind at 1. rewrite (get_column_at names7 _ part 4 _ eq_refl).
  rewrite (numeric_step names7 _ part 4 false eq_refl).
  unfold has_column. cbn [columns].
  change (col_index data_pregao names7) with (Some 5). cbn [negb].
  rewrite bind_ret. cbn [columns].
  change (col_index timestamp_extracao names7) with (Some 6). cbn [negb].
  rewrite bind_ret, bind_emit.
  unfold bind at 1. rewrite (get_column_at names7 _ data_pregao 5 _ eq_refl).
  rewrite (datetime_step names7 _ data_pregao 5 eq_refl).
  unfold bind at 1. rewrite (get_column_at names7 _ timestamp_extracao 6 _ eq_refl).
  rewrite stamp_step, finish_step.
  rewrite !map_map. fold row_steps_7.
  now destruct (List.filter complete _).
Qed.

(** The handler of [process_csv_to_dataframe] logs and raises again. *)
Lemma process_outcome (f : string) (lg : log) :
  fst (process_csv_to_dataframe (Some f) lg) = ingest f.
Proof.
  unfold process_csv_to_dataframe, logger_process. rewrite bind_emit.
  unfold try_except.
  assert (H : fst (process_body f (lg ++ [(INFO, MsgReading)])) = ingest f).
  { unfold process_body, ingest, read_csv_probe, logger_info, loaded.
    destruct (csv_records f) as [|r rest] eqn:Hrec; [reflexivity|].
    rewrite bind_ret, bind_emit. unfold choose_columns.
    destruct (7 <=? length r).
    - rewrite bind_ret. cbv zeta. unfold read_csv_frame at 1. cbv zeta.
      rewrite clean_frame_names7. reflexivity.
    - destruct (5 <=? length r).
      + rewrite bind_ret. cbv zeta. unfold read_csv_frame at 1. cbv zeta.
        rewrite clean_frame_names5. reflexivity.
      + reflexivity. }
  destruct (process_body f (lg ++ [(INFO, MsgReading)])) as [[df|e] l]; simpl in *.
  - exact H.
  - rewrite <- H. now destruct e.
Qed.

End Pipeline.

(** ** Rows *)

Section Rows.
Context {RT : Runtime}.

Ltac destruct_row r :=
  destruct r as [|?c0 [|?c1 [|?c2 [|?c3 [|?c4 [|?c5 [|?c6 [|?c7 ?r]]]]]]]];
  try discriminate.

Lemma read_rows_length (names : list str) (records : list (list str)) :
  Forall (fun r => length r = length names) (rows (frame_of_records names records)).
Proof.
  unfold frame_of_records. cbn [rows].
  apply Forall_forall. intros r Hr. apply list_elem_of_In in Hr.
  apply in_map_iff in Hr as (r0 & <- & _).
  rewrite length_map, length_combine, length_map, length_seq. lia.
Qed.

Lemma present_length (n : nat) (rs : list (list cell)) :
  Forall (fun r => length r = n) rs -> Forall (fun r => length r = n) (present rs).
Proof.
  intros H. unfold present. induction H as [|r rs Hr _ IH]; simpl; [constructor|].
  destruct (negb (forallb isna r)); [constructor|]; assumption.
Qed.

Lemma loaded_length (names : list str) (f : string) :
  Forall (fun r => length r = length names) (loaded names f).
Proof. apply present_length. apply (read_rows_length names (csv_records f)). Qed.

Lemma row_steps_5_canonical (d ts : str) (r : list cell) :
  length r = 5 ->
  row_steps_5 d ts r
  = canonical (fun _ => to_datetime_cell (CStr d)) r ++ [CStr ts].
Proof. intros H. destruct_row r. reflexivity. Qed.

Lemma row_steps_7_canonical (r : list cell) :
  length r = 7 ->
  row_steps_7 r
  = canonical (fun r => to_datetime_cell (cell_at 5 r)) r ++ [cell_at 6 r].
Proof. intros H. destruct_row r. reflexivity. Qed.

Lemma complete_firstn (r : list cell) : complete (firstn 6 r) = complete r.
Proof. destruct_row r; reflexivity. Qed.

Lemma cell_at_firstn (j : nat) (r : list cell) :
  j < 6 -> cell_at j (firstn 6 r) = cell_at j r.
Proof.
  intros Hj. unfold cell_at.
  destruct j as [|[|[|[|[|[|j]]]]]]; try lia; destruct_row r; reflexivity.
Qed.

Lemma filter_complete_firstn (rs : list (list cell)) :
  List.map (firstn 6) (List.filter complete rs)
  = List.filter complete (List.map (firstn 6) rs).
Proof.
  induction rs as [|r rs IH]; [reflexivity|]. simpl.
  rewrite complete_firstn. destruct (complete r); simpl; now rewrite IH.
Qed.

Lemma zip_stamp_firstn (vals : list cell) (rs : list (list cell)) :
  List.map (firstn 6) (zip_rows (fun v r => <[6 := v]> r) vals rs)
  = List.map (firstn 6) rs.
Proof.
  revert vals. induction rs as [|r rs IH]; intros vals; [reflexivity|].
  simpl. rewrite IH. f_equal. destruct_row r; reflexivity.
Qed.

Lemma zip_stamp_time (vals : list cell) (rs : list (list cell)) :
  length vals = length rs ->
  Forall (fun v => is_time v = true) vals ->
  Forall (fun r => length r = 7) rs ->
  Forall (fun r => length r = 7 /\ is_time (cell_at 6 r) = true)
         (zip_rows (fun v r => <[6 := v]> r) vals rs).
Proof.
  revert vals. induction rs as [|r rs IH]; intros vals Hlen Hv Hr; [constructor|].
  destruct vals as [|v vals]; [discriminate|].
  inversion Hv as [|? ? Hv1 Hv2]; subst. inversion Hr as [|? ? Hr1 Hr2]; subst.
  simpl. constructor.
  - destruct_row r. simpl. split; [reflexivity|exact Hv1].
  - apply IH; [simpl in Hlen; lia|assumption|assumption].
Qed.

Lemma to_datetime_any_time (series : list cell) :
  length (to_datetime_any series) = length series
  /\ Forall (fun v => is_time v = true) (to_datetime_any series).
Proof.
  unfold to_datetime_any. split.
  - now rewrite length_map, length_seq.
  - apply Forall_forall. intros v Hv. apply list_elem_of_In in Hv.
    apply in_map_iff in Hv as (i & <- & _).
    now destruct (to_datetime_infer series i).
Qed.

Lemma stamp_firstn (rs : list (list cell)) :
  List.map (firstn 6) (stamp rs) = List.map (firstn 6) rs.
Proof. apply zip_stamp_firstn. Qed.

Lemma stamp_time (rs : list (list cell)) :
  Forall (fun r => length r = 7) rs ->
  Forall (fun r => length r = 7 /\ is_time (cell_at 6 r) = true) (stamp rs).
Proof.
  intros H. unfold stamp.
  destruct (to_datetime_any_time (List.map (cell_at 6) rs)) as [Hl Ht].
  apply zip_stamp_time; [now rewrite Hl, length_map|exact Ht|exact H].
Qed.

Lemma Forall_filter_keep {A} (P : A -> Prop) (p : A -> bool) (l : list A) :
  Forall P l -> Forall (fun x => P x /\ p x = true) (List.filter p l).
Proof.
  induction 1 as [|x l Hx _ IH]; simpl; [constructor|].
  destruct (p x) eqn:E; [constructor; [split|]|]; assumption.
Qed.

(** The three ways [clean_frame] can end: the code column is not text,
    no row has its three fields, or the rows that have them are
    returned. *)
Lemma clean_result_cases (raw cleaned_rows : list (list cell)) :
  Forall (fun r => length r = 7) cleaned_rows ->
  let kept := List.filter complete (List.map (firstn 6) cleaned_rows) in
  (existsb is_str (List.map (cell_at 0) raw) = false
   /\ clean_result raw cleaned_rows = Raise AttributeError)
  \/ (existsb is_str (List.map (cell_at 0) raw) = true
      /\ kept = [] /\ clean_result raw cleaned_rows = Raise ValidationFailed)
  \/ (existsb is_str (List.map (cell_at 0) raw) = true
      /\ kept <> []
      /\ exists df, clean_result raw cleaned_rows = Ok df
           /\ columns df = names7
           /\ List.map (firstn 6) (rows df) = kept
           /\ Forall (fun r => (length r = 7 /\ is_time (cell_at 6 r) = true)
                               /\ complete r = true) (rows df)).
Proof.
  intros Hlen kept. unfold clean_result.
  destruct (existsb is_str (List.map (cell_at 0) raw)); [|left; now split].
  right.
  assert (Hk : List.map (firstn 6) (List.filter complete (stamp cleaned_rows)) = kept).
  { unfold kept. now rewrite filter_complete_firstn, stamp_firstn. }
  pose proof (Forall_filter_keep _ complete _ (stamp_time _ Hlen)) as Hf.
  destruct (List.filter complete (stamp cleaned_rows)) as [|r rs] eqn:E.
  - left. repeat split; [now rewrite <- Hk].
  - right. split; [reflexivity|]. split; [rewrite <- Hk; discriminate|].
    eexists. split; [reflexivity|]. cbn [columns rows]. repeat split; assumption.
Qed.

End Rows.

(** ** Ingestion *)

Section Ingestion.
Context {RT : Runtime}.

Lemma chosen_names_cases (f : string) (names : list str) :
  chosen_names f = Some names -> names = names5 \/ names = names7.
Proof.
  unfold chosen_names. destruct (csv_records f) as [|r rest]; [discriminate|].
  destruct (7 <=? length r); [intros [= <-]; now right|].
  destruct (5 <=? length r); [intros [= <-]; now left|discriminate].
Qed.

Lemma canonical_rows_5 (f : string) (raw : list (list cell)) :
  Forall (fun r => length r = 5) raw ->
  List.map (firstn 6) (List.map (row_steps_5 (header_date f) (strftime_iso now)) raw)
  = List.map (canonical (session_date f names5)) raw
  /\ Forall (fun r => length r = 7)
            (List.map (row_steps_5 (header_date f) (strftime_iso now)) raw).
Proof.
  induction 1 as [|r raw Hr _ [IH1 IH2]]; [split; [reflexivity|constructor]|].
  simpl. rewrite IH1, (row_steps_5_canonical _ _ r Hr).
  split; [reflexivity|]. constructor; [reflexivity|exact IH2].
Qed.

Lemma canonical_rows_7 (f : string) (raw : list (list cell)) :
  Forall (fun r => length r = 7) raw ->
  List.map (firstn 6) (List.map row_steps_7 raw)
  = List.map (canonical (session_date f names7)) raw
  /\ Forall (fun r => length r = 7) (List.map row_steps_7 raw).
Proof.
  induction 1 as [|r raw Hr _ [IH1 IH2]]; [split; [reflexivity|constructor]|].
  simpl. rewrite IH1, (row_steps_7_canonical r Hr).
  split; [reflexivity|]. constructor; [reflexivity|exact IH2].
Qed.

(** Every way ingestion can end, for a file whose sample has at least
    five fields. *)
Lemma ingest_chosen (f : string) (names : list str) :
  chosen_names f = Some names ->
  (existsb is_str (List.map (cell_at 0) (loaded names f)) = false
   /\ ingest f = Raise AttributeError)
  \/ (existsb is_str (List.map (cell_at 0) (loaded names f)) = true
      /\ cleaned f names = [] /\ ingest f = Raise ValidationFailed)
  \/ (existsb is_str (List.map (cell_at 0) (loaded names f)) = true
      /\ cleaned f names <> []
      /\ exists df, ingest f = Ok df
           /\ columns df = names7
           /\ List.map (firstn 6) (rows df) = cleaned f names
           /\ Forall sound_row (rows df)).
Proof.
  unfold chosen_names, ingest, cleaned.
  destruct (csv_records f) as [|r rest] eqn:Hrec; [discriminate|].
  destruct (7 <=? length r).
  - intros [= <-].
    destruct (canonical_rows_7 f (loaded names7 f) (loaded_length names7 f)) as [Hc Hl].
    rewrite <- Hc. now apply clean_result_cases.
  - destruct (5 <=? length r); [|discriminate]. intros [= <-].
    destruct (canonical_rows_5 f (loaded names5 f) (loaded_length names5 f)) as [Hc Hl].
    rewrite <- Hc. now apply clean_result_cases.
Qed.

Lemma ingest_ok (f : string) (df : DataFrame) :
  ingest f = Ok df ->
  exists names,
    chosen_names f = Some names
    /\ existsb is_str (List.map (cell_at 0) (loaded names f)) = true
    /\ columns df = names7
    /\ List.map (firstn 6) (rows df) = cleaned f names
    /\ cleaned f names <> []
    /\ Forall sound_row (rows df).
Proof.
  intros Hok.
  destruct (chosen_names f) as [names|] eqn:Hn.
  - exists names. split; [reflexivity|].
    destruct (ingest_chosen f names Hn)
      as [[_ H]|[(_ & _ & H)|(Ht & Hne & df' & H & Hc & Hr & Hs)]];
      try congruence.
    rewrite Hok in H. injection H as <-. repeat split; assumption.
  - exfalso. unfold chosen_names, ingest in *.
    destruct (csv_records f) as [|r rest]; [discriminate|].
    destruct (7 <=? length r); [discriminate|].
    destruct (5 <=? length r); discriminate.
Qed.







Lemma cell_at_5_cleaned (f : string) (names : list str) (rs : list (list cell)) :
  List.map (firstn 6) rs = cleaned f names ->
  Forall (fun r => exists r0, cell_at 5 r = session_date f names r0) rs.
Proof.
  intros H. apply Forall_forall. intros r Hr. apply list_elem_of_In in Hr.
  assert (Hin : In (firstn 6 r) (cleaned f names)).
  { rewrite <- H. now apply in_map. }
  unfold cleaned in Hin. apply filter_In in Hin as [Hin _].
  apply in_map_iff in Hin as (r0 & Hr0 & _).
  exists r0. rewrite <- (cell_at_firstn 5 r) by lia. now rewrite <- Hr0.
Qed.

Lemma to_datetime_cell_text (s : str) :
  to_datetime_cell (CStr s)
  = match strptime_dmY s with Some t => CTime t | None => CNaT end.
Proof. reflexivity. Qed.

(** C2, amended.  For a file without a session-date column (five or six
    fields in its sample), the session date of every returned row is the
    date read from the banner: the first [dd/mm/yy] found in it, with
    the year taken as 20yy, and the current date when there is none; in
    that case a warning is logged, and in no case does the extraction
    raise.  A banner whose first [dd/mm/yy] is [04/08/25] gives every
    row the session date 2025-08-04. *)
Theorem session_date_from_banner
    (f : string) (lg : log) (df : DataFrame)
    (Hnames : chosen_names f = Some names5)
    (Hok : fst (process_csv_to_dataframe (Some f) lg) = Ok df) :
  Forall (fun r => cell_at 5 r = to_datetime_cell (CStr (header_date f))) (rows df)
  /\ header_date f
     = match re_search_date (banner f) with
       | Some (day, month, year) => day ++ py "/" ++ month ++ py "/" ++ py "20" ++ year
       | None => strftime_dmY now
       end
  /\ (re_search_date (banner f) = Some (py "04", py "08", py "25") ->
      Forall (fun r => cell_at 5 r = CTime (midnight 2025 8 4)) (rows df))
  /\ (forall file l, exists s lv m,
        extract_date_from_header file l = (Ok s, l ++ [(lv, m)])
        /\ (match file with
            | Some g => re_search_date (banner g) = None
            | None => True
            end -> lv = WARNING /\ s = strftime_dmY now)).
Proof.
  rewrite process_outcome in Hok.
  destruct (ingest_ok f df Hok) as (names & Hn & _ & _ & Hr & _ & _).
  rewrite Hnames in Hn. injection Hn as <-.
  pose proof (cell_at_5_cleaned f names5 (rows df) Hr) as H5.
  assert (Hall : Forall (fun r => cell_at 5 r = to_datetime_cell (CStr (header_date f)))
                        (rows df)).
  { eapply Forall_impl; [exact H5|]. intros r [r0 H]. exact H. }
  split; [exact Hall|]. split; [reflexivity|]. split.
  - intros Hb. eapply Forall_impl; [exact Hall|]. intros r ->.
    unfold header_date. rewrite Hb. reflexivity.
  - intros [g|] l; unfold extract_date_from_header.
    + fold (banner g). destruct (re_search_date (banner g)) as [[[d m] y]|].
      * eexists _, _, _. split; [reflexivity|discriminate].
      * eexists _, _, _. split; [reflexivity|]. now split.
    + eexists _, _, _. split; [reflexivity|]. now split.
Qed.

End Ingestion.

(** ** save_to_parquet *)

Section Writer.
Context {RT : Runtime} {PQ : Parquet}.

Lemma cell_at_insert_ne (i j : nat) (v : cell) (r : list cell) :
  i <> j -> cell_at j (<[i := v]> r) = cell_at j r.
Proof.
  intros H. unfold cell_at. rewrite !nth_lookup. now rewrite list_lookup_insert_ne.
Qed.


Lemma col_index_nth (name : str) (cols : list str) (j : nat) :
  col_index name cols = Some j -> nth_error cols j = Some name.
Proof.
  revert j. induction cols as [|c cols IH]; intros j; [discriminate|]. simpl.
  destruct (str_eqb c name) eqn:E.
  - intros [= <-]. apply str_eqb_eq in E. now subst.
  - destruct (col_index name cols) as [k|]; [|discriminate].
    intros [= <-]. simpl. now apply IH.
Qed.



Lemma dt_strftime_ok (series : list cell) (lg : log) :
  forallb is_time series = true ->
  dt_strftime_Ymd series lg = (Ok (List.map time_text series), lg).
Proof. unfold dt_strftime_Ymd. now intros ->. Qed.

Lemma save_to_parquet_run (cols : list str) (rs : list (list cell)) (jd jt : nat) (lg : log) :
  col_index data_pregao cols = Some jd ->
  col_index timestamp_extracao cols = Some jt ->
  forallb is_time (List.map (cell_at jd) rs) = true ->
  forallb is_time (List.map (cell_at jt) rs) = true ->
  fst (save_to_parquet (mkFrame cols rs) lg)
  = match to_parquet (mkFrame cols (text_rows jd jt rs)) with
    | Some file => Ok file
    | None => Raise WriteError
    end.
Proof.
  intros Hd Ht Hdt Htt.
  assert (Hne : jd <> jt).
  { intros ->. apply col_index_nth in Hd, Ht. rewrite Hd in Ht. discriminate. }
  unfold save_to_parquet, try_except, logger_process, logger_success, logger_failure.
  rewrite !bind_emit. cbv zeta.
  unfold bind at 1. rewrite (get_column_at cols rs data_pregao jd _ Hd).
  unfold bind at 1. rewrite (dt_strftime_ok _ _ Hdt).
  rewrite map_map, (set_column_at cols rs data_pregao jd _ Hd).
  unfold bind at 1. rewrite (get_column_at cols _ timestamp_extracao jt _ Ht).
  assert (Hcol : List.map (cell_at jt)
                   (List.map (fun r => <[jd := time_text (cell_at jd r)]> r) rs)
                 = List.map (cell_at jt) rs).
  { rewrite map_map. apply map_ext. intros r. now apply cell_at_insert_ne. }
  unfold bind at 1. rewrite dt_strftime_ok by (now rewrite Hcol).
  rewrite map_map, (set_column_at cols _ timestamp_extracao jt _ Ht).
  fold (text_rows jd jt rs).
  now destruct (to_parquet _).
Qed.




End Writer.

(** ** The daily file *)

Section DailyFile.
Context {RT : Runtime}.














End DailyFile.

(** ** The tables of ingestion are fit for the writer *)

Section Ready.
Context {RT : Runtime}.

Lemma session_date_is_time (f : string) (names : list str) (r : list cell) :
  is_time (session_date f names r) = true.
Proof.
  unfold session_date, to_datetime_cell.
  destruct (col_index data_pregao names) as [j|].
  - destruct (isna (cell_at j r)); [reflexivity|]. now destruct (strptime_dmY _).
  - cbn [isna]. now destruct (strptime_dmY _).
Qed.

(** A table returned by ingestion is validated, has one cell per column
    in every row, and holds timestamps in its two time columns. *)
Lemma ingested_table_ready (f : string) (lg : log) (df : DataFrame) :
  fst (process_csv_to_dataframe (Some f) lg) = Ok df ->
  fst (validate_dataframe df lg) = Ok true
  /\ well_formed df
  /\ forallb is_time (column_cells df data_pregao) = true
  /\ forallb is_time (column_cells df timestamp_extracao) = true.
Proof.
  rewrite process_outcome. intros Hok.
  destruct (ingest_ok f df Hok) as (names & _ & _ & Hc & Hr & Hne & Hs).
  pose proof (cell_at_5_cleaned f names (rows df) Hr) as H5.
  destruct df as [cols rs]. cbn [columns rows] in *. subst cols.
  unfold column_cells, well_formed. cbn [columns rows].
  change (col_index data_pregao names7) with (Some 5).
  change (col_index timestamp_extracao names7) with (Some 6).
  split; [|split; [|split]].
  - rewrite required_present. destruct rs; [|reflexivity].
    exfalso. apply Hne. now rewrite <- Hr.
  - eapply Forall_impl; [exact Hs|]. now intros r [[Hl _] _].
  - apply forallb_forall. intros c Hc. apply in_map_iff in Hc as (r & <- & Hin).
    rewrite Forall_forall in H5. destruct (H5 r) as [r0 ->]; [now apply list_elem_of_In|].
    apply session_date_is_time.
  - apply forallb_forall. intros c Hc. apply in_map_iff in Hc as (r & <- & Hin).
    rewrite Forall_forall in Hs. destruct (Hs r) as [[_ Ht] _]; [now apply list_elem_of_In|].
    exact Ht.
Qed.

End Ready.

(** ** Instances *)

Import Samples.


Lemma session_date_from_banner_witness :
  chosen_names ibov_csv = Some names5
  /\ fst (@process_csv_to_dataframe reference_runtime (Some ibov_csv) []) = Ok ibov_table
  /\ Forall (fun r => cell_at 5 r = CTime (midnight 2025 8 4)) (rows ibov_table).
Proof.
  split; [vm_compute; reflexivity|].
  split; [vm_compute; reflexivity|].
  apply (@session_date_from_banner reference_runtime ibov_csv [] ibov_table).
  - vm_compute. reflexivity.
  - vm_compute. reflexivity.
  - vm_compute. reflexivity.
Defined.

(** C2, as stated, fails: this banner contains [04/08/25], and the
    session date of the row is 2020-08-01, from the [01/08/20] that
    comes first. *)
Lemma banner_earlier_date_wins :
  contains (py "04/08/25") (banner dated_banner_csv) = true
  /\ chosen_names dated_banner_csv = Some names5
  /\ exists df,
       fst (@process_csv_to_dataframe reference_runtime (Some dated_banner_csv) []) = Ok df
       /\ List.map (cell_at 5) (rows df) = [CTime (midnight 2020 8 1)].
Proof.
  split; [vm_compute; reflexivity|].
  split; [vm_compute; reflexivity|].
  eexists. split; vm_compute; reflexivity.
Qed.





Lemma load_env_file_no_overwrite_witness :
  environ sample_process !! py "AWS_REGION" = Some (py "sa-east-1")
  /\ environ (snd (load_env_file sample_process (Some sample_env_file))) !! py "AWS_REGION"
     = Some (py "sa-east-1")
  /\ environ (snd (load_env_file sample_process (Some sample_env_file))) !! py "S3_BUCKET_NAME"
     = Some (py "b3-data").
Proof.
  split; [vm_compute; reflexivity|].
  split; [|vm_compute; reflexivity].
  apply (load_env_file_no_overwrite sample_process (Some sample_env_file)
           (py "AWS_REGION") (py "sa-east-1")).
  - vm_compute. reflexivity.
  - discriminate.
Defined.

Import MoreViews.

(** ** File names *)

Section FileNames.
Context {RT : Runtime}.

Lemma digits_of_digits (fuel : nat) :
  forall (n : N) (acc : str),
    forallb is_digit acc = true -> forallb is_digit (digits_of fuel n acc) = true.
Proof.
  induction fuel as [|fuel IH]; intros n acc Hacc; simpl; [exact Hacc|].
  assert (Hd : is_digit (48 + n mod 10)%N = true).
  { unfold is_digit, in_range.
    assert (Hr : (n mod 10 < 10)%N) by (apply N.mod_upper_bound; discriminate).
    remember (n mod 10)%N as r. clear Heqr.
    apply andb_true_iff. split; apply N.leb_le; lia. }
  assert (Hacc' : forallb is_digit ((48 + n mod 10)%N :: acc) = true).
  { simpl. now rewrite Hd, Hacc. }
  destruct (n / 10 =? 0)%N; [exact Hacc'|]. now apply IH.
Qed.

Lemma zero_pad_digits (w : nat) (n : N) : forallb is_digit (zero_pad w n) = true.
Proof.
  unfold zero_pad, decimal. rewrite forallb_app. apply andb_true_iff. split.
  - induction (w - _) as [|k IH]; [reflexivity|]. simpl. exact IH.
  - now apply digits_of_digits.
Qed.

Lemma digits_no_dot (s : str) : forallb is_digit s = true -> ~ In (ch ".") s.
Proof.
  intros H Hin. rewrite forallb_forall in H. specialize (H _ Hin). discriminate H.
Qed.

Lemma replace_from_skip (old new t : str) :
  replace_from old new (length t) t = [].
Proof. induction t as [|c t IH]; [reflexivity|]. simpl. exact IH. Qed.

Lemma startswith_refl (s t : str) : startswith s (s ++ t) = true.
Proof.
  induction s as [|c s IH]; [reflexivity|]. simpl. now rewrite N.eqb_refl, IH.
Qed.

Lemma startswith_self (s : str) : startswith s s = true.
Proof. induction s as [|c s IH]; [reflexivity|]. simpl. now rewrite N.eqb_refl, IH. Qed.

Lemma startswith_head (o c : char) (old t : str) :
  o <> c -> startswith (o :: old) (c :: t) = false.
Proof. intros H. simpl. apply N.eqb_neq in H. now rewrite H. Qed.

(** An occurrence at the very end, when the first character of [old]
    occurs nowhere before it, is the only one replaced. *)
Lemma replace_suffix (o : char) (old new s : str) :
  ~ In o s -> replace (o :: old) new (s ++ o :: old) = s ++ new.
Proof.
  unfold replace. induction s as [|c s IH]; intros Hs.
  - cbn [app replace_from]. rewrite startswith_self. cbn [length].
    replace (S (length old) - 1) with (length old) by lia.
    now rewrite replace_from_skip, app_nil_r.
  - cbn [app replace_from].
    rewrite startswith_head by (intros ->; apply Hs; now left).
    f_equal. apply IH. intros H. apply Hs. now right.
Qed.

Lemma strftime_dmy_no_dot (date : datetime) : ~ In (ch ".") (strftime_dmy date).
Proof.
  unfold strftime_dmy. intros H.
  apply in_app_or in H as [H|H];
    [now apply digits_no_dot in H; [|apply zero_pad_digits]|].
  change (py "-") with [ch "-"] in H. cbn [app] in H.
  destruct H as [H|H]; [discriminate H|].
  apply in_app_or in H as [H|H];
    [now apply digits_no_dot in H; [|apply zero_pad_digits]|].
  destruct H as [H|H]; [discriminate H|].
  now apply digits_no_dot in H; [|apply zero_pad_digits].
Qed.

Lemma parquet_name_of_date (date : option datetime) :
  get_parquet_filename date
  = py "IBOVDia_" ++ strftime_dmy (date_or_today date) ++ py ".parquet".
Proof.
  unfold get_parquet_filename, get_csv_filename. cbv zeta.
  rewrite app_assoc. change (py ".csv") with (ch "." :: py "csv").
  rewrite replace_suffix; [now rewrite <- app_assoc|].
  intros H. apply in_app_or in H as [H|H].
  - vm_compute in H. repeat (destruct H as [H|H]; [discriminate H|]). exact H.
  - now apply strftime_dmy_no_dot in H.
Qed.

(** X1.  For every date (and for today when none is given) the Parquet
    name is the CSV name with its extension exchanged, and the S3 key is
    that name under the fixed prefix: the replacement of [.csv] touches
    nothing but the extension. *)
Theorem parquet_name_and_key (date : option datetime) :
  get_csv_filename date
  = py "IBOVDia_" ++ strftime_dmy (date_or_today date) ++ py ".csv"
  /\ get_parquet_filename date
     = py "IBOVDia_" ++ strftime_dmy (date_or_today date) ++ py ".parquet"
  /\ get_s3_key date
     = py "raw/parquet file/" ++ py "IBOVDia_" ++ strftime_dmy (date_or_today date)
       ++ py ".parquet".
Proof.
  split; [reflexivity|]. split; [apply parquet_name_of_date|].
  unfold get_s3_key. cbv zeta. now rewrite parquet_name_of_date.
Qed.

Lemma zero_pad_2_table :
  forallb (fun n => str_eqb (zero_pad 2 n) [48 + n / 10; 48 + n mod 10]%N)
          (List.map N.of_nat (seq 0 100)) = true.
Proof. vm_compute. reflexivity. Qed.

Lemma zero_pad_2 (n : N) :
  (n < 100)%N -> zero_pad 2 n = [48 + n / 10; 48 + n mod 10]%N.
Proof.
  intros H. pose proof zero_pad_2_table as T. rewrite forallb_forall in T.
  apply str_eqb_eq. apply T. apply in_map_iff. exists (N.to_nat n).
  split; [apply N2Nat.id|]. apply in_seq. lia.
Qed.

Lemma zero_pad_2_inj (a b : N) :
  (a < 100)%N -> (b < 100)%N -> zero_pad 2 a = zero_pad 2 b -> a = b.
Proof.
  intros Ha Hb. rewrite (zero_pad_2 a Ha), (zero_pad_2 b Hb). intros [= H1 H2].
  rewrite (N.div_mod a 10), (N.div_mod b 10) by lia. lia.
Qed.

(** X2.  Two dates get the same CSV name exactly when they agree on the
    day, on the month and on the last two digits of the year: within a
    century the name determines the date, and dates a century apart
    share one name (hence one Parquet name and one S3 key). *)
Theorem csv_name_collision (d1 d2 : datetime)
    (Hd1 : (day d1 < 100)%N) (Hm1 : (month d1 < 100)%N)
    (Hd2 : (day d2 < 100)%N) (Hm2 : (month d2 < 100)%N) :
  get_csv_filename (Some d1) = get_csv_filename (Some d2)
  <-> (day d1 = day d2 /\ month d1 = month d2
       /\ (year d1 mod 100 = year d2 mod 100)%N).
Proof.
  unfold get_csv_filename, strftime_dmy. cbn [date_or_today].
  assert (Hy1 : (year d1 mod 100 < 100)%N) by (apply N.mod_upper_bound; lia).
  assert (Hy2 : (year d2 mod 100 < 100)%N) by (apply N.mod_upper_bound; lia).
  split.
  - intros H. apply app_inv_head in H.
    rewrite (zero_pad_2 _ Hd1), (zero_pad_2 _ Hm1), (zero_pad_2 _ Hy1),
      (zero_pad_2 _ Hd2), (zero_pad_2 _ Hm2), (zero_pad_2 _ Hy2) in H.
    cbn [app] in H. injection H as E1 E2 E3 E4 E5 E6.
    repeat split.
    + rewrite (N.div_mod (day d1) 10), (N.div_mod (day d2) 10) by lia. lia.
    + rewrite (N.div_mod (month d1) 10), (N.div_mod (month d2) 10) by lia. lia.
    + rewrite (N.div_mod (year d1 mod 100) 10), (N.div_mod (year d2 mod 100) 10) by lia.
      lia.
  - intros (-> & -> & ->). reflexivity.
Qed.

End FileNames.

(** ** Validation of the environment *)

Section EnvValidation.

Lemma classify_step (env : gmap str str) (m e v : list str) (x : str) :
  classify env (m, e, v) x
  = if var_missing env x then (m ++ [x], e, v)
    else if var_blank env x then (m, e ++ [x], v)
    else (m, e, v ++ [x]).
Proof.
  unfold classify, var_missing, var_blank. destruct (getenv env x); reflexivity.
Qed.

Lemma classify_fold (env : gmap str str) (vars : list str) :
  forall m e v,
    fold_left (classify env) vars (m, e, v)
    = (m ++ List.filter (var_missing env) vars,
       e ++ List.filter (var_blank env) vars,
       v ++ List.filter (var_filled env) vars).
Proof.
  induction vars as [|x vars IH]; intros m e v; cbn [fold_left List.filter].
  - now rewrite !app_nil_r.
  - rewrite classify_step.
    unfold var_missing at 1 2, var_blank at 1 2, var_filled at 1.
    destruct (getenv env x) as [value|].
    + destruct (str_eqb (strip value) []); simpl; rewrite IH;
        now rewrite <- ?app_assoc.
    + rewrite IH. now rewrite <- app_assoc.
Qed.

Lemma var_filled_iff (env : gmap str str) (var : str) :
  var_filled env var = true <-> filled env var.
Proof.
  unfold var_filled, filled, getenv. destruct (env !! var) as [value|].
  - rewrite negb_true_iff. split.
    + intros H. exists value. split; [reflexivity|]. intros E.
      apply str_eqb_eq in E. congruence.
    + intros (v & [= <-] & Hv). destruct (str_eqb (strip value) []) eqn:E; [|reflexivity].
      apply str_eqb_eq in E. contradiction.
  - split; [discriminate|]. intros (v & H & _). discriminate H.
Qed.

Lemma three_way (env : gmap str str) (vars : list str) :
  length (List.filter (var_missing env) vars)
  + length (List.filter (var_blank env) vars)
  + length (List.filter (var_filled env) vars) = length vars.
Proof.
  induction vars as [|x vars IH]; [reflexivity|]. simpl.
  unfold var_missing at 1, var_blank at 1, var_filled at 1.
  destruct (getenv env x) as [value|]; [destruct (str_eqb (strip value) [])|];
    simpl; lia.
Qed.

Lemma length_zero_filter {A} (p : A -> bool) (l : list A) :
  (length (List.filter p l) =? 0) = forallb (fun x => negb (p x)) l.
Proof.
  induction l as [|x l IH]; [reflexivity|]. simpl. destruct (p x); simpl; [reflexivity|assumption].
Qed.

Lemma is_valid_filled (env : gmap str str) (required_vars : list str) :
  is_valid (validate_required_env_vars env required_vars) = true
  <-> Forall (filled env) required_vars.
Proof.
  unfold validate_required_env_vars. rewrite classify_fold. cbn [app is_valid].
  rewrite !length_zero_filter, andb_true_iff, !forallb_forall, Forall_forall.
  split.
  - intros [Hm He] var Hin. apply list_elem_of_In in Hin.
    specialize (Hm var Hin). specialize (He var Hin).
    apply var_filled_iff. unfold var_missing, var_blank, var_filled in *.
    destruct (getenv env var); [exact He|discriminate Hm].
  - intros H. split; intros var Hin; apply list_elem_of_In in Hin;
      specialize (H var Hin); apply var_filled_iff in H;
      unfold var_missing, var_blank, var_filled in *;
      destruct (getenv env var); try discriminate; try reflexivity.
    now rewrite H.
Qed.

(** X3.  [validate_required_env_vars] sorts every required variable
    into exactly one of its three lists: unset into [missing], set to
    nothing but white space into [empty], anything else into
    [valid_vars]; the sizes add up to the number required, and [valid]
    is true exactly when every required variable is set to a text that
    is not blank. *)
Theorem validate_required_env_vars_spec (env : gmap str str) (required_vars : list str) :
  let r := validate_required_env_vars env required_vars in
  (is_valid r = true <-> Forall (filled env) required_vars)
  /\ length (missing_vars r) + length (empty_vars r) + total_valid r = total_required r
  /\ missing_vars r = List.filter (var_missing env) required_vars
  /\ empty_vars r = List.filter (var_blank env) required_vars
  /\ valid_vars r = List.filter (var_filled env) required_vars
  /\ (forall var, In var required_vars ->
        (In var (valid_vars r) <-> filled env var)
        /\ (In var (missing_vars r) <-> env !! var = None)).
Proof.
  cbv zeta. split; [apply is_valid_filled|].
  unfold validate_required_env_vars. rewrite classify_fold. cbn [app].
  cbn [is_valid missing_vars empty_vars valid_vars total_required total_valid].
  split; [apply three_way|repeat split; try reflexivity].
  - intros H0. apply filter_In in H0 as [_ H0]. now apply var_filled_iff.
  - intros H0. apply filter_In. split; [assumption|]. now apply var_filled_iff.
  - intros H0. apply filter_In in H0 as [_ H0]. unfold var_missing, getenv in H0.
    now destruct (env !! var).
  - intros H0. apply filter_In. split; [assumption|]. unfold var_missing, getenv.
    now rewrite H0.
Qed.

End EnvValidation.

(** ** Loading the file again *)

Section EnvReload.

Lemma env_grows_refl (env : gmap str str) : env_grows env env.
Proof. intros key. split; auto. Qed.

Lemma env_grows_trans (a b c : gmap str str) :
  env_grows a b -> env_grows b c -> env_grows a c.
Proof.
  intros Hab Hbc key. destruct (Hab key) as [H1 H2]. destruct (Hbc key) as [H3 H4].
  split; [auto|]. intros Ht. rewrite <- (H2 Ht). apply H4. now rewrite (H2 Ht).
Qed.

Lemma load_line_request (p : process) (line_num : nat) (line : str) :
  match line_request line with
  | None => exists p', load_line p line_num line = Some p' /\ environ p' = environ p
  | Some (key, value) =>
      load_line p line_num line
      = if truthy (getenv (environ p) key) then Some p
        else match setenv (environ p) key value with
             | Some env' => Some (mkProcess env' (stdout p))
             | None => None
             end
  end.
Proof.
  unfold line_request, load_line.
  destruct (_ || _); [now exists p|].
  destruct (contains _ _); [|now eexists].
  destruct (split_once _ _) as [k v].
  destruct (str_eqb (strip k) []); cbn [negb andb]; [now exists p|].
  now destruct (truthy _).
Qed.

Lemma setenv_insert (env env' : gmap str str) (key value : str) :
  setenv env key value = Some env' -> env' = <[key := value]> env.
Proof. unfold setenv. destruct (_ || _ || _ || _); [discriminate|]. now intros [= <-]. Qed.

Lemma setenv_same (env1 env2 : gmap str str) (key value : str) :
  is_Some (setenv env1 key value) -> is_Some (setenv env2 key value).
Proof. unfold setenv. now destruct (_ || _ || _ || _). Qed.

Lemma load_line_grows (p p' : process) (line_num : nat) (line : str) :
  load_line p line_num line = Some p' -> env_grows (environ p) (environ p').
Proof.
  intros H. pose proof (load_line_request p line_num line) as R.
  destruct (line_request line) as [[key value]|].
  - rewrite H in R. destruct (truthy (getenv (environ p) key)) eqn:Ht.
    + injection R as ->. apply env_grows_refl.
    + destruct (setenv (environ p) key value) as [env'|] eqn:Hs; [|discriminate].
      injection R as ->. cbn [environ]. apply setenv_insert in Hs. subst env'.
      intros k. destruct (decide (key = k)) as [<-|Hk].
      * rewrite lookup_insert_eq. split; [eauto|]. unfold getenv in Ht. congruence.
      * rewrite lookup_insert_ne by assumption. split; auto.
  - destruct R as (p0 & Hp0 & He). rewrite H in Hp0. injection Hp0 as ->.
    rewrite He. apply env_grows_refl.
Qed.

Lemma load_lines_grows (lines : list str) :
  forall (p : process) (line_num : nat),
    env_grows (environ p) (environ (fst (load_lines p line_num lines))).
Proof.
  induction lines as [|line rest IH]; intros p n; simpl; [apply env_grows_refl|].
  destruct (load_line p n line) as [p'|] eqn:E; simpl; [|apply env_grows_refl].
  eapply env_grows_trans; [eapply load_line_grows; eassumption|apply IH].
Qed.

Lemma truthy_nonempty (v : option str) :
  truthy v = false -> is_Some v -> v = Some [].
Proof. destruct v as [[|c s]|]; simpl; try discriminate; [reflexivity|]. now intros _ [? ?]. Qed.

(** A line that has been loaded does nothing to any later environment. *)
Lemma load_line_stable (p p' q : process) (n m : nat) (line : str) :
  load_line p n line = Some p' ->
  env_grows (environ p') (environ q) ->
  exists q', load_line q m line = Some q' /\ environ q' = environ q.
Proof.
  intros H Hg.
  pose proof (load_line_request p n line) as Rp.
  pose proof (load_line_request q m line) as Rq.
  destruct (line_request line) as [[key value]|]; [|exact Rq].
  rewrite Rq. rewrite H in Rp.
  destruct (truthy (getenv (environ q) key)) eqn:Hq; [now exists q|].
  destruct (Hg key) as [Hset Hkeep].
  destruct (truthy (getenv (environ p) key)) eqn:Hp.
  - injection Rp as ->. unfold getenv in *. rewrite (Hkeep Hp) in Hq. congruence.
  - destruct (setenv (environ p) key value) as [env'|] eqn:Hs; [|discriminate].
    injection Rp as ->. cbn [environ] in *.
    pose proof (setenv_insert _ _ _ _ Hs) as ->. rewrite lookup_insert_eq in Hset, Hkeep.
    assert (Hv : value = []).
    { destruct value as [|c v]; [reflexivity|].
      unfold getenv in Hq. rewrite (Hkeep eq_refl) in Hq. discriminate Hq. }
    subst value.
    assert (Hq' : environ q !! key = Some []).
    { apply truthy_nonempty; [exact Hq|]. apply Hset. eauto. }
    destruct (setenv_same _ (environ q) _ _ (ex_intro _ _ Hs)) as [env2 Hs2].
    rewrite Hs2. eexists. split; [reflexivity|]. cbn [environ].
    rewrite (setenv_insert _ _ _ _ Hs2). now apply insert_id.
Qed.

Lemma load_line_fails_again (p q : process) (n m : nat) (line : str) :
  load_line p n line = None -> environ q = environ p ->
  load_line q m line = None.
Proof.
  intros H He.
  pose proof (load_line_request p n line) as Rp.
  pose proof (load_line_request q m line) as Rq.
  destruct (line_request line) as [[key value]|].
  - rewrite Rq, He. rewrite H in Rp.
    destruct (truthy (getenv (environ p) key)); [discriminate|].
    now destruct (setenv (environ p) key value).
  - destruct Rp as (p0 & Hp0 & _). congruence.
Qed.

Lemma load_lines_again (lines : list str) :
  forall (p q : process) (n m : nat),
    environ q = environ (fst (load_lines p n lines)) ->
    environ (fst (load_lines q m lines)) = environ q
    /\ snd (load_lines q m lines) = snd (load_lines p n lines).
Proof.
  induction lines as [|line rest IH]; intros p q n m Hq; simpl; [now split|].
  simpl in Hq.
  destruct (load_line p n line) as [p'|] eqn:E.
  - destruct (load_line_stable p p' q n m line E) as (q' & Hq' & He).
    { rewrite Hq. apply load_lines_grows. }
    rewrite Hq'. rewrite <- He in Hq.
    destruct (IH p' q' (S n) (S m) Hq) as [H1 H2]. split; [congruence|exact H2].
  - simpl in Hq. now rewrite (load_line_fails_again p q n m line E Hq).
Qed.

(** X4.  Loading the same file a second time changes nothing in the
    environment and ends the same way: the variables keep the values
    the first loading left, also when the loading stops at a line it
    cannot apply. *)
Theorem load_env_file_twice (p : process) (file : option str) :
  let first := load_env_file p file in
  let second := load_env_file (snd first) file in
  environ (snd second) = environ (snd first) /\ fst second = fst first.
Proof.
  cbv zeta. unfold load_env_file. destruct file as [text|]; [|now split].
  destruct (load_lines p 1 (file_lines text)) as [p1 ok1] eqn:E1.
  assert (H : forall out,
             environ (fst (load_lines (mkProcess (environ p1) out) 1 (file_lines text)))
             = environ p1
             /\ snd (load_lines (mkProcess (environ p1) out) 1 (file_lines text)) = ok1).
  { intros out.
    pose proof (load_lines_again (file_lines text) p (mkProcess (environ p1) out) 1 1) as H.
    rewrite E1 in H. apply H. reflexivity. }
  destruct ok1; cbn [fst snd environ stdout].
  - specialize (H (stdout p1 ++ [PrintLoaded])).
    destruct (load_lines (mkProcess (environ p1) _) 1 (file_lines text)) as [p2 ok2].
    cbn [fst snd] in H. destruct H as [H1 H2]. subst ok2. cbn [fst snd environ]. now split.
  - specialize (H (stdout p1 ++ [PrintError])).
    destruct (load_lines (mkProcess (environ p1) _) 1 (file_lines text)) as [p2 ok2].
    cbn [fst snd] in H. destruct H as [H1 H2]. subst ok2. cbn [fst snd environ]. now split.
Qed.

Lemma str_eqb_neq (a b : str) : a <> b -> str_eqb a b = false.
Proof.
  intros H. destruct (str_eqb a b) eqn:E; [|reflexivity]. apply str_eqb_eq in E. contradiction.
Qed.

Lemma final_value_skip (env : gmap str str) (k v : str) (reqs : list (str * str))
    (key : str) :
  truthy (env !! k) = true ->
  final_value env ((k, v) :: reqs) key = final_value env reqs key.
Proof.
  intros Ht. unfold final_value. destruct (truthy (env !! key)) eqn:Hk; [reflexivity|].
  assert (Hne : k <> key) by congruence.
  cbn [List.find existsb fst snd]. now rewrite (str_eqb_neq _ _ Hne).
Qed.

Lemma final_value_set (env : gmap str str) (k v : str) (reqs : list (str * str))
    (key : str) :
  truthy (env !! k) = false ->
  final_value (<[k := v]> env) reqs key = final_value env ((k, v) :: reqs) key.
Proof.
  intros Ht. unfold final_value. cbn [List.find existsb fst snd].
  destruct (decide (k = key)) as [<-|Hne].
  - rewrite lookup_insert_eq, Ht, str_eqb_refl. cbn [andb orb].
    destruct v as [|c v]; [|reflexivity]. cbn [truthy].
    destruct (List.find _ reqs); [reflexivity|]. now destruct (existsb _ reqs).
  - rewrite lookup_insert_ne by assumption. now rewrite (str_eqb_neq _ _ Hne).
Qed.

Lemma requests_cons (line : str) (rest : list str) :
  requests (line :: rest)
  = match line_request line with
    | Some kv => kv :: requests rest
    | None => requests rest
    end.
Proof. reflexivity. Qed.

Lemma load_lines_values (lines : list str) :
  forall (p : process) (n : nat) (key : str),
    snd (load_lines p n lines) = true ->
    environ (fst (load_lines p n lines)) !! key
    = final_value (environ p) (requests lines) key.
Proof.
  induction lines as [|line rest IH]; intros p n key; cbn [load_lines].
  - intros _. unfold final_value. cbn. now destruct (truthy _).
  - pose proof (load_line_request p n line) as R.
    rewrite requests_cons.
    destruct (line_request line) as [[k v]|].
    + rewrite R. unfold getenv. destruct (truthy (environ p !! k)) eqn:Ht.
      * intros H. rewrite (IH p (S n) key H). symmetry. now apply final_value_skip.
      * destruct (setenv (environ p) k v) as [env'|] eqn:Hs; [|discriminate].
        intros H. rewrite (IH _ (S n) key H). cbn [environ].
        rewrite (setenv_insert _ _ _ _ Hs). now apply final_value_set.
    + destruct R as (p' & -> & He). intros H. rewrite (IH p' (S n) key H). now rewrite He.
Qed.

(** X5.  When [load_env_file] reads its file to the end, every
    variable ends with: the value it had, when that was not empty; else
    the first value the file gives it that is not empty; else the empty
    text when the file names it at all; else it stays as it was.  So
    an earlier line wins over a later one, except that an empty value
    is replaced by the next one. *)
Theorem load_env_file_values (p : process) (text : str) (key : str)
    (Hloaded : fst (load_env_file p (Some text)) = true) :
  environ (snd (load_env_file p (Some text))) !! key
  = final_value (environ p) (requests (file_lines text)) key.
Proof.
  unfold load_env_file in *.
  pose proof (load_lines_values (file_lines text) p 1 key) as H.
  destruct (load_lines p 1 (file_lines text)) as [p' [|]]; [|discriminate Hloaded].
  cbn [fst snd environ] in *. now apply H.
Qed.

Lemma lines_from_incl (s : str) :
  forall (cur line : str) (x : char),
    In line (lines_from cur s) -> In x line -> In x cur \/ In x s.
Proof.
  induction s as [|c t IH]; intros cur line x Hl Hx; cbn [lines_from] in Hl.
  - destruct cur; [destruct Hl|]. destruct Hl as [<-|[]].
    left. now apply in_rev.
  - destruct (c =? 10)%N.
    { destruct Hl as [<-|Hl]; [left; now apply in_rev|].
      destruct (IH [] line x Hl Hx) as [[]|H]. right. now right. }
    destruct (c =? 13)%N.
    { destruct t as [|d t'].
      - destruct Hl as [<-|[]]. left. now apply in_rev.
      - destruct (d =? 10)%N.
        + destruct (IH cur line x Hl Hx) as [H|H]; [now left|right; now right].
        + destruct Hl as [<-|Hl]; [left; now apply in_rev|].
          destruct (IH [] line x Hl Hx) as [[]|H]. right. now right. }
    destruct (IH (c :: cur) line x Hl Hx) as [[<-|H]|H].
    + right. now left.
    + now left.
    + right. now right.
Qed.

Lemma split_once_parts (sep : char) (s : str) :
  forall a b, split_once sep s = (a, b) ->
    ~ In sep a /\ (forall x, In x a -> In x s) /\ (forall x, In x b -> In x s).
Proof.
  induction s as [|c t IH]; intros a b H; cbn [split_once] in H.
  - injection H as <- <-. repeat split; simpl; tauto.
  - destruct (c =? sep)%N eqn:E.
    + injection H as <- <-. repeat split; simpl; try tauto.
    + destruct (split_once sep t) as [a' b'] eqn:Es. injection H as <- <-.
      destruct (IH a' b' eq_refl) as (H1 & H2 & H3). apply N.eqb_neq in E.
      repeat split.
      * intros [Hc|Hc]; [congruence|contradiction].
      * intros x [<-|Hx]; [now left|right; auto].
      * intros x Hx. right. auto.
Qed.

Lemma removelast_incl {A} (l : list A) (x : A) : In x (removelast l) -> In x l.
Proof.
  induction l as [|a l IH]; [auto|]. cbn [removelast]. destruct l as [|b l]; [intros []|].
  intros [<-|H]; [now left|right; auto].
Qed.

Lemma unquote_incl (value : str) (x : char) : In x (unquote value) -> In x value.
Proof.
  assert (H : In x (slice_1_m1 value) -> In x value).
  { unfold slice_1_m1. intros H. apply removelast_incl in H.
    destruct value; [exact H|now right]. }
  unfold unquote. destruct (_ && _); [exact H|]. destruct (_ && _); [exact H|auto].
Qed.

Lemma line_request_parts (line key value : str) :
  line_request line = Some (key, value) ->
  key <> [] /\ ~ In (ch "=") key
  /\ (forall x, In x key -> In x line) /\ (forall x, In x value -> In x line).
Proof.
  unfold line_request. destruct (_ || _); [discriminate|].
  destruct (contains _ _); [|discriminate].
  destruct (split_once _ _) as [k v] eqn:Es.
  destruct (split_once_parts _ _ _ _ Es) as (H1 & H2 & H3).
  destruct (str_eqb (strip k) []) eqn:Ek; [discriminate|]. intros [= <- <-].
  repeat split.
  - intros E. rewrite E in Ek. discriminate Ek.
  - intros Hin. apply H1. now apply strip_incl.
  - intros x Hx. apply strip_incl, H2, strip_incl. exact Hx.
  - intros x Hx. apply strip_incl, H3, strip_incl, unquote_incl. exact Hx.
Qed.

Lemma existsb_eqb_false (c : char) (s : str) :
  ~ In c s -> existsb (N.eqb c) s = false.
Proof.
  intros H. destruct (existsb (N.eqb c) s) eqn:E; [|reflexivity].
  apply existsb_exists in E as (x & Hx & Ex). apply N.eqb_eq in Ex. now subst x.
Qed.

Lemma load_lines_to_the_end (lines : list str) :
  forall (p : process) (n : nat),
    (forall line, In line lines -> ~ In 0%N line) ->
    snd (load_lines p n lines) = true.
Proof.
  induction lines as [|line rest IH]; intros p n Hn; cbn [load_lines]; [reflexivity|].
  pose proof (load_line_request p n line) as R.
  destruct (line_request line) as [[k v]|] eqn:Er.
  - destruct (line_request_parts _ _ _ Er) as (Hk & Heq & Hki & Hvi).
    assert (Hl : ~ In 0%N line) by (apply Hn; now left).
    rewrite R. destruct (truthy _); [apply IH; intros l Hin; apply Hn; now right|].
    unfold setenv. rewrite (str_eqb_neq _ _ Hk), (existsb_eqb_false _ _ Heq).
    rewrite !existsb_eqb_false by (intros H; apply Hl; auto). cbn [orb].
    apply IH. intros l Hin. apply Hn. now right.
  - destruct R as (p' & -> & _). apply IH. intros l Hin. apply Hn. now right.
Qed.

(** X6.  A file whose text holds no NUL character is always read to
    the end: [load_env_file] returns [True] for it, whatever its lines
    are and whatever the environment holds. *)
Theorem load_env_file_reads_to_the_end (p : process) (text : str)
    (Hnul : existsb (N.eqb 0) text = false) :
  fst (load_env_file p (Some text)) = true.
Proof.
  unfold load_env_file.
  pose proof (load_lines_to_the_end (file_lines text) p 1) as H.
  destruct (load_lines p 1 (file_lines text)) as [p' ok]. cbn [snd] in H.
  rewrite H; [reflexivity|]. intros line Hin Hz.
  destruct (lines_from_incl text [] line 0%N Hin Hz) as [[]|Hx].
  assert (E : existsb (N.eqb 0) text = true); [|congruence].
  apply existsb_exists. exists 0%N. split; [exact Hx|reflexivity].
Qed.

End EnvReload.

(** ** Start-up of the environment *)

Section StartUp.

Lemma load_env_file_grows (p : process) (file : option str) :
  env_grows (environ p) (environ (snd (load_env_file p file))).
Proof.
  unfold load_env_file. destruct file as [text|]; [|apply env_grows_refl].
  pose proof (load_lines_grows (file_lines text) p 1) as H.
  destruct (load_lines p 1 (file_lines text)) as [p' [|]]; exact H.
Qed.

Lemma strip_nil : strip [] = [].
Proof. reflexivity. Qed.

Lemma filled_grows (env env' : gmap str str) (var : str) :
  env_grows env env' -> filled env var -> filled env' var.
Proof.
  intros Hg (value & Hv & Hs). exists value. split; [|exact Hs].
  destruct (Hg var) as [_ Hk]. rewrite Hk; [exact Hv|].
  rewrite Hv. destruct value; [now rewrite strip_nil in Hs|reflexivity].
Qed.

Lemma last_snoc2 {A} (l : list A) (a b d : A) : List.last (l ++ [a; b]) d = b.
Proof.
  change [a; b] with ([a] ++ [b]). rewrite app_assoc. apply last_last.
Qed.

Lemma initialize_environment_parts (env : gmap str str) (file : option str) :
  init_env env file = environ (snd (load_env_file (mkProcess env []) file))
  /\ init_ok env file
     = is_valid (validate_required_env_vars (init_env env file) aws_vars).
Proof.
  unfold init_ok, init_env, initialize_environment.
  destruct (load_env_file (mkProcess env []) file) as [env_loaded p]. cbn [snd].
  destruct (is_valid _) eqn:E; cbn [negb fst snd]; now rewrite ?E.
Qed.

Lemma init_env_grows (env : gmap str str) (file : option str) :
  env_grows env (init_env env file).
Proof.
  destruct (initialize_environment_parts env file) as [-> _].
  apply (load_env_file_grows (mkProcess env []) file).
Qed.

(** X7.  [initialize_environment] returns [True] exactly when each of
    the three AWS variables is, after the loading of [.env], set to a
    text that is not blank, whether or not the file was found or read
    to the end; the loading unsets nothing and keeps every value that
    was not empty; without a file the environment is left as it was;
    and the last line printed tells the outcome. *)
Theorem initialize_environment_spec (env : gmap str str) (file : option str) :
  (init_ok env file = true <-> Forall (filled (init_env env file)) aws_vars)
  /\ env_grows env (init_env env file)
  /\ init_env env None = env
  /\ List.last (init_out env file) LineInitializing
     = (if init_ok env file then LineConfigured else LineConfigure).
Proof.
  split; [|split; [apply init_env_grows|split;
    [now destruct (initialize_environment_parts env None) as [-> _]|]]].
  - destruct (initialize_environment_parts env file) as [_ ->]. apply is_valid_filled.
  - unfold init_out, init_ok, initialize_environment.
    destruct (load_env_file (mkProcess env []) file) as [env_loaded p].
    destruct (negb _); cbn [fst snd]; [apply last_snoc2|apply last_last].
Qed.

(** X8.  When the three AWS variables are already set to texts that
    are not blank, [initialize_environment] returns [True] and leaves
    them as they are, whatever [.env] holds and also when there is no
    such file or it cannot be read to the end. *)
Theorem initialize_environment_ready (env : gmap str str) (file : option str)
    (Hready : Forall (filled env) aws_vars) :
  init_ok env file = true
  /\ forall var, In var aws_vars -> init_env env file !! var = env !! var.
Proof.
  pose proof (init_env_grows env file) as Hg. split.
  - destruct (initialize_environment_parts env file) as [_ ->]. apply is_valid_filled.
    eapply Forall_impl; [exact Hready|]. intros var. now apply filled_grows.
  - intros var Hin. rewrite Forall_forall in Hready.
    apply list_elem_of_In in Hin.
    destruct (Hready var Hin) as (value & Hv & Hs). destruct (Hg var) as [_ Hk].
    apply Hk. rewrite Hv. destruct value; [now rewrite strip_nil in Hs|reflexivity].
Qed.

(** X9.  A required variable that is set to white space only is never
    repaired by [.env]: the loader keeps it, since it is not empty, and
    [initialize_environment] returns [False] whatever the file gives
    for it. *)
Theorem initialize_environment_blank (env : gmap str str) (file : option str)
    (var value : str)
    (Hvar : In var aws_vars)
    (Hset : env !! var = Some value)
    (Hsome : value <> [])
    (Hblank : strip value = []) :
  init_ok env file = false /\ init_env env file !! var = Some value.
Proof.
  assert (Hkept : init_env env file !! var = Some value).
  { destruct (init_env_grows env file var) as [_ Hk]. rewrite Hk; [exact Hset|].
    rewrite Hset. now destruct value. }
  split; [|exact Hkept].
  destruct (init_ok env file) eqn:E; [|reflexivity].
  destruct (initialize_environment_parts env file) as [_ Hok]. rewrite Hok in E.
  apply is_valid_filled in E. rewrite Forall_forall in E.
  apply list_elem_of_In in Hvar.
  destruct (E var Hvar) as (v & Hv & Hs). congruence.
Qed.

End StartUp.

(** ** More on the data processor *)

Section HeaderDate.
Context {RT : Runtime}.

Lemma date_here_not_digit (c : char) (s : str) :
  is_digit c = false -> date_here (c :: s) = None.
Proof.
  intros H. unfold date_here.
  destruct s as [|d2 [|s1 [|m1 [|m2 [|s2 [|y1 [|y2 s]]]]]]]; try reflexivity.
  cbn [forallb]. now rewrite H.
Qed.

Lemma re_search_date_skip (pre s : str) :
  forallb (fun c => negb (is_digit c)) pre = true ->
  re_search_date (pre ++ s) = re_search_date s.
Proof.
  induction pre as [|c pre IH]; [reflexivity|]. cbn [forallb app].
  intros H. apply andb_prop in H as [Hc Hpre]. apply negb_true_iff in Hc.
  cbn [re_search_date]. rewrite (date_here_not_digit c _ Hc). now apply IH.
Qed.

(** X10.  The date of the banner is the first [dd/mm/yy] after a text
    without digits, whatever follows it: of a year written with four
    digits only the first two are read, so that [04/08/2025] gives the
    session date [04/08/2020]. *)
Theorem four_digit_year_is_cut
    (f : string) (lg : log) (pre rest : str) (d1 d2 m1 m2 y1 y2 : char)
    (Hbanner : banner f
               = pre ++ [d1; d2; ch "/"; m1; m2; ch "/"; y1; y2] ++ rest)
    (Hpre : forallb (fun c => negb (is_digit c)) pre = true)
    (Hdigits : forallb is_digit [d1; d2; m1; m2; y1; y2] = true) :
  re_search_date (banner f) = Some ([d1; d2], [m1; m2], [y1; y2])
  /\ fst (extract_date_from_header (Some f) lg)
     = Ok ([d1; d2] ++ py "/" ++ [m1; m2] ++ py "/" ++ py "20" ++ [y1; y2]).
Proof.
  assert (H : re_search_date (banner f) = Some ([d1; d2], [m1; m2], [y1; y2])).
  { rewrite Hbanner, (re_search_date_skip _ _ Hpre).
    cbn [app re_search_date date_here]. rewrite Hdigits.
    now rewrite !N.eqb_refl. }
  split; [exact H|].
  destruct (extract_date_from_header_ok f lg) as (lv & m & -> & _).
  cbn [fst]. unfold header_date. now rewrite H.
Qed.

End HeaderDate.

Section ProcessThenSave.
Context {RT : Runtime} {PQ : Parquet}.

(** X11.  Every table [process_csv_to_dataframe] returns can be handed
    to [save_to_parquet] as it is: the two time columns are there and
    hold timestamps, so the writer is reached, with the seven columns
    and the rows of the table, the two time columns as text; the only
    error left is the writer's own. *)
Theorem ingested_table_reaches_writer
    (f : string) (lg lg' : log) (df : DataFrame)
    (Hok : fst (process_csv_to_dataframe (Some f) lg) = Ok df) :
  fst (save_to_parquet df lg')
  = match to_parquet (mkFrame names7 (text_rows 5 6 (rows df))) with
    | Some file => Ok file
    | None => Raise WriteError
    end.
Proof.
  destruct (ingested_table_ready f lg df Hok) as (_ & _ & Hd & Ht).
  rewrite process_outcome in Hok.
  destruct (ingest_ok f df Hok) as (names & _ & _ & Hc & _).
  destruct df as [cols rs]. cbn [columns rows] in *. subst cols.
  unfold column_cells in Hd, Ht. cbn [columns rows] in Hd, Ht.
  change (col_index data_pregao names7) with (Some 5) in Hd.
  change (col_index timestamp_extracao names7) with (Some 6) in Ht.
  apply (save_to_parquet_run names7 rs 5 6 lg'); [reflexivity|reflexivity|exact Hd|exact Ht].
Qed.

End ProcessThenSave.

Section WriterCases.
Context {RT : Runtime} {PQ : Parquet}.

Lemma dt_strftime_fail (series : list cell) (lg : log) :
  forallb is_time series = false ->
  dt_strftime_Ymd series lg = (Raise AttributeError, lg).
Proof. unfold dt_strftime_Ymd. now intros ->. Qed.

Lemma get_column_missing (cols : list str) (rs : list (list cell)) (name : str) (lg : log) :
  col_index name cols = None ->
  get_column (mkFrame cols rs) name lg = (Raise (KeyError name), lg).
Proof. unfold get_column. simpl. now intros ->. Qed.

Lemma time_columns_apart (cols : list str) (jd jt : nat) :
  col_index data_pregao cols = Some jd ->
  col_index timestamp_extracao cols = Some jt -> jd <> jt.
Proof.
  intros Hd Ht ->. apply col_index_nth in Hd, Ht. rewrite Hd in Ht. discriminate.
Qed.

Lemma second_column_untouched (jd jt : nat) (rs : list (list cell)) :
  jd <> jt ->
  List.map (cell_at jt) (List.map (fun r => <[jd := time_text (cell_at jd r)]> r) rs)
  = List.map (cell_at jt) rs.
Proof.
  intros Hne. rewrite map_map. apply map_ext. intros r. now apply cell_at_insert_ne.
Qed.

(** X12.  [save_to_parquet] hands a table to the writer only when the
    session-date column and the extraction-time column both exist and
    hold nothing but timestamps, and then it hands the table with these
    two columns as text.  In every other case, and when the writer
    fails, nothing is returned: the error is logged once at ERROR and
    raised again, a missing column as [KeyError], a column that is not
    of timestamps as [AttributeError]. *)
Theorem save_to_parquet_cases (df : DataFrame) (lg : log) :
  let saving := [(INFO, MsgSaving); (INFO, MsgConverting)] in
  match save_to_parquet df lg with
  | (Ok file, lg') =>
      lg' = lg ++ saving ++ [(INFO, MsgSaved)]
      /\ exists jd jt,
           col_index data_pregao (columns df) = Some jd
           /\ col_index timestamp_extracao (columns df) = Some jt
           /\ forallb is_time (List.map (cell_at jd) (rows df)) = true
           /\ forallb is_time (List.map (cell_at jt) (rows df)) = true
           /\ to_parquet (mkFrame (columns df) (text_rows jd jt (rows df))) = Some file
  | (Raise e, lg') =>
      lg' = lg ++ saving ++ [(ERROR, MsgSaveError)]
      /\ e = match col_index data_pregao (columns df),
                   col_index timestamp_extracao (columns df) with
             | None, _ => KeyError data_pregao
             | Some jd, jt =>
                 if negb (forallb is_time (List.map (cell_at jd) (rows df)))
                 then AttributeError
                 else match jt with
                      | None => KeyError timestamp_extracao
                      | Some jt =>
                          if negb (forallb is_time (List.map (cell_at jt) (rows df)))
                          then AttributeError
                          else WriteError
                      end
             end
  end.
Proof.
  cbv zeta. destruct df as [cols rs]. cbn [columns rows].
  unfold save_to_parquet, try_except, logger_process, logger_success, logger_failure.
  rewrite !bind_emit. cbv zeta.
  destruct (col_index data_pregao cols) as [jd|] eqn:Hd.
  2:{ unfold bind at 1. rewrite (get_column_missing cols rs _ _ Hd).
      unfold bind, emit, raise. split; [now rewrite <- !app_assoc|reflexivity]. }
  unfold bind at 1. rewrite (get_column_at cols rs data_pregao jd _ Hd).
  destruct (forallb is_time (List.map (cell_at jd) rs)) eqn:Hdt; cbn [negb].
  2:{ unfold bind at 1. rewrite (dt_strftime_fail _ _ Hdt).
      unfold bind, emit, raise. split; [now rewrite <- !app_assoc|reflexivity]. }
  unfold bind at 1. rewrite (dt_strftime_ok _ _ Hdt).
  rewrite map_map, (set_column_at cols rs data_pregao jd _ Hd).
  destruct (col_index timestamp_extracao cols) as [jt|] eqn:Ht.
  2:{ unfold bind at 1. rewrite (get_column_missing cols _ _ _ Ht).
      unfold bind, emit, raise. split; [now rewrite <- !app_assoc|reflexivity]. }
  unfold bind at 1. rewrite (get_column_at cols _ timestamp_extracao jt _ Ht).
  pose proof (second_column_untouched jd jt rs (time_columns_apart cols jd jt Hd Ht))
    as Hcol.
  destruct (forallb is_time (List.map (cell_at jt) rs)) eqn:Htt; cbn [negb].
  2:{ unfold bind at 1. rewrite dt_strftime_fail by (now rewrite Hcol).
      unfold bind, emit, raise. split; [now rewrite <- !app_assoc|reflexivity]. }
  unfold bind at 1. rewrite dt_strftime_ok by (now rewrite Hcol).
  rewrite map_map, (set_column_at cols _ timestamp_extracao jt _ Ht).
  fold (text_rows jd jt rs).
  destruct (to_parquet _) as [file|] eqn:Hw.
  - unfold bind, emit, ret. split; [now rewrite <- !app_assoc|].
    exists jd, jt. now repeat split.
  - unfold bind, emit, raise. split; [now rewrite <- !app_assoc|reflexivity].
Qed.

End WriterCases.

Section ProcessLog.
Context {RT : Runtime}.

Lemma la_ret {A} (a : A) : logs_after (ret a) any_entries.
Proof. intros lg. exists []. now rewrite app_nil_r. Qed.

Lemma la_raise {A} (e : exn) (Q : A -> log -> Prop) : logs_after (raise e) Q.
Proof. intros lg. exists []. now rewrite app_nil_r. Qed.

Lemma la_emit (lv : level) (m : message) : logs_after (emit lv m) any_entries.
Proof. intros lg. now exists [(lv, m)]. Qed.

Lemma la_weaken {A} (m : M A) (Q : A -> log -> Prop) :
  logs_after m Q -> logs_after m any_entries.
Proof.
  intros H lg. specialize (H lg). destruct (m lg) as [[a|e] lg']; [|exact H].
  destruct H as (added & -> & _). now exists added.
Qed.

Lemma la_bind {A B} (m : M A) (k : A -> M B) (Q : B -> log -> Prop) :
  (forall b before added, Q b added -> Q b (before ++ added)) ->
  logs_after m any_entries ->
  (forall a, logs_after (k a) Q) ->
  logs_after (bind m k) Q.
Proof.
  intros Hq Hm Hk lg. unfold bind. specialize (Hm lg).
  destruct (m lg) as [[a|e] l1].
  - destruct Hm as (m1 & -> & _). specialize (Hk a (lg ++ m1)).
    destruct (k a (lg ++ m1)) as [[b|e] l2].
    + destruct Hk as (m2 & -> & H2). exists (m1 ++ m2).
      split; [now rewrite app_assoc|now apply Hq].
    + destruct Hk as (m2 & ->). exists (m1 ++ m2). now rewrite app_assoc.
  - exact Hm.
Qed.

Lemma any_entries_app {A} (b : A) (before added : log) :
  any_entries b added -> any_entries b (before ++ added).
Proof. exact (fun H => H). Qed.

Lemma ends_done_app (b : DataFrame) (before added : log) :
  ends_done b added -> ends_done b (before ++ added).
Proof. intros [pre ->]. exists (before ++ pre). now rewrite app_assoc. Qed.

Lemma la_if {A} (c : bool) (m1 m2 : M A) (Q : A -> log -> Prop) :
  logs_after m1 Q -> logs_after m2 Q -> logs_after (if c then m1 else m2) Q.
Proof. now destruct c. Qed.

Lemma la_get_column (df : DataFrame) (name : str) :
  logs_after (get_column df name) any_entries.
Proof. unfold get_column. destruct (col_index _ _); [apply la_ret|apply la_raise]. Qed.

Lemma la_str_accessor (g : str -> str) (series : list cell) :
  logs_after (str_accessor g series) any_entries.
Proof. unfold str_accessor. destruct (existsb _ _); [apply la_ret|apply la_raise]. Qed.

Lemma la_extract_date (file : option string) :
  logs_after (extract_date_from_header file) any_entries.
Proof.
  unfold extract_date_from_header, logger_info, logger_warning.
  destruct file as [f|].
  - destruct (re_search_date _) as [[[d m] y]|];
      (apply la_bind; [apply any_entries_app|apply la_emit|intros; apply la_ret]).
  - apply la_bind; [apply any_entries_app|apply la_emit|intros; apply la_ret].
Qed.

Lemma la_indices (names cols : list str) : logs_after (indices names cols) any_entries.
Proof.
  induction names as [|n t IH]; cbn [indices]; [apply la_ret|].
  destruct (col_index n cols); [|apply la_raise].
  apply la_bind; [apply any_entries_app|exact IH|intros; apply la_ret].
Qed.

Lemma la_dropna_subset (df : DataFrame) (names : list str) :
  logs_after (dropna_subset df names) any_entries.
Proof.
  unfold dropna_subset.
  apply la_bind; [apply any_entries_app|apply la_indices|intros; apply la_ret].
Qed.

Lemma la_validate (df : DataFrame) : logs_after (validate_dataframe df) any_entries.
Proof.
  unfold validate_dataframe, logger_failure, logger_success.
  destruct (df_empty df); [|destruct (bool_decide _)];
    (apply la_bind; [apply any_entries_app|apply la_emit|intros; apply la_ret]).
Qed.

Lemma la_done (df : DataFrame) :
  logs_after (logger_success (MsgDone (length (rows df))) ;;; ret df) ends_done.
Proof.
  intros lg. unfold logger_success, bind, emit, ret.
  eexists. split; [reflexivity|]. now exists [].
Qed.

Lemma la_clean_frame (f : string) (df : DataFrame) :
  logs_after (clean_frame f df) ends_done.
Proof.
  unfold clean_frame, logger_info, logger_process. cbv zeta.
  repeat first
    [ apply la_done
    | apply la_raise
    | apply la_emit
    | apply la_ret
    | apply la_get_column
    | apply la_str_accessor
    | apply la_extract_date
    | apply la_dropna_subset
    | apply la_validate
    | apply ends_done_app
    | apply any_entries_app
    | apply la_if
    | (apply la_bind; [| |intros ?]) ].
Qed.

Lemma la_process_body (f : string) : logs_after (process_body f) ends_done.
Proof.
  unfold process_body, logger_info.
  apply la_bind; [apply ends_done_app| |intros num_cols].
  { unfold read_csv_probe. destruct (csv_records f); [apply la_raise|apply la_ret]. }
  apply la_bind; [apply ends_done_app|apply la_emit|intros _].
  apply la_bind; [apply ends_done_app| |intros names; apply la_clean_frame].
  unfold choose_columns.
  destruct (7 <=? num_cols); [apply la_ret|].
  destruct (5 <=? num_cols); [apply la_ret|apply la_raise].
Qed.

(** X13.  [process_csv_to_dataframe] only adds to the log.  When it
    returns a table, the last entry reports the number of rows of that
    table; when it fails, the last entry is the error, logged once at
    ERROR before it is raised again. *)
Theorem process_log (file : option string) (lg : log) :
  match process_csv_to_dataframe file lg with
  | (Ok df, lg') =>
      exists added, lg' = lg ++ added ++ [(INFO, MsgDone (length (rows df)))]
  | (Raise e, lg') =>
      exists added,
        lg' = lg ++ added
                 ++ [(ERROR, match e with
                             | FileNotFoundError => MsgFileNotFound
                             | _ => MsgUnexpected
                             end)]
  end.
Proof.
  unfold process_csv_to_dataframe, logger_process, logger_failure.
  destruct file as [f|]; [|now exists []].
  rewrite bind_emit. unfold try_except.
  pose proof (la_process_body f (lg ++ [(INFO, MsgReading)])) as H.
  destruct (process_body f _) as [[df|e] lg'].
  - destruct H as (added & -> & Hd). destruct Hd as [before ->].
    exists ((INFO, MsgReading) :: before). now rewrite <- !app_assoc.
  - destruct H as (added & ->).
    destruct e; unfold bind, emit, raise; exists ((INFO, MsgReading) :: added);
      now rewrite <- !app_assoc.
Qed.

End ProcessLog.

(** ** The uploader *)

Section Uploader.
Import S3Uploader UploaderViews.
Context {RT : Runtime} {S3I : S3}.

Ltac keys_apart := vm_compute; congruence.

Lemma config_from_env (env : gmap str str) :
  config_set (get_aws_config_from_env env) (py "aws_access_key_id")
  = truthy (env !! py "AWS_ACCESS_KEY_ID")
  /\ config_set (get_aws_config_from_env env) (py "aws_secret_access_key")
     = truthy (env !! py "AWS_SECRET_ACCESS_KEY")
  /\ config_set (get_aws_config_from_env env) (py "bucket_name")
     = truthy (env !! py "S3_BUCKET_NAME").
Proof.
  unfold config_set, entry, get_aws_config_from_env, getenv.
  repeat split.
Qed.

Lemma all_truthy (env : gmap str str) :
  Forall (fun var => truthy (env !! var) = true) aws_vars
  <-> truthy (env !! py "AWS_ACCESS_KEY_ID")
      && truthy (env !! py "AWS_SECRET_ACCESS_KEY")
      && truthy (env !! py "S3_BUCKET_NAME") = true.
Proof.
  unfold aws_vars. rewrite !andb_true_iff. split.
  - intros H. inversion H as [|? ? H1 H']; subst.
    inversion H' as [|? ? H2 H'']; subst. inversion H'' as [|? ? H3 ?]; subst.
    now repeat split.
  - intros [[H1 H2] H3]. repeat (constructor; [assumption|]). constructor.
Qed.

(** X14.  [S3Uploader()] is built exactly when the access key, the
    secret key and the bucket name are set in the environment to texts
    that are not empty.  Otherwise the constructor logs the fields that
    are missing and raises the error that lists them, in the order
    access key, secret key, bucket; in neither case is a client made or
    the service called. *)
Theorem new_uploader_spec (env : gmap str str) (w : service) :
  let made := new_uploader env w in
  (fst made = Returned tt
   <-> Forall (fun var => truthy (env !! var) = true) aws_vars)
  /\ (forall e, fst made = Raised e ->
        exists missing_fields,
          e = ConfigMissing missing_fields
          /\ notes (snd made) = [(ERROR, NoteConfigMissing missing_fields)]
          /\ missing_fields
             = List.map snd
                 (List.filter (fun vf => negb (truthy (env !! fst vf)))
                    (combine aws_vars required_fields)))
  /\ s3_client (snd made) = None
  /\ world (snd made) = w.
Proof.
  cbv zeta. unfold new_uploader, _validate_aws_config, then_, read_.
  cbn [aws_config required_fields List.filter].
  destruct (config_from_env env) as (-> & -> & ->).
  rewrite (all_truthy env).
  unfold aws_vars, required_fields. cbn [combine List.filter List.map fst snd].
  destruct (truthy (env !! py "AWS_ACCESS_KEY_ID"));
    destruct (truthy (env !! py "AWS_SECRET_ACCESS_KEY"));
    destruct (truthy (env !! py "S3_BUCKET_NAME"));
    cbn [negb andb List.map fst snd log_ raise_ s3_client world notes app];
    (split; [split; intros H; (reflexivity || discriminate H)
            |split; [intros e H; try discriminate H; injection H as <-;
                     eexists; repeat split; reflexivity
                    |split; reflexivity]]).
Qed.

(** X15.  When [initialize_environment] has returned [True], the
    uploader can be built on the environment it left: the constructor
    finds its three fields and does not raise. *)
Theorem initialized_environment_builds_uploader
    (env : gmap str str) (file : option str) (w : service)
    (Hinit : init_ok env file = true) :
  new_uploader (init_env env file) w
  = (Returned tt,
     mkState None (get_aws_config_from_env (init_env env file)) w
       [(INFO, NoteConfigValidated)]).
Proof.
  destruct (initialize_environment_parts env file) as [_ Hok]. rewrite Hok in Hinit.
  apply is_valid_filled in Hinit.
  assert (Ht : forall var, In var aws_vars -> truthy (init_env env file !! var) = true).
  { intros var Hin. rewrite Forall_forall in Hinit. apply list_elem_of_In in Hin.
    destruct (Hinit var Hin) as (value & -> & Hs).
    destruct value; [now rewrite strip_nil in Hs|reflexivity]. }
  unfold new_uploader, _validate_aws_config, then_, read_.
  cbn [aws_config required_fields List.filter].
  destruct (config_from_env (init_env env file)) as (-> & -> & ->).
  rewrite !Ht by (unfold aws_vars; simpl; auto). reflexivity.
Qed.

Lemma moved_nil (st : state) : moved st (world st) [] = st.
Proof. destruct st. unfold moved. cbn. now rewrite app_nil_r. Qed.

Ltac run_uploader :=
  unfold test_bucket_access, upload_file, list_objects, get_object_info,
         ensure_client, _initialize_s3_client, the_client, config_item, entry,
         then_, catch_, read_, unit_, raise_, log_, call_, set_client, moved;
  cbn [s3_client aws_config world notes].

Lemma test_bucket_access_ready (st : state) (c : client) (b : option str) :
  s3_client st = Some c ->
  aws_config st !! py "bucket_name" = Some b ->
  test_bucket_access st
  = (Returned (is_none (fst (head_bucket c b (world st)))),
     moved st (snd (head_bucket c b (world st)))
       [(INFO, NoteBucketTesting b); bucket_note b (fst (head_bucket c b (world st)))]).
Proof.
  destruct st as [cl cfg w ns]. cbn [s3_client aws_config world]. intros -> Hb.
  run_uploader. rewrite Hb. cbn [s3_client aws_config world notes].
  destruct (head_bucket c b w) as [[e|] w1]; cbn [fst snd is_none bucket_note];
    cbn [s3_client aws_config world notes].
  - destruct e as [|code|]; cbn [s3_client aws_config world notes];
      try (now rewrite <- !app_assoc).
    destruct (str_eqb code (py "404")); [|destruct (str_eqb code (py "403"))];
      cbn [s3_client aws_config world notes]; now rewrite <- !app_assoc.
  - now rewrite <- !app_assoc.
Qed.

Lemma upload_ready
    (st : state) (c : client) (b : option str)
    (file_path : path) (st_size : N) (s3_key : option str)
    (metadata : option (gmap str str))
    (Hclient : s3_client st = Some c)
    (Hbucket : aws_config st !! py "bucket_name" = Some b) :
  let tested := head_bucket c b (world st) in
  let sent := client_upload_file c (path_text file_path) b (sent_key s3_key)
                {[ py "Metadata" := sent_metadata file_path st_size metadata ]}
                (snd tested) in
  upload_file file_path (Some st_size) s3_key metadata st
  = match fst tested with
    | Some e =>
        (Returned false,
         moved st (snd tested) [(INFO, NoteBucketTesting b); bucket_note b (Some e)])
    | None =>
        (Returned (is_none (fst sent)),
         moved st (snd sent)
           [(INFO, NoteBucketTesting b);
            (INFO, NoteBucketAccessible b);
            (INFO, NoteUploadStarting (path_text file_path) b (sent_key s3_key));
            (INFO, NoteMetadata (sent_metadata file_path st_size metadata));
            (INFO, NoteUploading b (sent_key s3_key));
            match fst sent with
            | None => (INFO, NoteUploaded b (sent_key s3_key))
            | Some e => upload_note e
            end])
    end.
Proof.
  cbv zeta.
  assert (Hargs : forall d : gmap str str,
            <[py "Metadata" := d]>
              (match metadata with
               | Some d' => if dict_set metadata then <[py "Metadata" := d']> ∅ else ∅
               | None => ∅
               end : gmap str (gmap str str))
            = {[ py "Metadata" := d ]}).
  { intros d. destruct metadata as [d'|]; [|reflexivity].
    destruct (dict_set (Some d')); [|reflexivity]. apply insert_insert_eq. }
  assert (Hmeta : match metadata with
                  | Some d => if dict_set metadata
                              then d ∪ default_metadata file_path st_size
                              else default_metadata file_path st_size
                  | None => default_metadata file_path st_size
                  end = sent_metadata file_path st_size metadata).
  { unfold sent_metadata, dict_set. destruct metadata as [d|]; [|reflexivity].
    destruct (bool_decide (d = ∅)) eqn:E; [|reflexivity]. cbn [negb].
    apply bool_decide_eq_true in E. subst d. now rewrite (left_id_L ∅ (∪)). }
  unfold upload_file. unfold then_ at 1.
  assert (He : ensure_client st = (Returned tt, st)).
  { unfold ensure_client, then_, read_, unit_. now rewrite Hclient. }
  rewrite He. unfold then_ at 1.
  assert (Hc : config_item (py "bucket_name") st = (Returned b, st)).
  { unfold config_item, entry, then_, read_, unit_. now rewrite Hbucket. }
  rewrite Hc. unfold catch_. unfold then_ at 1.
  rewrite (test_bucket_access_ready st c b Hclient Hbucket).
  fold (default_metadata file_path st_size). fold (sent_key s3_key).
  rewrite Hmeta, Hargs.
  destruct (head_bucket c b (world st)) as [[e|] w1]; cbn [fst snd is_none negb].
  { reflexivity. }
  destruct st as [cl cfg w ns]. cbn [s3_client aws_config world notes] in *. subst cl.
  run_uploader.
  destruct (client_upload_file c _ b _ _ w1) as [[e|] w2]; cbn [fst snd is_none];
    cbn [s3_client aws_config world notes bucket_note].
  - destruct e; cbn [upload_note s3_client aws_config world notes];
      now rewrite <- !app_assoc.
  - now rewrite <- !app_assoc.
Qed.

(** X16.  With its client made and a bucket configured, [upload_file]
    does not raise for a file that exists.  It asks [head_bucket]
    first; when that fails it logs the failure and returns [False]
    without any transfer.  Otherwise it transfers the file once, to the
    key given or else to the key of today's file, with the caller's
    metadata laid over the three default entries, and returns [True]
    exactly when the transfer succeeds; a failed transfer is logged and
    gives [False].  In the metadata sent an entry of the caller
    replaces the default entry of the same key. *)
Theorem upload_file_outcome
    (st : state) (c : client) (b : option str)
    (file_path : path) (st_size : N) (s3_key : option str)
    (metadata : option (gmap str str))
    (Hclient : s3_client st = Some c)
    (Hbucket : aws_config st !! py "bucket_name" = Some b) :
  let tested := head_bucket c b (world st) in
  let sent := client_upload_file c (path_text file_path) b (sent_key s3_key)
                {[ py "Metadata" := sent_metadata file_path st_size metadata ]}
                (snd tested) in
  (upload_file file_path (Some st_size) s3_key metadata st
   = match fst tested with
    | Some e =>
        (Returned false,
         moved st (snd tested) [(INFO, NoteBucketTesting b); bucket_note b (Some e)])
    | None =>
        (Returned (is_none (fst sent)),
         moved st (snd sent)
           [(INFO, NoteBucketTesting b);
            (INFO, NoteBucketAccessible b);
            (INFO, NoteUploadStarting (path_text file_path) b (sent_key s3_key));
            (INFO, NoteMetadata (sent_metadata file_path st_size metadata));
            (INFO, NoteUploading b (sent_key s3_key));
            match fst sent with
            | None => (INFO, NoteUploaded b (sent_key s3_key))
            | Some e => upload_note e
            end])
    end)
  /\ (forall key,
        sent_metadata file_path st_size metadata !! key
        = match metadata ≫= (fun d => d !! key) with
          | Some value => Some value
          | None => default_metadata file_path st_size !! key
          end).
Proof.
  cbv zeta. split; [exact (upload_ready st c b file_path st_size s3_key metadata
                             Hclient Hbucket)|].
  intros key. unfold sent_metadata. destruct metadata as [d|]; [|reflexivity].
  rewrite lookup_union. change (Some d ≫= (fun d0 => d0 !! key)) with (d !! key).
  destruct (d !! key); now destruct (default_metadata file_path st_size !! key).
Qed.

Lemma ensure_client_first (st : state) (region key_id secret : option str) :
  s3_client st = None ->
  aws_config st !! py "region_name" = Some region ->
  aws_config st !! py "aws_access_key_id" = Some key_id ->
  aws_config st !! py "aws_secret_access_key" = Some secret ->
  ensure_client st
  = match boto3_client (client_config_of (aws_config st) region key_id secret) with
    | inr c =>
        (Returned tt,
         mkState (Some c) (aws_config st) (world st)
           (notes st ++ [(INFO, NoteClientStarting region); (INFO, NoteClientReady)]))
    | inl e =>
        (Raised (Aws e),
         moved st (world st) [(INFO, NoteClientStarting region); (ERROR, NoteClientError)])
    end.
Proof.
  destruct st as [cl cfg w ns]. cbn [s3_client aws_config world notes].
  intros -> Hr Hk Hs. run_uploader. rewrite Hr. cbn [s3_client aws_config world notes].
  rewrite Hk. cbn [s3_client aws_config world notes].
  rewrite Hs. cbn [s3_client aws_config world notes].
  unfold client_config_of, config_set, entry.
  destruct (cfg !! py "aws_session_token") as [[[|t0 token]|]|] eqn:Ht;
    cbn [s3_client aws_config world notes]; rewrite ?Ht;
    cbn [s3_client aws_config world notes];
    destruct (boto3_client _) as [e|c]; cbn [s3_client aws_config world notes];
    now rewrite <- ?app_assoc.
Qed.

(** X17.  The client is made on the first use and only then.  An
    operation of an uploader without a client first asks boto3 for one,
    with the region, the two keys and, when it is set and not empty,
    the session token.  When boto3 refuses, the operation logs the
    error and raises it, the service is not called and the uploader
    stays without a client; otherwise the operation goes on as that of
    an uploader holding the new client. *)
Theorem client_is_made_on_first_use
    (st : state) (region key_id secret : option str)
    (Hnone : s3_client st = None)
    (Hregion : aws_config st !! py "region_name" = Some region)
    (Hkey : aws_config st !! py "aws_access_key_id" = Some key_id)
    (Hsecret : aws_config st !! py "aws_secret_access_key" = Some secret) :
  let starting := (INFO, NoteClientStarting region) in
  match boto3_client (client_config_of (aws_config st) region key_id secret) with
  | inr c =>
      let ready := mkState (Some c) (aws_config st) (world st)
                     (notes st ++ [starting; (INFO, NoteClientReady)]) in
      test_bucket_access st = test_bucket_access ready
      /\ (forall file_path st_size s3_key metadata,
            upload_file file_path (Some st_size) s3_key metadata st
            = upload_file file_path (Some st_size) s3_key metadata ready)
      /\ (forall prefix, list_objects prefix st = list_objects prefix ready)
      /\ (forall s3_key, get_object_info s3_key st = get_object_info s3_key ready)
  | inl e =>
      let failed := moved st (world st) [starting; (ERROR, NoteClientError)] in
      test_bucket_access st = (Raised (Aws e), failed)
      /\ (forall file_path st_size s3_key metadata,
            upload_file file_path (Some st_size) s3_key metadata st
            = (Raised (Aws e), failed))
      /\ (forall prefix, list_objects prefix st = (Raised (Aws e), failed))
      /\ (forall s3_key, get_object_info s3_key st = (Raised (Aws e), failed))
  end.
Proof.
  cbv zeta.
  pose proof (ensure_client_first st region key_id secret Hnone Hregion Hkey Hsecret) as He.
  destruct (boto3_client _) as [e|c].
  - repeat split; intros;
      unfold test_bucket_access, upload_file, list_objects, get_object_info;
      unfold then_ at 1; now rewrite He.
  - assert (Hready : forall ready, ready = mkState (Some c) (aws_config st) (world st)
                        (notes st ++ [(INFO, NoteClientStarting region);
                                      (INFO, NoteClientReady)]) ->
                      ensure_client ready = (Returned tt, ready)).
    { intros ready ->. reflexivity. }
    repeat split; intros;
      unfold test_bucket_access, upload_file, list_objects, get_object_info;
      unfold then_ at 1; rewrite He;
      symmetry; unfold then_ at 1; now rewrite (Hready _ eq_refl).
Qed.

Lemma ensure_client_ready (st : state) (c : client) :
  s3_client st = Some c -> ensure_client st = (Returned tt, st).
Proof. intros H. unfold ensure_client, then_, read_, unit_. now rewrite H. Qed.

Lemma get_object_info_returns (st : state) (c : client) (s3_key : str) :
  s3_client st = Some c ->
  exists info, fst (get_object_info s3_key st) = Returned info.
Proof.
  destruct st as [cl cfg w ns]. cbn [s3_client aws_config world notes]. intros ->.
  run_uploader.
  destruct (cfg !! py "bucket_name") as [b|]; [|now eexists].
  cbn [s3_client aws_config world notes].
  destruct (head_object c b s3_key w) as [[[|code|]|response] w1]; try (now eexists).
  destruct (str_eqb code (py "404")); now eexists.
Qed.

(** X18.  Once the client is made, testing the bucket, listing and
    asking for an object never raise, whatever the service answers and
    also without a bucket in the configuration: a failure is logged and
    answered by [False], by the empty list or by [None].  With a
    bucket configured, [test_bucket_access] returns [True] exactly when
    [head_bucket] answers, [list_objects] returns the contents of the
    listing, none when the response has none or the call fails, and
    [get_object_info] returns the size, the date, the tag and the
    metadata of the response exactly when [head_object] answers,
    logging a code 404 as a warning and any other failure as an
    error. *)
Theorem reads_never_raise (st : state) (c : client) (Hclient : s3_client st = Some c) :
  (exists ok, fst (test_bucket_access st) = Returned ok)
  /\ (forall prefix, exists objects, fst (list_objects prefix st) = Returned objects)
  /\ (forall s3_key, exists info, fst (get_object_info s3_key st) = Returned info)
  /\ (forall b,
        aws_config st !! py "bucket_name" = Some b ->
        fst (test_bucket_access st)
        = Returned (is_none (fst (head_bucket c b (world st))))
        /\ (forall prefix,
              fst (list_objects prefix st)
              = Returned (match fst (list_objects_v2 c b prefix (world st)) with
                          | inr (Some contents) => contents
                          | _ => []
                          end))
        /\ (forall s3_key,
              get_object_info s3_key st
              = match head_object c b s3_key (world st) with
                | (inr response, w) =>
                    (Returned (Some (mkInfo (ContentLength response)
                                       (LastModified response) (ETag response)
                                       (default ∅ (Metadata response)))),
                     moved st w [])
                | (inl e, w) => (Returned None, moved st w [object_note s3_key e])
                end)).
Proof.
  split; [|split; [|split; [intros s3_key; now apply (get_object_info_returns _ c)|]]].
  - destruct st as [cl cfg w ns]. cbn [s3_client aws_config world notes] in *. subst cl.
    run_uploader. destruct (cfg !! py "bucket_name") as [b|]; [|now eexists].
    cbn [s3_client aws_config world notes].
    destruct (head_bucket c b w) as [[[|code|]|] w1]; try (now eexists).
    destruct (str_eqb code (py "404")); [|destruct (str_eqb code (py "403"))];
      now eexists.
  - destruct st as [cl cfg w ns]. cbn [s3_client aws_config world notes] in *. subst cl.
    intros prefix. run_uploader.
    destruct (cfg !! py "bucket_name") as [b|]; [|now eexists].
    cbn [s3_client aws_config world notes].
    destruct (list_objects_v2 c b prefix w) as [[e|contents] w1]; now eexists.
  - intros b Hb. split; [|split].
    + now rewrite (test_bucket_access_ready st c b Hclient Hb).
    + destruct st as [cl cfg w ns]. cbn [s3_client aws_config world notes] in *. subst cl.
      intros prefix. run_uploader. rewrite Hb. cbn [s3_client aws_config world notes].
      destruct (list_objects_v2 c b prefix w) as [[e|[contents|]] w1]; reflexivity.
    + destruct st as [cl cfg w ns]. cbn [s3_client aws_config world notes] in *. subst cl.
      intros s3_key. run_uploader. rewrite Hb.
      cbn [s3_client aws_config world notes].
      destruct (head_object c b s3_key w) as [[[|code|]|response] w1];
        cbn [object_note]; try reflexivity.
      * now destruct (str_eqb code (py "404")).
      * now rewrite app_nil_r.
Qed.

Lemma config_entries (env : gmap str str) :
  get_aws_config_from_env env !! py "region_name"
  = Some (Some (getenv_default env (py "AWS_REGION") (py "us-east-1")))
  /\ get_aws_config_from_env env !! py "aws_access_key_id"
     = Some (env !! py "AWS_ACCESS_KEY_ID")
  /\ get_aws_config_from_env env !! py "aws_secret_access_key"
     = Some (env !! py "AWS_SECRET_ACCESS_KEY")
  /\ get_aws_config_from_env env !! py "bucket_name"
     = Some (env !! py "S3_BUCKET_NAME").
Proof. unfold get_aws_config_from_env, getenv. repeat split. Qed.

Lemma new_uploader_state (env : gmap str str) (w : service) (st : state) :
  new_uploader env w = (Returned tt, st) ->
  st = mkState None (get_aws_config_from_env env) w [(INFO, NoteConfigValidated)].
Proof.
  unfold new_uploader, _validate_aws_config, then_, read_.
  cbn [aws_config]. destruct (List.filter _ _); [|discriminate].
  now intros [= <-].
Qed.

Lemma upload_first_use
    (st : state) (region key_id secret : option str)
    (file_path : path) (st_size : N) (s3_key : option str)
    (metadata : option (gmap str str)) :
  s3_client st = None ->
  aws_config st !! py "region_name" = Some region ->
  aws_config st !! py "aws_access_key_id" = Some key_id ->
  aws_config st !! py "aws_secret_access_key" = Some secret ->
  upload_file file_path (Some st_size) s3_key metadata st
  = match boto3_client (client_config_of (aws_config st) region key_id secret) with
    | inr c =>
        upload_file file_path (Some st_size) s3_key metadata
          (mkState (Some c) (aws_config st) (world st)
             (notes st ++ [(INFO, NoteClientStarting region); (INFO, NoteClientReady)]))
    | inl e =>
        (Raised (Aws e),
         moved st (world st) [(INFO, NoteClientStarting region); (ERROR, NoteClientError)])
    end.
Proof.
  intros Hnone Hregion Hkey Hsecret.
  pose proof (ensure_client_first st region key_id secret Hnone Hregion Hkey Hsecret) as He.
  destruct (boto3_client _) as [e|c].
  - unfold upload_file. unfold then_ at 1. now rewrite He.
  - unfold upload_file. unfold then_ at 1. rewrite He.
    symmetry. unfold then_ at 1. reflexivity.
Qed.

(** X19.  On an uploader built from the environment, [upload_file]
    for a file that exists raises only when boto3 refuses to make the
    client, and then before any call of the service; no key of the
    configuration is ever missing.  In every other case it returns
    [True] or [False], and the uploader holds a client afterwards. *)
Theorem upload_raises_only_client_errors
    (env : gmap str str) (w : service) (st : state)
    (file_path : path) (st_size : N) (s3_key : option str)
    (metadata : option (gmap str str))
    (Hbuilt : new_uploader env w = (Returned tt, st)) :
  let result := upload_file file_path (Some st_size) s3_key metadata st in
  (exists ok c, fst result = Returned ok /\ s3_client (snd result) = Some c)
  \/ (exists e, fst result = Raised (Aws e)
                /\ world (snd result) = w
                /\ s3_client (snd result) = None).
Proof.
  cbv zeta. apply new_uploader_state in Hbuilt. subst st.
  destruct (config_entries env) as (Hr & Hk & Hs & Hb).
  rewrite (upload_first_use
             (mkState None (get_aws_config_from_env env) w [(INFO, NoteConfigValidated)])
             _ _ _ file_path st_size s3_key metadata eq_refl Hr Hk Hs).
  cbn [aws_config world notes].
  destruct (boto3_client _) as [e|c].
  - right. exists e. now repeat split.
  - left.
    match goal with
    | |- context [upload_file _ _ _ _ ?ready] =>
        pose proof (upload_ready ready c _ file_path st_size s3_key metadata eq_refl Hb)
          as Hu
    end.
    rewrite Hu. cbn [aws_config world notes s3_client].
    destruct (head_bucket c _ w) as [[e|] w1]; cbn [fst snd].
    + now exists false, c.
    + eexists _, c. now split.
Qed.

End Uploader.

(** ** The upload stage of the pipeline *)

Section UploadStage.
Import S3Uploader UploaderViews Pipeline.
Context {RT : Runtime} {S3I : S3}.

Lemma stage_metadata_sent (parquet_path : path) (st_size : N)
    (target_date : datetime) (processing_date : str) :
  sent_metadata parquet_path st_size
    (Some {[ py "pipeline_version" := py "1.0";
             py "processing_date" := processing_date;
             py "data_date" := strftime_Ymd target_date;
             py "source" := py "b3-ibovespa" ]})
  = stage_metadata parquet_path st_size target_date processing_date.
Proof.
  unfold sent_metadata, stage_metadata, default_metadata.
  rewrite <- !insert_union_l.
  rewrite <- insert_union_singleton_l.
  now rewrite insert_insert_eq.
Qed.

(** X20.  The upload stage, with the client made, a bucket configured
    and the file in place, never raises.  It sends the file to the key
    [raw/parquet file/IBOVDia_dd-mm-yy.parquet] of the target date with
    six entries of metadata, among them the pipeline's own [source] in
    place of the uploader's default, and it returns [True] exactly when
    the bucket answers and the transfer succeeds: what the check of the
    object gives afterwards does not change the result. *)
Theorem upload_stage_outcome
    (self : pipeline) (c : client) (b : option str)
    (parquet_path : path) (st_size : N)
    (target_date : datetime) (processing_date : str)
    (Hclient : s3_client (uploader self) = Some c)
    (Hbucket : aws_config (uploader self) !! py "bucket_name" = Some b) :
  let s3_key := py "raw/parquet file/IBOVDia_" ++ strftime_dmy target_date ++ py ".parquet" in
  let tested := head_bucket c b (world (uploader self)) in
  let sent := client_upload_file c (path_text parquet_path) b s3_key
                {[ py "Metadata"
                   := stage_metadata parquet_path st_size target_date processing_date ]}
                (snd tested) in
  fst (_upload_data parquet_path (Some st_size) target_date processing_date self)
  = Returned (is_none (fst tested) && is_none (fst sent))
  /\ stage_metadata parquet_path st_size target_date processing_date !! py "source"
     = Some (py "b3-ibovespa").
Proof.
  cbv zeta. split; [|reflexivity].
  unfold _upload_data.
  cbv zeta.
  match goal with
  | |- context [upload_file _ _ ?k ?m _] =>
      pose proof (upload_ready (uploader self) c b parquet_path st_size k m
                    Hclient Hbucket) as Hu
  end.
  cbv zeta in Hu. rewrite Hu. clear Hu.
  rewrite stage_metadata_sent. cbn [sent_key].
  assert (Hk : get_s3_key (Some target_date)
               = py "raw/parquet file/IBOVDia_" ++ strftime_dmy target_date ++ py ".parquet").
  { unfold get_s3_key. cbv zeta. now rewrite parquet_name_of_date. }
  rewrite Hk.
  destruct (head_bucket c b _) as [[e|] w1]; cbn [fst snd is_none andb]; [reflexivity|].
  destruct (client_upload_file c _ b _ _ w1) as [[e|] w2]; cbn [fst snd is_none];
    [reflexivity|].
  match goal with
  | |- context [get_object_info ?k ?st] =>
      destruct (get_object_info_returns st c k Hclient) as [info Hinfo]
  end.
  destruct (get_object_info _ _) as [[[info'|]|e] st']; cbn [fst] in *;
    [reflexivity|reflexivity|discriminate Hinfo].
Qed.

End UploadStage.

(** ** The wait for the download *)

Section DownloadWait.
Import Scraper ScraperViews.
Context {SO : SetOrder}.

Lemma newest_from_spec (dir : directory) (files : list str) :
  forall (best : str) (sb : file_stat),
    dir !! best = Some sb ->
    (forall f, In f files -> is_Some (dir !! f)) ->
    exists n sn,
      newest_from dir best (st_mtime sb) files = Some n
      /\ (n = best \/ In n files)
      /\ dir !! n = Some sn
      /\ (st_mtime sb <= st_mtime sn)%Q
      /\ forall f s, In f files -> dir !! f = Some s -> (st_mtime s <= st_mtime sn)%Q.
Proof.
  induction files as [|f rest IH]; intros best sb Hb Hall; cbn [newest_from].
  - exists best, sb. repeat split; auto using Qle_refl. intros f s [].
  - destruct (Hall f (or_introl eq_refl)) as [sf Hf]. rewrite Hf.
    assert (Hrest : forall g, In g rest -> is_Some (dir !! g))
      by (intros g Hg; apply Hall; now right).
    destruct (Qle_bool (st_mtime sf) (st_mtime sb)) eqn:E.
    + apply Qle_bool_iff in E.
      destruct (IH best sb Hb Hrest) as (n & sn & Hn & Hin & Hsn & Hle & Hmax).
      exists n, sn. repeat split; auto.
      * destruct Hin as [->|Hin]; [now left|right; now right].
      * intros g s [<-|Hg] Hs; [|now apply (Hmax g)].
        rewrite Hf in Hs. injection Hs as <-. now apply Qle_trans with (st_mtime sb).
    + assert (Hlt : (st_mtime sb < st_mtime sf)%Q).
      { apply Qnot_le_lt. intros H. apply Qle_bool_iff in H. congruence. }
      destruct (IH f sf Hf Hrest) as (n & sn & Hn & Hin & Hsn & Hle & Hmax).
      exists n, sn. repeat split; auto.
      * right. destruct Hin as [->|Hin]; [now left|now right].
      * apply Qle_trans with (st_mtime sf); [now apply Qlt_le_weak|exact Hle].
      * intros g s [<-|Hg] Hs; [|now apply (Hmax g)].
        rewrite Hf in Hs. now injection Hs as <-.
Qed.

Lemma newest_spec (dir : directory) (files : list str) :
  files <> [] ->
  (forall f, In f files -> is_Some (dir !! f)) ->
  exists n sn,
    newest dir files = Some n
    /\ In n files
    /\ dir !! n = Some sn
    /\ forall f s, In f files -> dir !! f = Some s -> (st_mtime s <= st_mtime sn)%Q.
Proof.
  destruct files as [|f rest]; [congruence|]. intros _ Hall. cbn [newest].
  destruct (Hall f (or_introl eq_refl)) as [sf Hf]. rewrite Hf.
  destruct (newest_from_spec dir rest f sf Hf) as (n & sn & Hn & Hin & Hsn & Hle & Hmax).
  { intros g Hg. apply Hall. now right. }
  exists n, sn. repeat split; auto.
  - destruct Hin as [->|Hin]; [now left|now right].
  - intros g s [<-|Hg] Hs; [|now apply (Hmax g)].
    rewrite Hf in Hs. now injection Hs as <-.
Qed.

Lemma glob_ibov_spec (dir : directory) (name : str) :
  name ∈ glob_ibov dir <-> matches_ibov name = true /\ is_Some (dir !! name).
Proof.
  unfold glob_ibov. rewrite elem_of_filter.
  split; intros [H1 H2]; (split; [exact H1|]); now apply elem_of_dom.
Qed.

Lemma poll_cases (before dir : directory) (expected_filename : str) :
  match poll (glob_ibov before) expected_filename dir with
  | Found name said =>
      (name = expected_filename
       /\ exists s, dir !! name = Some s /\ (0 < st_size s)%N)
      \/ (newest_new before dir name
          /\ forall s, dir !! expected_filename = Some s -> st_size s = 0%N)
  | NotYet => forall s, dir !! expected_filename = Some s -> st_size s = 0%N
  | StatFailed => False
  end.
Proof.
  unfold poll.
  destruct (dir !! expected_filename) as [se|] eqn:He.
  - destruct (0 <? st_size se)%N eqn:Hz.
    + left. split; [reflexivity|]. exists se. split; [exact He|].
      now apply N.ltb_lt.
    + assert (Hempty : forall s, Some se = Some s -> st_size s = 0%N).
      { intros s [= <-]. apply N.ltb_ge in Hz. lia. }
      revert Hempty. generalize (Some se). intros o Hempty. clear He.
      destruct (bool_decide _) eqn:Hn; cbn [negb]; [exact Hempty|].
      apply bool_decide_eq_false in Hn.
      destruct (newest_spec dir (iteration (glob_ibov dir ∖ glob_ibov before)))
        as (n & sn & -> & Hin & Hsn & Hmax).
      { intros E. apply Hn. apply set_eq. intros x. rewrite <- iteration_elements, E.
        split; [intros []|set_solver]. }
      { intros f Hf. apply iteration_elements in Hf.
        apply elem_of_difference in Hf as [Hf _]. now apply glob_ibov_spec in Hf. }
      rewrite Hsn. destruct (0 <? st_size sn)%N eqn:Hs; [|exact Hempty].
      right. split; [|exact Hempty].
      apply iteration_elements, elem_of_difference in Hin as [Hg Hb].
      exists sn. repeat split; auto.
      * now apply N.ltb_lt.
      * now apply glob_ibov_spec in Hg.
      * intros f s' Hf Hfb Hs'. apply (Hmax f s'); [|exact Hs'].
        apply iteration_elements, elem_of_difference. now split.
  - assert (Hempty : forall s, (None : option file_stat) = Some s -> st_size s = 0%N)
      by discriminate.
    destruct (bool_decide _) eqn:Hn; cbn [negb]; [exact Hempty|].
    apply bool_decide_eq_false in Hn.
    destruct (newest_spec dir (iteration (glob_ibov dir ∖ glob_ibov before)))
      as (n & sn & -> & Hin & Hsn & Hmax).
    { intros E. apply Hn. apply set_eq. intros x. rewrite <- iteration_elements, E.
      split; [intros []|set_solver]. }
    { intros f Hf. apply iteration_elements in Hf.
      apply elem_of_difference in Hf as [Hf _]. now apply glob_ibov_spec in Hf. }
    rewrite Hsn. destruct (0 <? st_size sn)%N eqn:Hs; [|exact Hempty].
    right. split; [|exact Hempty].
    apply iteration_elements, elem_of_difference in Hin as [Hg Hb].
    exists sn. repeat split; auto.
    * now apply N.ltb_lt.
    * now apply glob_ibov_spec in Hg.
    * intros f s' Hf Hfb Hs'. apply (Hmax f s'); [|exact Hs'].
      apply iteration_elements, elem_of_difference. now split.
Qed.

Lemma wait_rounds_cases (polls : nat -> directory) (files_before : gset str)
    (expected_filename : str) (rounds : nat) :
  forall (i : nat) (said : list (level * wait_note)),
    match fst (wait_rounds rounds i polls files_before expected_filename said) with
    | Some (true, name) =>
        exists k more,
          i <= k < i + rounds
          /\ poll files_before expected_filename (polls k) = Found name more
          /\ forall j, i <= j < k ->
                poll files_before expected_filename (polls j) = NotYet
    | Some (false, name) =>
        name = []
        /\ forall j, i <= j < i + rounds ->
              poll files_before expected_filename (polls j) = NotYet
    | None =>
        exists k, poll files_before expected_filename (polls k) = StatFailed
    end.
Proof.
  induction rounds as [|rounds IH]; intros i said; cbn [wait_rounds fst].
  - split; [reflexivity|]. intros j Hj. lia.
  - destruct (poll files_before expected_filename (polls i)) as [name more| |] eqn:E;
      cbn [fst].
    + exists i, more. split; [lia|]. split; [exact E|]. intros j Hj. lia.
    + specialize (IH (S i) said).
      destruct (fst (wait_rounds rounds (S i) polls files_before expected_filename said))
        as [[[|] name]|].
      * destruct IH as (k & more & Hk & Hf & Hn). exists k, more.
        split; [lia|]. split; [exact Hf|]. intros j Hj.
        destruct (Nat.eq_dec j i) as [->|Hne]; [exact E|apply Hn; lia].
      * destruct IH as [-> Hn]. split; [reflexivity|]. intros j Hj.
        destruct (Nat.eq_dec j i) as [->|Hne]; [exact E|apply Hn; lia].
      * exact IH.
    + now exists i.
Qed.

(** X21.  The wait for the download never raises and ends within its
    thirty rounds.  When it reports a file, some round found that file
    in the directory and not empty, after rounds that found nothing:
    the file has the expected name, or else the expected file was
    absent or empty in that round and the file is one that matches
    [IBOVDia_*.csv], was not there before the wait and is as new as any
    other such file.  When it reports a failure, the name is empty and
    in none of the thirty rounds was the expected file there with
    something in it. *)
Theorem wait_for_download_sound
    (before : directory) (polls : nat -> directory) (expected_filename : str) :
  match fst (_wait_for_download_completion before polls expected_filename) with
  | Some (true, name) =>
      exists k,
        k < 30
        /\ ((name = expected_filename
             /\ exists s, polls k !! name = Some s /\ (0 < st_size s)%N)
            \/ (newest_new before (polls k) name
                /\ forall s, polls k !! expected_filename = Some s -> st_size s = 0%N))
        /\ forall j s, j < k -> polls j !! expected_filename = Some s -> st_size s = 0%N
  | Some (false, name) =>
      name = []
      /\ forall j s, j < 30 -> polls j !! expected_filename = Some s -> st_size s = 0%N
  | None => False
  end.
Proof.
  unfold _wait_for_download_completion. cbv zeta.
  change (range_length max_wait wait_interval) with 30.
  pose proof (wait_rounds_cases polls (glob_ibov before) expected_filename 30 0
                [(INFO, NoteWaiting expected_filename)]) as H.
  assert (Hnot : forall j,
            poll (glob_ibov before) expected_filename (polls j) = NotYet ->
            forall s, polls j !! expected_filename = Some s -> st_size s = 0%N).
  { intros j Hj. pose proof (poll_cases before (polls j) expected_filename) as Hc.
    now rewrite Hj in Hc. }
  destruct (fst (wait_rounds 30 0 polls (glob_ibov before) expected_filename _))
    as [[[|] name]|].
  - destruct H as (k & more & Hk & Hf & Hn). exists k. split; [lia|]. split.
    + pose proof (poll_cases before (polls k) expected_filename) as Hc.
      now rewrite Hf in Hc.
    + intros j s Hj. apply Hnot, Hn. lia.
  - destruct H as [-> Hn]. split; [reflexivity|]. intros j s Hj. apply Hnot, Hn. lia.
  - destruct H as [k Hk]. pose proof (poll_cases before (polls k) expected_filename) as Hc.
    now rewrite Hk in Hc.
Qed.

(** X22.  A file that is in the directory under the expected name,
    with something in it, when the first round looks, ends the wait at
    once as a finished download, whether or not it was already there
    before the wait began. *)
Theorem stale_file_ends_wait
    (before : directory) (polls : nat -> directory) (expected_filename : str)
    (s : file_stat)
    (Hthere : polls 0 !! expected_filename = Some s)
    (Hsize : (0 < st_size s)%N) :
  _wait_for_download_completion before polls expected_filename
  = (Some (true, expected_filename),
     [(INFO, NoteWaiting expected_filename); (INFO, NoteDownloaded expected_filename)]).
Proof.
  unfold _wait_for_download_completion. cbv zeta.
  change (range_length max_wait wait_interval) with 30.
  cbn [wait_rounds]. unfold poll. rewrite Hthere.
  apply N.ltb_lt in Hsize. now rewrite Hsize.
Qed.

End DownloadWait.

(** ** The download *)

Section DownloadRun.
Import Scraper Download.
Context {RT : Runtime} {SO : SetOrder} {SE : Selenium}.

Ltac run_download :=
  unfold download_ibov_data, _initialize_driver, _cleanup, driver_now, wait_step;
  unfold finally_, rescue_, next_, done_, fail_, say_, set_driver, ask_, look_;
  cbn [the_driver browser said].




(** X24.  The download does not check that the file it reports is
    new.  When the browser starts, opens the page and clicks, and the
    first round of the wait finds a file with the expected name and
    something in it, that name is returned as the download, whether
    the click produced it or an earlier run left it there. *)
Theorem download_reports_stale_file
    (st : scraper) (download_dir : str) (target_date : option datetime)
    (d : driver) (button : element) (w1 w2 w3 w4 : web) (s : file_stat)
    (Hstart : Chrome (_setup_chrome_options download_dir) (browser st) = (inr d, w1))
    (Hget : driver_get d B3_URL w1 = (None, w2))
    (Huntil : until_clickable d SELENIUM_TIMEOUT DOWNLOAD_XPATH w2 = (inr button, w3))
    (Hclick : click button w3 = (None, w4))
    (Hthere : round_listing w4 0 !! get_csv_filename target_date = Some s)
    (Hsize : (0 < st_size s)%N) :
  fst (download_ibov_data download_dir target_date st)
  = Done (get_csv_filename target_date).
Proof.
  destruct st as [old w0 notes]. cbn [the_driver browser said] in *.
  assert (Hw : _wait_for_download_completion (listing w4) (round_listing w4)
                 (get_csv_filename target_date)
               = (Some (true, get_csv_filename target_date),
                  [(INFO, NoteWaiting (get_csv_filename target_date));
                   (INFO, NoteDownloaded (get_csv_filename target_date))])).
  { unfold _wait_for_download_completion. cbv zeta.
    change (range_length max_wait wait_interval) with 30.
    cbn [wait_rounds]. unfold poll. rewrite Hthere.
    apply N.ltb_lt in Hsize. now rewrite Hsize. }
  run_download. rewrite Hstart. cbn [the_driver browser said].
  rewrite Hget. cbn [the_driver browser said].
  rewrite Huntil. cbn [the_driver browser said].
  rewrite Hclick. cbn [the_driver browser said].
  rewrite Hw. cbn [the_driver browser said]. rewrite str_eqb_refl.
  cbn [negb the_driver browser said].
  now destruct (quit d w4) as [[q|] w'].
Qed.

End DownloadRun.

(** ** The download stage of the pipeline *)

Section DownloadStageRun.
Import Scraper Download DownloadStage.
Context {RT : Runtime} {SO : SetOrder} {SE : Selenium}.

(** X25.  Whenever the download stage returns a file, the file bears
    the CSV name of the target date: a file the scraper delivered under
    another name has been renamed to it.  When that file is already
    there and downloads are to be skipped, the stage returns it without
    starting the browser; in every other case the scraper is run, and
    its error or the error of the renaming is passed on. *)
Theorem download_stage_names_the_file
    (download_dir : str) (target_date : datetime) (self : downloader) :
  let result := _download_data download_dir target_date self in
  let csv_filename := get_csv_filename (Some target_date) in
  (forall name, fst result = Done name -> name = csv_filename)
  /\ (if csv_exists self csv_filename && skip_download self
      then fst result = Done csv_filename
           /\ the_scraper (snd result) = the_scraper self
      else match download_ibov_data download_dir (Some target_date) (the_scraper self) with
           | (Failed e, sc) => fst result = Failed e /\ the_scraper (snd result) = sc
           | (Done downloaded_name, sc) =>
               if str_eqb downloaded_name csv_filename
               then fst result = Done csv_filename /\ the_scraper (snd result) = sc
               else browser (the_scraper (snd result))
                    = snd (rename downloaded_name csv_filename (browser sc))
                    /\ fst result
                       = if fst (rename downloaded_name csv_filename (browser sc))
                         then Done csv_filename
                         else Failed RenameError
           end).
Proof.
  cbv zeta. unfold _download_data.
  destruct (csv_exists self _ && skip_download self).
  { cbn [fst snd the_scraper]. split; [now intros name [= <-]|now split]. }
  destruct (download_ibov_data download_dir (Some target_date) (the_scraper self))
    as [[downloaded_name|e] sc].
  2:{ cbn [fst snd the_scraper]. split; [discriminate|now split]. }
  destruct (str_eqb downloaded_name _) eqn:E; cbn [negb].
  - apply str_eqb_eq in E. subst downloaded_name. cbn [fst snd the_scraper].
    split; [now intros name [= <-]|now split].
  - destruct (rename downloaded_name _ (browser sc)) as [[|] w];
      cbn [fst snd the_scraper browser].
    + split; [now intros name [= <-]|now split].
    + split; [discriminate|now split].
Qed.

End DownloadStageRun.

(** ** Instances of the added properties *)

Section MoreInstances.
Import MoreSamples S3Uploader UploaderViews Pipeline Scraper Download.

Lemma csv_name_collision_witness :
  (day (midnight 2025 8 4) < 100)%N
  /\ @get_csv_filename reference_runtime (Some (midnight 2025 8 4))
     = @get_csv_filename reference_runtime (Some (midnight 1925 8 4)).
Proof.
  split; [reflexivity|].
  apply (@csv_name_collision reference_runtime (midnight 2025 8 4) (midnight 1925 8 4));
    try reflexivity.
  repeat split; reflexivity.
Defined.

Lemma load_env_file_values_witness :
  fst (load_env_file sample_process (Some sample_env_file)) = true
  /\ environ (snd (load_env_file sample_process (Some sample_env_file)))
       !! py "S3_BUCKET_NAME"
     = final_value (environ sample_process) (requests (file_lines sample_env_file))
         (py "S3_BUCKET_NAME")
  /\ final_value (environ sample_process) (requests (file_lines sample_env_file))
       (py "S3_BUCKET_NAME")
     = Some (py "b3-data").
Proof.
  split; [vm_compute; reflexivity|]. split; [|vm_compute; reflexivity].
  apply load_env_file_values. vm_compute. reflexivity.
Defined.

Lemma load_env_file_reads_to_the_end_witness :
  existsb (N.eqb 0) sample_env_file = false
  /\ fst (load_env_file sample_process (Some sample_env_file)) = true.
Proof.
  split; [vm_compute; reflexivity|].
  apply load_env_file_reads_to_the_end. vm_compute. reflexivity.
Defined.

Lemma ready_env_filled : Forall (filled ready_env) aws_vars.
Proof.
  repeat constructor; apply var_filled_iff; vm_compute; reflexivity.
Qed.

Lemma initialize_environment_ready_witness :
  init_ok ready_env (Some sample_env_file) = true
  /\ init_env ready_env (Some sample_env_file) !! py "S3_BUCKET_NAME"
     = Some (py "b3-data").
Proof.
  destruct (initialize_environment_ready ready_env (Some sample_env_file) ready_env_filled)
    as [Hok Hkept].
  split; [exact Hok|].
  rewrite (Hkept (py "S3_BUCKET_NAME")); [reflexivity|].
  right. right. now left.
Defined.

Lemma initialize_environment_blank_witness :
  blank_key_env !! py "AWS_ACCESS_KEY_ID" = Some (py "   ")
  /\ init_ok blank_key_env (Some full_env_file) = false
  /\ init_env blank_key_env (Some full_env_file) !! py "AWS_ACCESS_KEY_ID"
     = Some (py "   ").
Proof.
  split; [reflexivity|].
  apply (initialize_environment_blank blank_key_env (Some full_env_file)
           (py "AWS_ACCESS_KEY_ID") (py "   ")).
  - now left.
  - reflexivity.
  - discriminate.
  - reflexivity.
Defined.

Lemma four_digit_year_is_cut_witness :
  banner long_year_csv = py "IBOV - Carteira do Dia 04/08/2025"
  /\ fst (@extract_date_from_header reference_runtime (Some long_year_csv) [])
     = Ok (py "04/08/2020").
Proof.
  split; [vm_compute; reflexivity|].
  exact (proj2 (@four_digit_year_is_cut reference_runtime long_year_csv []
                  (py "IBOV - Carteira do Dia ") (py "25")
                  (ch "0") (ch "4") (ch "0") (ch "8") (ch "2") (ch "0")
                  eq_refl eq_refl eq_refl)).
Defined.

Lemma ingested_table_reaches_writer_witness :
  fst (@process_csv_to_dataframe reference_runtime (Some ibov_csv) []) = Ok ibov_table
  /\ fst (@save_to_parquet plain_parquet ibov_table [])
     = Ok (mkFrame names7 (text_rows 5 6 (rows ibov_table))).
Proof.
  assert (H : fst (@process_csv_to_dataframe reference_runtime (Some ibov_csv) [])
              = Ok ibov_table) by (vm_compute; reflexivity).
  split; [exact H|].
  exact (@ingested_table_reaches_writer reference_runtime plain_parquet
           ibov_csv [] [] ibov_table H).
Defined.

Lemma initialized_environment_builds_uploader_witness :
  init_ok ∅ (Some full_env_file) = true
  /\ fst (@new_uploader memory_s3 (init_env ∅ (Some full_env_file)) []) = Returned tt.
Proof.
  assert (H : init_ok ∅ (Some full_env_file) = true) by (vm_compute; reflexivity).
  split; [exact H|].
  now rewrite (@initialized_environment_builds_uploader memory_s3 ∅
                 (Some full_env_file) [] H).
Defined.

Lemma upload_file_outcome_witness :
  @s3_client memory_s3 ready_uploader = Some tt
  /\ @upload_file reference_runtime memory_s3 parquet_path (Some 2048%N)
       (Some (py "raw/x.parquet")) (Some {[ py "source" := py "test" ]}) ready_uploader
     = (Returned true,
        moved ready_uploader
          [(Some (py "b3-data"), py "raw/x.parquet",
            {[ py "Metadata"
               := sent_metadata parquet_path 2048 (Some {[ py "source" := py "test" ]}) ]})]
          [(INFO, NoteBucketTesting (Some (py "b3-data")));
           (INFO, NoteBucketAccessible (Some (py "b3-data")));
           (INFO, NoteUploadStarting (path_text parquet_path) (Some (py "b3-data"))
                    (py "raw/x.parquet"));
           (INFO, NoteMetadata
                    (sent_metadata parquet_path 2048
                       (Some {[ py "source" := py "test" ]})));
           (INFO, NoteUploading (Some (py "b3-data")) (py "raw/x.parquet"));
           (INFO, NoteUploaded (Some (py "b3-data")) (py "raw/x.parquet"))])
  /\ sent_metadata parquet_path 2048 (Some {[ py "source" := py "test" ]}) !! py "source"
     = Some (py "test").
Proof.
  split; [reflexivity|].
  destruct (@upload_file_outcome reference_runtime memory_s3 ready_uploader tt
              (Some (py "b3-data")) parquet_path 2048%N (Some (py "raw/x.parquet"))
              (Some {[ py "source" := py "test" ]}) eq_refl eq_refl) as [Hrun Hmeta].
  split; [exact Hrun|]. rewrite Hmeta. reflexivity.
Defined.

Lemma client_is_made_on_first_use_witness :
  @s3_client memory_s3 fresh_uploader = None
  /\ @test_bucket_access memory_s3 fresh_uploader
     = @test_bucket_access memory_s3
         (@mkState memory_s3 (Some tt) (get_aws_config_from_env ready_env) []
            [(INFO, NoteClientStarting (Some (py "us-east-1"))); (INFO, NoteClientReady)]).
Proof.
  split; [reflexivity|].
  exact (proj1 (@client_is_made_on_first_use reference_runtime memory_s3 fresh_uploader
                  (Some (py "us-east-1")) (Some (py "AKIAEXAMPLE")) (Some (py "secret"))
                  eq_refl eq_refl eq_refl eq_refl)).
Defined.

Lemma reads_never_raise_witness :
  @s3_client memory_s3 ready_uploader = Some tt
  /\ exists ok, fst (@test_bucket_access memory_s3 ready_uploader) = Returned ok.
Proof.
  split; [reflexivity|].
  exact (proj1 (@reads_never_raise memory_s3 ready_uploader tt eq_refl)).
Defined.

Lemma upload_raises_only_client_errors_witness :
  @new_uploader memory_s3 ready_env []
  = (Returned tt,
     @mkState memory_s3 None (get_aws_config_from_env ready_env) [] [(INFO, NoteConfigValidated)])
  /\ exists ok c,
       fst (@upload_file reference_runtime memory_s3 parquet_path (Some 2048%N) None None
              (@mkState memory_s3 None (get_aws_config_from_env ready_env) []
                 [(INFO, NoteConfigValidated)]))
       = Returned ok
       /\ s3_client
            (snd (@upload_file reference_runtime memory_s3 parquet_path (Some 2048%N)
                    None None
                    (@mkState memory_s3 None (get_aws_config_from_env ready_env) []
                       [(INFO, NoteConfigValidated)])))
          = Some c.
Proof.
  split; [reflexivity|].
  destruct (@upload_raises_only_client_errors reference_runtime memory_s3 ready_env []
              (@mkState memory_s3 None (get_aws_config_from_env ready_env) []
                 [(INFO, NoteConfigValidated)])
              parquet_path 2048%N None None eq_refl) as [H|(e & H & _)].
  - exact H.
  - vm_compute in H. discriminate H.
Defined.

Lemma upload_stage_outcome_witness :
  @s3_client memory_s3 ready_uploader = Some tt
  /\ fst (@_upload_data reference_runtime memory_s3 parquet_path (Some 2048%N)
            (midnight 2025 8 4) (py "2025-08-05T09:30:00") (mkPipeline ready_uploader []))
     = Returned true.
Proof.
  split; [reflexivity|].
  exact (proj1 (@upload_stage_outcome reference_runtime memory_s3
                  (mkPipeline ready_uploader []) tt (Some (py "b3-data"))
                  parquet_path 2048%N (midnight 2025 8 4) (py "2025-08-05T09:30:00")
                  eq_refl eq_refl)).
Defined.

Lemma stale_file_ends_wait_witness :
  day_file ∈ @glob_ibov download_dir
  /\ @_wait_for_download_completion elements_order download_dir (fun _ => download_dir)
       day_file
     = (Some (true, day_file),
        [(INFO, NoteWaiting day_file); (INFO, NoteDownloaded day_file)]).
Proof.
  split.
  - apply glob_ibov_spec. split; [reflexivity|].
    eexists. apply lookup_singleton_eq.
  - apply (@stale_file_ends_wait elements_order download_dir (fun _ => download_dir)
             day_file (mkStat 2048 (1722800000 # 1))).
    + apply lookup_singleton_eq.
    + reflexivity.
Defined.

Lemma download_reports_stale_file_witness :
  day_file ∈ @glob_ibov download_dir
  /\ fst (@download_ibov_data reference_runtime elements_order still_browser
            (py "/srv/b3/downloads") (Some (midnight 2025 8 4))
            (@mkScraper still_browser None download_dir []))
     = Done day_file.
Proof.
  split.
  - apply glob_ibov_spec. split; [reflexivity|].
    eexists. apply lookup_singleton_eq.
  - apply (@download_reports_stale_file reference_runtime elements_order still_browser
             (@mkScraper still_browser None download_dir []) (py "/srv/b3/downloads")
             (Some (midnight 2025 8 4)) tt tt download_dir download_dir download_dir
             download_dir (mkStat 2048 (1722800000 # 1)));
      reflexivity.
Defined.

End MoreInstances.
